(** * Bean Machine Graph compiler: type lattice, graph builder, requirements fixer

    A shallow embedding of
    - [beanmachine/ppl/compiler/bmg_types.py]   (module [bt]),
    - [beanmachine/ppl/utils/bm_graph_builder.py] (module [bmgb]),
    - [beanmachine/ppl/compiler/fix_requirements.py] (module [fixer]),
    followed by the properties of the specification that were checked
    against them. *)

From Stdlib Require Import ZArith QArith.
From stdpp Require Import base decidable option list strings pretty relations.

Local Open Scope Z_scope.

(** ** Python results

    Fallible Python code returns a [result]: a value, or the exception
    that was raised. *)

Inductive exn :=
  | AssertionError (msg : string)
  | ValueError (msg : string)
  | OverflowError (msg : string)
  | IndexError (msg : string)
  | AttributeError (msg : string)
  | RecursionError (msg : string).

Inductive result (A : Type) :=
  | Ok (a : A)
  | Raise (e : exn).
Arguments Ok {A} a.
Arguments Raise {A} e.

(** Sequencing: the first exception ends the computation. *)
Definition and_then {A B} (r : result A) (f : A -> result B) : result B :=
  match r with
  | Ok a => f a
  | Raise e => Raise e
  end.

Notation "'let*' x ':=' m 'in' f" := (and_then m (fun x => f))
  (at level 10, x name, m at level 100, f at level 200, only parsing).

(** A list comprehension [f(x) for x in xs]. *)
Fixpoint comprehension {A B} (f : A -> result B) (xs : list A) : result (list B) :=
  match xs with
  | [] => Ok []
  | x :: xs =>
      let* y := f x in
      let* ys := comprehension f xs in
      Ok (y :: ys)
  end.

(** [assert b] *)
Definition asserted (b : bool) : result unit :=
  if b then Ok tt else Raise (AssertionError "").

(** [t[i]] on a tuple. *)
Definition index {A} (t : list A) (i : nat) : result A :=
  match t !! i with
  | Some x => Ok x
  | None => Raise (IndexError "tuple index out of range")
  end.

(** ** Python values that reach [type_of_value] *)

(** A Python [float]: a finite double is a rational number; the three
    other values are kept apart because [int(v)] raises on them. *)
Inductive pyfloat :=
  | Finite (q : Q)
  | PlusInf
  | MinusInf
  | NaN.

#[global] Instance Q_eq_dec : EqDecision Q.
Proof. solve_decision. Defined.
#[global] Instance pyfloat_eq_dec : EqDecision pyfloat.
Proof. solve_decision. Defined.

(** A float that is neither an infinity nor a NaN. *)
Definition is_finite (x : pyfloat) : Prop := exists q, x = Finite q.

(** [int(v)] for a float [v]: truncation towards zero; [OverflowError]
    on an infinity and [ValueError] on a NaN. *)
Definition int_of_float (v : pyfloat) : result Z :=
  match v with
  | Finite q => Ok (Z.quot (Qnum q) (Zpos (Qden q)))
  | PlusInf | MinusInf => Raise (OverflowError "cannot convert float infinity to integer")
  | NaN => Raise (ValueError "cannot convert float NaN to integer")
  end.

(** [v == i] for a float [v] and an int [i]. *)
Definition float_eq_int (v : pyfloat) (i : Z) : bool :=
  match v with
  | Finite q => Qeq_bool q (inject_Z i)
  | _ => false
  end.

(** [lo <= v] and [v <= hi] for a float [v] and a float literal. *)
Definition float_ge (v : pyfloat) (lo : Q) : bool :=
  match v with
  | Finite q => Qle_bool lo q
  | PlusInf => true
  | MinusInf | NaN => false
  end.

Definition float_le (v : pyfloat) (hi : Q) : bool :=
  match v with
  | Finite q => Qle_bool q hi
  | MinusInf => true
  | PlusInf | NaN => false
  end.

Module torch.
(** The objects of the [torch] package that the compiler names: the
    class [torch.Tensor] itself (a class object), which
    [fix_requirements.py] imports under the name [Tensor]. *)
Inductive class_object := Tensor.

(** A tensor value: its shape and its elements. *)
Record tensor := { shape : list Z; elements : list pyfloat }.

#[global] Instance tensor_eq_dec : EqDecision tensor.
Proof. solve_decision. Defined.
End torch.

(** ** bmg_types.py *)

Module bt.

Inductive BMGElementType :=
  | bool_element
  | natural_element
  | probability_element
  | positive_real_element
  | negative_real_element
  | real_element.

Definition element_short_name (e : BMGElementType) : string :=
  match e with
  | bool_element => "B"
  | natural_element => "N"
  | probability_element => "P"
  | positive_real_element => "R+"
  | negative_real_element => "R-"
  | real_element => "R"
  end.

Definition element_long_name (e : BMGElementType) : string :=
  match e with
  | bool_element => "bool"
  | natural_element => "natural"
  | probability_element => "probability"
  | positive_real_element => "positive real"
  | negative_real_element => "negative real"
  | real_element => "real"
  end.

(** The nine memoized matrix classes. *)
Inductive MatrixClass :=
  | BooleanMatrix_class
  | NaturalMatrix_class
  | ProbabilityMatrix_class
  | PositiveRealMatrix_class
  | NegativeRealMatrix_class
  | RealMatrix_class
  | SimplexMatrix_class
  | OneHotMatrix_class
  | ZeroMatrix_class.

(** A lattice type object.  The matrix classes are memoized in their
    initializer arguments, so an instance is identified by its class
    and its [(rows, columns)]; [bottom], [Tensor] and [Malformed] are
    the three module-level instances of [BMGLatticeType] itself.
    Python's [==] on these objects is identity, which is equality of
    this key. *)
Inductive BMGLatticeType :=
  | bottom
  | Tensor
  | Malformed
  | Matrix (cls : MatrixClass) (rows columns : Z).

#[global] Instance MatrixClass_eq_dec : EqDecision MatrixClass.
Proof. solve_decision. Defined.
#[global] Instance BMGElementType_eq_dec : EqDecision BMGElementType.
Proof. solve_decision. Defined.
#[global] Instance BMGLatticeType_eq_dec : EqDecision BMGLatticeType.
Proof. solve_decision. Defined.

Definition BooleanMatrix (rows columns : Z) := Matrix BooleanMatrix_class rows columns.
Definition NaturalMatrix (rows columns : Z) := Matrix NaturalMatrix_class rows columns.
Definition ProbabilityMatrix (rows columns : Z) := Matrix ProbabilityMatrix_class rows columns.
Definition PositiveRealMatrix (rows columns : Z) := Matrix PositiveRealMatrix_class rows columns.
Definition NegativeRealMatrix (rows columns : Z) := Matrix NegativeRealMatrix_class rows columns.
Definition RealMatrix (rows columns : Z) := Matrix RealMatrix_class rows columns.
Definition SimplexMatrix (rows columns : Z) := Matrix SimplexMatrix_class rows columns.
Definition OneHotMatrix (rows columns : Z) := Matrix OneHotMatrix_class rows columns.
Definition ZeroMatrix (rows columns : Z) := Matrix ZeroMatrix_class rows columns.

Definition One := OneHotMatrix 1 1.
Definition Zero := ZeroMatrix 1 1.
Definition Boolean := BooleanMatrix 1 1.
Definition Natural := NaturalMatrix 1 1.
Definition Probability := ProbabilityMatrix 1 1.
Definition PositiveReal := PositiveRealMatrix 1 1.
Definition NegativeReal := NegativeRealMatrix 1 1.
Definition Real := RealMatrix 1 1.
Definition top := Malformed.

(** *** Instance attributes, as the initializers set them *)

Record BMGMatrixType_attrs := {
  element_type : BMGElementType;
  short_name : string;
  long_name : string;
  rows : Z;
  columns : Z
}.

(** [BMGMatrixType.__init__] *)
Definition BMGMatrixType_init (element_type : BMGElementType)
    (short_name long_name : string) (rows columns : Z) : BMGMatrixType_attrs :=
  {| element_type := element_type;
     short_name := short_name;
     long_name := long_name;
     rows := rows;
     columns := columns |}.

(** [BroadcastMatrixType.__init__]: the names come from the
    [element_type] argument, the attribute from the literal
    [bool_element] handed to [BMGMatrixType.__init__]. *)
Definition BroadcastMatrixType_init (element_type : BMGElementType)
    (rows columns : Z) : BMGMatrixType_attrs :=
  let short_name :=
    if (rows =? 1) && (columns =? 1)
    then element_short_name element_type
    else "M" +:+ element_short_name element_type
         +:+ "[" +:+ pretty rows +:+ "," +:+ pretty columns +:+ "]" in
  let long_name :=
    if (rows =? 1) && (columns =? 1)
    then element_long_name element_type
    else pretty rows +:+ " x " +:+ pretty columns +:+ " "
         +:+ element_long_name element_type +:+ " matrix" in
  BMGMatrixType_init bool_element short_name long_name rows columns.

Definition BooleanMatrix_init (rows columns : Z) :=
  BroadcastMatrixType_init bool_element rows columns.
Definition NaturalMatrix_init (rows columns : Z) :=
  BroadcastMatrixType_init natural_element rows columns.
Definition ProbabilityMatrix_init (rows columns : Z) :=
  BroadcastMatrixType_init probability_element rows columns.
Definition PositiveRealMatrix_init (rows columns : Z) :=
  BroadcastMatrixType_init positive_real_element rows columns.
Definition NegativeRealMatrix_init (rows columns : Z) :=
  BroadcastMatrixType_init negative_real_element rows columns.
Definition RealMatrix_init (rows columns : Z) :=
  BroadcastMatrixType_init real_element rows columns.

Definition SimplexMatrix_init (rows columns : Z) :=
  BMGMatrixType_init probability_element
    ("S[" +:+ pretty rows +:+ "," +:+ pretty columns +:+ "]")
    (pretty rows +:+ " x " +:+ pretty columns +:+ " simplex matrix")
    rows columns.

Definition OneHotMatrix_init (rows columns : Z) :=
  let short_name :=
    if (rows =? 1) && (columns =? 1) then "OH"
    else "OH[" +:+ pretty rows +:+ "," +:+ pretty columns +:+ "]" in
  let long_name :=
    if (rows =? 1) && (columns =? 1) then "one-hot"
    else pretty rows +:+ " x " +:+ pretty columns +:+ " one-hot matrix" in
  BMGMatrixType_init bool_element short_name long_name rows columns.

Definition ZeroMatrix_init (rows columns : Z) :=
  let short_name :=
    if (rows =? 1) && (columns =? 1) then "Z"
    else "Z[" +:+ pretty rows +:+ "," +:+ pretty columns +:+ "]" in
  let long_name :=
    if (rows =? 1) && (columns =? 1) then "zero"
    else pretty rows +:+ " x " +:+ pretty columns +:+ " zero matrix" in
  BMGMatrixType_init bool_element short_name long_name rows columns.

(** [isinstance(t, BroadcastMatrixType)], by class. *)
Definition is_BroadcastMatrixType_class (c : MatrixClass) : bool :=
  match c with
  | BooleanMatrix_class | NaturalMatrix_class | ProbabilityMatrix_class
  | PositiveRealMatrix_class | NegativeRealMatrix_class | RealMatrix_class => true
  | SimplexMatrix_class | OneHotMatrix_class | ZeroMatrix_class => false
  end.

(** The initializer that each class runs. *)
Definition class_init (c : MatrixClass) : Z -> Z -> BMGMatrixType_attrs :=
  match c with
  | BooleanMatrix_class => BooleanMatrix_init
  | NaturalMatrix_class => NaturalMatrix_init
  | ProbabilityMatrix_class => ProbabilityMatrix_init
  | PositiveRealMatrix_class => PositiveRealMatrix_init
  | NegativeRealMatrix_class => NegativeRealMatrix_init
  | RealMatrix_class => RealMatrix_init
  | SimplexMatrix_class => SimplexMatrix_init
  | OneHotMatrix_class => OneHotMatrix_init
  | ZeroMatrix_class => ZeroMatrix_init
  end.

(** The attributes of a matrix type object; [None] for the three
    instances of [BMGLatticeType] that are not matrix types. *)
Definition matrix_attrs (t : BMGLatticeType) : option BMGMatrixType_attrs :=
  match t with
  | Matrix c r k => Some (class_init c r k)
  | _ => None
  end.

Definition is_BroadcastMatrixType (t : BMGLatticeType) : bool :=
  match t with
  | Matrix c _ _ => is_BroadcastMatrixType_class c
  | _ => false
  end.

Definition with_dimensions (t : BMGLatticeType) (rows columns : Z) : BMGLatticeType :=
  match t with
  | Matrix c _ _ => Matrix c rows columns
  | other => other
  end.

(** *** The supremum *)

Module table.
(* The local names of [_lookup]: [R = Real.__class__] and so on. *)
Abbreviation R := RealMatrix_class (only parsing).
Abbreviation RP := PositiveRealMatrix_class (only parsing).
Abbreviation RN := NegativeRealMatrix_class (only parsing).
Abbreviation P := ProbabilityMatrix_class (only parsing).
Abbreviation S := SimplexMatrix_class (only parsing).
Abbreviation N := NaturalMatrix_class (only parsing).
Abbreviation B := BooleanMatrix_class (only parsing).
Abbreviation OH := OneHotMatrix_class (only parsing).
Abbreviation Z := ZeroMatrix_class (only parsing).

(** [_lookup()[(tc, uc)]]: the dictionary of [_lookup], entry by
    entry and in the order of the source. *)
Definition _lookup (tc uc : MatrixClass) :=
  match tc, uc with
  | R, R => RealMatrix
  | R, RP => RealMatrix
  | R, RN => RealMatrix
  | R, P => RealMatrix
  | R, S => RealMatrix
  | R, N => RealMatrix
  | R, B => RealMatrix
  | R, OH => RealMatrix
  | R, Z => RealMatrix
  | RP, R => RealMatrix
  | RP, RP => PositiveRealMatrix
  | RP, RN => RealMatrix
  | RP, P => PositiveRealMatrix
  | RP, S => PositiveRealMatrix
  | RP, N => PositiveRealMatrix
  | RP, B => PositiveRealMatrix
  | RP, OH => PositiveRealMatrix
  | RP, Z => PositiveRealMatrix
  | RN, R => RealMatrix
  | RN, RP => RealMatrix
  | RN, RN => NegativeRealMatrix
  | RN, P => RealMatrix
  | RN, S => RealMatrix
  | RN, N => RealMatrix
  | RN, B => RealMatrix
  | RN, OH => RealMatrix
  | RN, Z => NegativeRealMatrix
  | P, R => RealMatrix
  | P, RP => PositiveRealMatrix
  | P, RN => RealMatrix
  | P, P => ProbabilityMatrix
  | P, S => ProbabilityMatrix
  | P, N => PositiveRealMatrix
  | P, B => ProbabilityMatrix
  | P, OH => ProbabilityMatrix
  | P, Z => ProbabilityMatrix
  | S, R => RealMatrix
  | S, RP => PositiveRealMatrix
  | S, RN => RealMatrix
  | S, P => ProbabilityMatrix
  | S, S => SimplexMatrix
  | S, N => PositiveRealMatrix
  | S, B => PositiveRealMatrix
  | S, OH => SimplexMatrix
  | S, Z => RealMatrix
  | N, R => RealMatrix
  | N, RP => PositiveRealMatrix
  | N, RN => RealMatrix
  | N, P => PositiveRealMatrix
  | N, S => PositiveRealMatrix
  | N, N => NaturalMatrix
  | N, B => NaturalMatrix
  | N, OH => NaturalMatrix
  | N, Z => NaturalMatrix
  | B, R => RealMatrix
  | B, RP => PositiveRealMatrix
  | B, RN => RealMatrix
  | B, P => ProbabilityMatrix
  | B, S => ProbabilityMatrix
  | B, N => NaturalMatrix
  | B, B => BooleanMatrix
  | B, OH => BooleanMatrix
  | B, Z => BooleanMatrix
  | OH, R => RealMatrix
  | OH, RP => PositiveRealMatrix
  | OH, RN => RealMatrix
  | OH, P => ProbabilityMatrix
  | OH, S => SimplexMatrix
  | OH, N => NaturalMatrix
  | OH, B => BooleanMatrix
  | OH, OH => OneHotMatrix
  | OH, Z => BooleanMatrix
  | Z, R => RealMatrix
  | Z, RP => PositiveRealMatrix
  | Z, RN => NegativeRealMatrix
  | Z, P => ProbabilityMatrix
  | Z, S => SimplexMatrix
  | Z, N => NaturalMatrix
  | Z, B => BooleanMatrix
  | Z, OH => BooleanMatrix
  | Z, Z => ZeroMatrix
  end.
End table.

Definition _lookup := table._lookup.

(** [_supremum(t, u)].  Past the five tests both arguments are matrix
    types (lemma [_supremum_operands_are_matrices]), so the two
    [isinstance] assertions of the source cannot fail; the last
    branch of the [match] is never taken. *)
Definition _supremum (t u : BMGLatticeType) : BMGLatticeType :=
  if bool_decide (t = u) then t
  else if bool_decide (t = bottom) then u
  else if bool_decide (u = bottom) then t
  else if bool_decide (t = top) || bool_decide (u = top) then top
  else if bool_decide (t = Tensor) || bool_decide (u = Tensor) then Tensor
  else match t, u with
       | Matrix tc trows tcolumns, Matrix uc urows ucolumns =>
           if negb (trows =? urows) || negb (tcolumns =? ucolumns) then Tensor
           else _lookup tc uc trows tcolumns
       | _, _ => top
       end.

(** The variadic [supremum]: a fold of [_supremum] from [bottom]. *)
Definition supremum (ts : list BMGLatticeType) : BMGLatticeType :=
  fold_left (fun result t => _supremum result t) ts bottom.

(** *** Requirements

    [Requirement = Union[BMGLatticeType, UpperBound]]: an exact bound
    is the bare type object, an upper bound wraps it. *)
Inductive Requirement :=
  | Exact (t : BMGLatticeType)
  | UpperBound (bound : BMGLatticeType).

#[global] Instance Requirement_eq_dec : EqDecision Requirement.
Proof. solve_decision. Defined.

Definition upper_bound (bound : Requirement) : Requirement :=
  match bound with
  | UpperBound _ => bound
  | Exact t => UpperBound t
  end.

Definition meets_requirement (t : BMGLatticeType) (r : Requirement) : bool :=
  if bool_decide (t = Malformed) then false
  else match r with
       | UpperBound bound => bool_decide (_supremum t bound = bound)
       | Exact u => bool_decide (t = u)
       end.

(** *** Classifying values *)

(** The values that are passed to [type_of_value], by the class that
    [isinstance] finds; [VOther] is a value of any other class. *)
Inductive pyvalue :=
  | VTensor (v : torch.tensor)
  | VBool (v : bool)
  | VInt (v : Z)
  | VFloat (v : pyfloat)
  | VOther.

#[global] Instance pyvalue_eq_dec : EqDecision pyvalue.
Proof. solve_decision. Defined.

Section type_of_value.
(** [_type_of_matrix] sums rows in floating point and compares the sum
    with a tolerance; it stays a parameter. *)
Variable _type_of_matrix : torch.tensor -> result BMGLatticeType.

(** The [isinstance(v, int)] branch of [type_of_value]. *)
Definition type_of_int (v : Z) : BMGLatticeType :=
  if v =? 0 then Zero
  else if v =? 1 then One
  else if v >=? 2 then Natural
  else NegativeReal.

(** [type_of_value(v)].  The recursive call [type_of_value(int(v))]
    of the float branch is on an [int], so it runs the branch
    [type_of_int]. *)
Definition type_of_value (v : pyvalue) : result BMGLatticeType :=
  match v with
  | VTensor t => _type_of_matrix t
  | VBool b => Ok (if b then One else Zero)
  | VInt i => Ok (type_of_int i)
  | VFloat f =>
      match int_of_float f with
      | Raise e => Raise e
      | Ok i =>
          if float_eq_int f i then Ok (type_of_int i)
          else if float_ge f 0 then
                 if float_le f 1 then Ok Probability else Ok PositiveReal
               else Ok NegativeReal
      end
  | VOther => Raise (ValueError "Unexpected value passed to type_of_value")
  end.
End type_of_value.

(** *** The type of a tensor value *)

(** The [isinstance(v, float)] branch of [type_of_value], which the
    calls [type_of_value(float(v))] and, for the one-element tensors
    that are the elements of a matrix, [type_of_value(element)] of
    [_type_of_matrix] run. *)
Definition type_of_float (v : pyfloat) : result BMGLatticeType :=
  let* i := int_of_float v in
  if float_eq_int v i then Ok (type_of_int i)
  else if float_ge v 0 then
         if float_le v 1 then Ok Probability else Ok PositiveReal
       else Ok NegativeReal.

(** [v.numel()]: the product of the dimensions. *)
Definition numel (v : torch.tensor) : Z := fold_right Z.mul 1 (torch.shape v).

(** [float(v)] on a tensor. *)
Definition float_of_tensor (v : torch.tensor) : result pyfloat :=
  match torch.elements v with
  | [x] => Ok x
  | _ => Raise (ValueError "only one element tensors can be converted to Python scalars")
  end.

Section _type_of_matrix.
(** [all(abs(float(row.sum()) - 1.0) <= simplex_precision for row in v)]
    sums the rows in floating point; it stays a parameter. *)
Variable sums_to_one : torch.tensor -> bool.

(** [_type_of_matrix(v)].  [v.view(r, c)] keeps the elements, which
    the comprehension visits row by row: in the order of
    [torch.elements]. *)
Definition _type_of_matrix (v : torch.tensor) : result BMGLatticeType :=
  if numel v =? 1 then
    let* x := float_of_tensor v in
    type_of_float x
  else
    let shape := torch.shape v in
    let dimensions := length shape in
    if (2 <? dimensions)%nat then Ok Tensor
    else
      let* r := (if (dimensions =? 1)%nat then Ok 1 else index shape 0) in
      let* c := (if (dimensions =? 1)%nat then index shape 0 else index shape 1) in
      let* types := comprehension type_of_float (torch.elements v) in
      let sup := supremum types in
      match sup with
      | Matrix _ rows columns =>
          let* _ := asserted (rows =? 1) in
          let* _ := asserted (columns =? 1) in
          if bool_decide (sup ∈ [Real; PositiveReal; NegativeReal; Natural]) then
            Ok (with_dimensions sup r c)
          else
            let* _ := asserted (bool_decide (sup ∈ [Boolean; Zero; One; Probability])) in
            let sums_to_one := sums_to_one v in
            if sums_to_one then
              if bool_decide (sup = Probability) then Ok (SimplexMatrix r c)
              else Ok (OneHotMatrix r c)
            else if bool_decide (sup = Probability) then Ok (with_dimensions sup r c)
            else if bool_decide (sup = Zero) then Ok (with_dimensions sup r c)
            else Ok (BooleanMatrix r c)
      | _ => Raise (AssertionError "")
      end.

End _type_of_matrix.

(** The rows and columns that [_type_of_matrix] reads off the shape. *)
Definition dimensions_of (shape : list Z) (r c : Z) : Prop :=
  (shape = [c] /\ r = 1) \/ shape = [r; c].

(** *** Classes of arguments of the supremum *)

Definition is_SimplexMatrix (t : BMGLatticeType) : bool :=
  match t with
  | Matrix SimplexMatrix_class _ _ => true
  | _ => false
  end.

(** The pairs of arguments on which the table depends on their order:
    a simplex matrix with a Boolean or a zero matrix of its
    dimensions. *)
Definition simplex_clash (t u : BMGLatticeType) : bool :=
  match t, u with
  | Matrix c r k, Matrix c' r' k' =>
      bool_decide (r = r' /\ k = k') &&
      match c, c' with
      | SimplexMatrix_class, (BooleanMatrix_class | ZeroMatrix_class)
      | (BooleanMatrix_class | ZeroMatrix_class), SimplexMatrix_class => true
      | _, _ => false
      end
  | _, _ => false
  end.

End bt.

(** ** bm_graph_builder.py *)

Module bmgb.

(** The class of a node object, with the value of a constant. *)
Inductive node_class :=
  | BooleanNode_class (value : bool)
  | RealNode_class (value : pyfloat)
  | TensorNode_class (value : torch.tensor)
  | BernoulliNode_class
  | AdditionNode_class
  | MultiplicationNode_class
  | NegateNode_class
  | ToRealNode_class
  | ExpNode_class
  | SampleNode_class
  | Observation_class
  | Query_class.

(** A node object.  No class of the module defines [__eq__] or
    [__hash__]: a node is a dictionary key by its identity, here
    [node_id], the number of objects allocated before it.  [children]
    is the list given to [BMGNode.__init__]. *)
#[local] Unset Elimination Schemes.
Inductive BMGNode :=
  | Node (node_id : nat) (cls : node_class) (children : list BMGNode).
#[local] Set Elimination Schemes.

Definition node_id (node : BMGNode) : nat :=
  match node with Node i _ _ => i end.

Definition cls (node : BMGNode) : node_class :=
  match node with Node _ c _ => c end.

Definition children (node : BMGNode) : list BMGNode :=
  match node with Node _ _ cs => cs end.

(** [a is b] *)
Definition same_object (a b : BMGNode) : bool :=
  Nat.eqb (node_id a) (node_id b).

(** [nodes: Dict[BMGNode, int]], in insertion order. *)
Definition Dict := list (BMGNode * nat).

(** [node in d] *)
Definition dict_contains (d : Dict) (node : BMGNode) : bool :=
  existsb (fun kv => same_object kv.1 node) d.

(** [d[node]] *)
Fixpoint dict_get (d : Dict) (node : BMGNode) : option nat :=
  match d with
  | [] => None
  | (k, v) :: d => if same_object k node then Some v else dict_get d node
  end.

(** [d[node] = v]: a present key keeps its place, a new one goes last. *)
Fixpoint dict_set (d : Dict) (node : BMGNode) (v : nat) : Dict :=
  match d with
  | [] => [(node, v)]
  | (k, w) :: d =>
      if same_object k node then (k, v) :: d else (k, w) :: dict_set d node v
  end.

Record BMGraphBuilder := { nodes : Dict }.

(** [BMGraphBuilder.__init__] *)
Definition BMGraphBuilder_init : BMGraphBuilder := {| nodes := [] |}.

(** [add_node]: children first, then the node at index [len(self.nodes)]. *)
Fixpoint add_node_dict (node : BMGNode) (d : Dict) {struct node} : Dict :=
  match node with
  | Node _ _ cs =>
      if dict_contains d node then d
      else
        let d :=
          (fix for_child (cs : list BMGNode) (d : Dict) {struct cs} : Dict :=
             match cs with
             | [] => d
             | child :: cs => for_child cs (add_node_dict child d)
             end) cs d in
        dict_set d node (length d)
  end.

Definition add_node (self : BMGraphBuilder) (node : BMGNode) : BMGraphBuilder :=
  {| nodes := add_node_dict node (nodes self) |}.

(** The Python heap, as far as the builder sees it: the number of node
    objects allocated so far, which names the next one. *)
Record heap := { allocated : nat }.

(** A call of a node class: a new object. *)
Definition new_node (c : node_class) (children : list BMGNode) (h : heap)
    : BMGNode * heap :=
  (Node (allocated h) c children, {| allocated := S (allocated h) |}).

(** The factories: construct the node, add it, return it. *)
Definition factory (c : node_class) (children : list BMGNode)
    (self : BMGraphBuilder) (h : heap) : BMGNode * BMGraphBuilder * heap :=
  let '(node, h) := new_node c children h in
  (node, add_node self node, h).

Definition add_real (value : pyfloat) := factory (RealNode_class value) [].
Definition add_boolean (value : bool) := factory (BooleanNode_class value) [].
Definition add_tensor (value : torch.tensor) := factory (TensorNode_class value) [].
Definition add_bernoulli (probability : BMGNode) := factory BernoulliNode_class [probability].
Definition add_addition (left right : BMGNode) := factory AdditionNode_class [left; right].
Definition add_multiplication (left right : BMGNode) :=
  factory MultiplicationNode_class [left; right].
Definition add_negate (operand : BMGNode) := factory NegateNode_class [operand].
Definition add_to_real (operand : BMGNode) := factory ToRealNode_class [operand].
Definition add_exp (operand : BMGNode) := factory ExpNode_class [operand].
Definition add_sample (operand : BMGNode) := factory SampleNode_class [operand].
Definition add_observation (observed value : BMGNode) :=
  factory Observation_class [observed; value].
Definition add_query (operator : BMGNode) := factory Query_class [operator].

(** Nodes are built from the leaves up, so an object is none of its
    own descendants: its identity differs from that of every node
    below it. *)
Fixpoint descendant_ids (node : BMGNode) : list nat :=
  match node with
  | Node _ _ cs => flat_map (fun c => node_id c :: descendant_ids c) cs
  end.

Fixpoint acyclic (node : BMGNode) : Prop :=
  match node with
  | Node i _ cs =>
      (i ∉ flat_map (fun c => node_id c :: descendant_ids c) cs) /\
      (fix all (cs : list BMGNode) : Prop :=
         match cs with
         | [] => True
         | c :: cs => acyclic c /\ all cs
         end) cs
  end.

(** The builder states that calls of [add_node] produce. *)
Inductive built : BMGraphBuilder -> Prop :=
  | built_init : built BMGraphBuilder_init
  | built_add_node self node :
      built self -> acyclic node -> built (add_node self node).

(** Every key of the map is an object that was already allocated. *)
Definition allocated_keys (self : BMGraphBuilder) (h : heap) : Prop :=
  forall n i, (n, i) ∈ nodes self -> (node_id n < allocated h)%nat.

(** "Children precede parents": every child of a node of the map is in
    the map, at a smaller index. *)
Definition children_precede_parents (self : BMGraphBuilder) : Prop :=
  forall n i c, (n, i) ∈ nodes self -> c ∈ children n ->
    exists j, dict_get (nodes self) c = Some j /\ (j < i)%nat.

(** A small graph, built from the leaves up:
    [Query(Sample(Bernoulli(0.5)))]. *)
Definition example_real : BMGNode := Node 0 (RealNode_class (Finite (1 # 2))) [].
Definition example_bernoulli : BMGNode := Node 1 BernoulliNode_class [example_real].
Definition example_sample : BMGNode := Node 2 SampleNode_class [example_bernoulli].
Definition example_query : BMGNode := Node 3 Query_class [example_sample].

(** *** Emitting the graph *)

(** [isinstance] tests on a node, by its class. *)
Definition is_ConstantNode (c : node_class) : bool :=
  match c with
  | BooleanNode_class _ | RealNode_class _ | TensorNode_class _ => true
  | _ => false
  end.

Definition is_DistributionNode (c : node_class) : bool :=
  match c with
  | BernoulliNode_class => true
  | _ => false
  end.

Definition is_SampleNode (c : node_class) : bool :=
  match c with
  | SampleNode_class => true
  | _ => false
  end.

Definition is_OperatorNode (c : node_class) : bool :=
  match c with
  | AdditionNode_class | MultiplicationNode_class | NegateNode_class
  | ToRealNode_class | ExpNode_class | SampleNode_class => true
  | _ => false
  end.

Inductive OperatorType := ADD | MULTIPLY | NEGATE | TO_REAL | EXP | SAMPLE.

(** The calls that the nodes make on the [Graph] of
    [beanmachine.graph]. *)
Inductive graph_call :=
  | add_constant (value : bt.pyvalue)
  | add_distribution_BERNOULLI_BOOLEAN (parents : list Z)
  | add_operator (operator_type : OperatorType) (parents : list Z)
  | observe (node : Z) (value : bt.pyvalue)
  | query (node : Z).

(** The graph, as the builder sees it: the calls made on it so far. *)
Definition Graph := list graph_call.

(** A method of a node returns, or raises: an [exn], or the
    [KeyError] of a dictionary that lacks the key. *)
Inductive outcome (A : Type) :=
  | Returns (a : A)
  | Raises (e : exn)
  | RaisesKeyError (key : BMGNode).
Arguments Returns {A} a.
Arguments Raises {A} e.
Arguments RaisesKeyError {A} key.

Definition outcome_bind {A B} (m : outcome A) (f : A -> outcome B) : outcome B :=
  match m with
  | Returns a => f a
  | Raises e => Raises e
  | RaisesKeyError key => RaisesKeyError key
  end.

Notation "'let!' x ':=' m 'in' f" := (outcome_bind m (fun x => f))
  (at level 10, x name, m at level 100, f at level 200, only parsing).

(** [self.children[i]] *)
Definition child (node : BMGNode) (i : nat) : outcome BMGNode :=
  match children node !! i with
  | Some c => Returns c
  | None => Raises (IndexError "list index out of range")
  end.

(** [assert isinstance(c, ...)] *)
Definition instance (b : bool) : outcome unit :=
  if b then Returns tt else Raises (AssertionError "").

(** [d: Dict[BMGNode, int]] and [d[node]], [d[node] = v]. *)
Definition IntDict := list (BMGNode * Z).

Fixpoint int_dict_get (d : IntDict) (node : BMGNode) : outcome Z :=
  match d with
  | [] => RaisesKeyError node
  | (k, v) :: d => if same_object k node then Returns v else int_dict_get d node
  end.

Fixpoint int_dict_set (d : IntDict) (node : BMGNode) (v : Z) : IntDict :=
  match d with
  | [] => [(node, v)]
  | (k, w) :: d =>
      if same_object k node then (k, v) :: d else (k, w) :: int_dict_set d node v
  end.

Section to_bmg.
(** What a call on a graph returns -- for the calls that add a node,
    the identifier of the node --, or the exception that it raises. *)
Variable returned : graph_call -> Graph -> result Z.

Definition call (c : graph_call) (g : Graph) : outcome (Z * Graph) :=
  match returned c g with
  | Ok i => Returns (i, g ++ [c])
  | Raise e => Raises e
  end.

(** [node._add_to_graph(g, d)], with the accessors of the classes
    ([probability], [left], [right], [operand], [observed], [value],
    [operator]) in the place of their calls. *)
Definition _add_to_graph (node : BMGNode) (g : Graph) (d : IntDict) : outcome (Z * Graph) :=
  match cls node with
  | BooleanNode_class value => call (add_constant (bt.VBool value)) g
  | RealNode_class value => call (add_constant (bt.VFloat value)) g
  | TensorNode_class value => call (add_constant (bt.VTensor value)) g
  | BernoulliNode_class =>
      let! probability := child node 0 in
      let! p := int_dict_get d probability in
      call (add_distribution_BERNOULLI_BOOLEAN [p]) g
  | AdditionNode_class | MultiplicationNode_class =>
      let operator_type :=
        match cls node with AdditionNode_class => ADD | _ => MULTIPLY end in
      let! left := child node 0 in
      let! l := int_dict_get d left in
      let! right := child node 1 in
      let! r := int_dict_get d right in
      call (add_operator operator_type [l; r]) g
  | NegateNode_class | ToRealNode_class | ExpNode_class =>
      let operator_type :=
        match cls node with
        | NegateNode_class => NEGATE
        | ToRealNode_class => TO_REAL
        | _ => EXP
        end in
      let! operand := child node 0 in
      let! x := int_dict_get d operand in
      call (add_operator operator_type [x]) g
  | SampleNode_class =>
      let! c := child node 0 in
      let! _ := instance (is_DistributionNode (cls c)) in
      let! x := int_dict_get d c in
      call (add_operator SAMPLE [x]) g
  | Observation_class =>
      let! c := child node 1 in
      let! _ := instance (is_ConstantNode (cls c)) in
      let v :=
        match cls c with
        | BooleanNode_class value => bt.VBool value
        | RealNode_class value => bt.VFloat value
        | TensorNode_class value => bt.VTensor value
        | _ => bt.VOther
        end in
      let! observed := child node 0 in
      let! _ := instance (is_SampleNode (cls observed)) in
      let! x := int_dict_get d observed in
      let! r := call (observe x v) g in
      Returns (-1, r.2)
  | Query_class =>
      let! c := child node 0 in
      let! _ := instance (is_OperatorNode (cls c)) in
      let! x := int_dict_get d c in
      let! r := call (query x) g in
      Returns (-1, r.2)
  end.

(** The loop of [to_bmg] over the keys of [self.nodes]. *)
Fixpoint to_bmg_loop (keys : list BMGNode) (g : Graph) (d : IntDict) : outcome Graph :=
  match keys with
  | [] => Returns g
  | node :: keys =>
      let! r := _add_to_graph node g d in
      to_bmg_loop keys r.2 (int_dict_set d node r.1)
  end.

Definition to_bmg (self : BMGraphBuilder) : outcome Graph :=
  to_bmg_loop (map fst (nodes self)) [] [].

End to_bmg.

(** The children that the class of a node takes, of the classes that
    its accessors assert. *)
Definition well_classed (node : BMGNode) : bool :=
  match cls node, children node with
  | (BooleanNode_class _ | RealNode_class _ | TensorNode_class _), _ => true
  | BernoulliNode_class, _ :: _ => true
  | (AdditionNode_class | MultiplicationNode_class), _ :: _ :: _ => true
  | (NegateNode_class | ToRealNode_class | ExpNode_class), _ :: _ => true
  | SampleNode_class, c :: _ => is_DistributionNode (cls c)
  | Observation_class, observed :: value :: _ =>
      is_SampleNode (cls observed) && is_ConstantNode (cls value)
  | Query_class, c :: _ => is_OperatorNode (cls c)
  | _, _ => false
  end.

(** *** Drawing the graph *)

(** The class attribute [edges]. *)
Definition edges (c : node_class) : list string :=
  match c with
  | BooleanNode_class _ | RealNode_class _ | TensorNode_class _ => []
  | BernoulliNode_class => ["probability"]
  | AdditionNode_class | MultiplicationNode_class => ["left"; "right"]
  | NegateNode_class | ToRealNode_class | ExpNode_class | SampleNode_class => ["operand"]
  | Observation_class => ["operand"; "value"]
  | Query_class => ["operator"]
  end%string.

(** The calls that [to_dot] makes on the [DotBuilder]. *)
Inductive dot_call :=
  | with_node (name label : string)
  | with_edge (origin target label : string).

(** ["N" + str(index)] *)
Definition dot_name (index : nat) : string := "N" +:+ pretty index.

Section to_dot.
(** [str(self.value)], the label of a constant, stays a parameter. *)
Variable str : bt.pyvalue -> string.

(** [node.label()] *)
Definition label (c : node_class) : string :=
  match c with
  | BooleanNode_class value => str (bt.VBool value)
  | RealNode_class value => str (bt.VFloat value)
  | TensorNode_class value => str (bt.VTensor value)
  | BernoulliNode_class => "Bernoulli"
  | AdditionNode_class => "+"
  | MultiplicationNode_class => "*"
  | NegateNode_class => "-"
  | ToRealNode_class => "ToReal"
  | ExpNode_class => "Exp"
  | SampleNode_class => "Sample"
  | Observation_class => "Observation"
  | Query_class => "Query"
  end%string.

(** The inner loop of [to_dot], over [zip(node.children, node.edges)]. *)
Fixpoint to_dot_edges (d : Dict) (n : string) (pairs : list (BMGNode * string))
    : outcome (list dot_call) :=
  match pairs with
  | [] => Returns []
  | (child, label) :: pairs =>
      match dict_get d child with
      | None => RaisesKeyError child
      | Some j =>
          let! calls := to_dot_edges d n pairs in
          Returns (with_edge n (dot_name j) label :: calls)
      end
  end.

(** The outer loop, over [self.nodes.items()]. *)
Fixpoint to_dot_nodes (d : Dict) (items : list (BMGNode * nat)) : outcome (list dot_call) :=
  match items with
  | [] => Returns []
  | (node, index) :: items =>
      let n := dot_name index in
      let! edge_calls := to_dot_edges d n (zip (children node) (edges (cls node))) in
      let! calls := to_dot_nodes d items in
      Returns (with_node n (label (cls node)) :: edge_calls ++ calls)
  end.

(** [to_dot], up to the text that the [DotBuilder] makes of the calls. *)
Definition to_dot (self : BMGraphBuilder) : outcome (list dot_call) :=
  to_dot_nodes (nodes self) (nodes self).

End to_dot.

(** An edge from a node to a node of a smaller index, both in the map
    of [n] nodes. *)
Definition points_back (n : nat) (c : dot_call) : Prop :=
  match c with
  | with_node _ _ => True
  | with_edge origin target _ =>
      exists i j, origin = dot_name i /\ target = dot_name j /\ (j < i < n)%nat
  end.

End bmgb.

(** ** The modules that fix_requirements.py imports

    [fix_requirements.py] runs on the node classes of [bmg_nodes.py],
    on the builder of [compiler/bm_graph_builder.py], on
    [error_report.py] and on [graph_labels.py]. *)

(** A node object is named by its address in the store of the builder. *)
Abbreviation Node := nat (only parsing).

Module bn.

(** Modelled from the spec: [bmg_nodes.py] is missing.  These are the
    classes that [fix_requirements.py] tests with [isinstance], the
    nodes that it creates, and the families of section 3.3; a constant
    carries its value and the type that its class stands for. *)
Inductive node_class :=
  | Observation
  | Query
  | ConstantNode (value : bt.pyvalue) (node_type : bt.BMGLatticeType)
  | DistributionNode (name : string)
  | MapNode
  | MultiplicationNode
  | PowerNode
  | SampleNode
  | IndexNodeDeprecated
  | IfThenElseNode
  | ToRealNode
  | ToPositiveRealNode
  | ToProbabilityNode
  | OtherOperatorNode (name : string)
  | OtherNode (name : string).

#[global] Instance node_class_eq_dec : EqDecision node_class.
Proof. solve_decision. Defined.

Definition is_ConstantNode (c : node_class) : bool :=
  match c with ConstantNode _ _ => true | _ => false end.

Definition is_DistributionNode (c : node_class) : bool :=
  match c with DistributionNode _ => true | _ => false end.

Definition is_OperatorNode (c : node_class) : bool :=
  match c with
  | MultiplicationNode | PowerNode | SampleNode | IndexNodeDeprecated
  | IfThenElseNode | ToRealNode | ToPositiveRealNode | ToProbabilityNode
  | OtherOperatorNode _ => true
  | _ => false
  end.

(** A node object: its class and its mutable list [inputs]. *)
Record BMGNode := { cls : node_class; inputs : list Node }.

#[global] Instance BMGNode_eq_dec : EqDecision BMGNode.
Proof. solve_decision. Defined.

(** Modelled from the spec: the properties [graph_type], [inf_type]
    and [requirements] of the node classes, the edge labels of
    [graph_labels.py] and the traversal [_traverse_from_roots] of the
    builder are missing; each is a function of the store of node
    objects and of the node.  Reading [graph_type], [inf_type] or
    [requirements] can raise: the inf type of a constant is
    [type_of_value(value)] (section 3.3), which raises on some values,
    and the properties above it raise with it. *)
Class NodeProperties := {
  graph_type : list BMGNode -> Node -> result bt.BMGLatticeType;
  inf_type : list BMGNode -> Node -> result bt.BMGLatticeType;
  requirements : list BMGNode -> Node -> result (list bt.Requirement);
  get_edge_labels : list BMGNode -> Node -> list string;
  _traverse_from_roots : list BMGNode -> list Node
}.

End bn.

Module error_report.

Record Violation := {
  node : Node;
  requirement : bt.Requirement;
  consumer : Node;
  edge : string
}.

(** Modelled from the spec: [ErrorReport] is a vector of violations,
    purely additive. *)
Definition ErrorReport := list Violation.

Definition add_error (errors : ErrorReport) (v : Violation) : ErrorReport :=
  errors ++ [v].

End error_report.

Module bmg.

(** Modelled from the spec: [compiler/bm_graph_builder.py] is missing.
    The builder owns the node objects, an arena addressed by handle,
    and it shares nodes (section 4.3): its dedup map sends the
    structural key of a node -- the variant, with the value and the
    type of a constant, and the inputs -- to the handle of the node.
    A factory returns the handle that the map has for the key of the
    node to construct, and adds the node at the tail of the arena when
    the map has none.  The key of a node is read off the node as it is
    in the arena, so also after the fixer has replaced an input. *)
Record BMGraphBuilder := { nodes : list bn.BMGNode }.

(** The dedup map: the handle of the first node with this key. *)
Definition dedup (self : BMGraphBuilder) (key : bn.BMGNode) : option Node :=
  fst <$> list_find (fun o => o = key) (nodes self).

Definition add (c : bn.node_class) (inputs : list Node) (self : BMGraphBuilder)
    : Node * BMGraphBuilder :=
  let key := {| bn.cls := c; bn.inputs := inputs |} in
  match dedup self key with
  | Some handle => (handle, self)
  | None => (length (nodes self), {| nodes := nodes self ++ [key] |})
  end.

Definition add_constant_of_type (value : bt.pyvalue) (node_type : bt.BMGLatticeType) :=
  add (bn.ConstantNode value node_type) [].
Definition add_constant_of_matrix_type (value : bt.pyvalue)
    (node_type : bt.BMGLatticeType) :=
  add (bn.ConstantNode value node_type) [].
Definition add_if_then_else (condition consequence alternative : Node) :=
  add bn.IfThenElseNode [condition; consequence; alternative].
Definition add_to_real (operand : Node) := add bn.ToRealNode [operand].
Definition add_to_positive_real (operand : Node) := add bn.ToPositiveRealNode [operand].
Definition add_to_probability (operand : Node) := add bn.ToProbabilityNode [operand].

(** [node.inputs[i] = new] on the node object at address [node]. *)
Definition set_input (node : Node) (i : nat) (new : Node) (self : BMGraphBuilder)
    : BMGraphBuilder :=
  match nodes self !! node with
  | Some o =>
      {| nodes := <[node := {| bn.cls := bn.cls o;
                              bn.inputs := <[i := new]> (bn.inputs o) |}]> (nodes self) |}
  | None => self
  end.

End bmg.

(** ** fix_requirements.py *)

Module fixer.
Import error_report.

(** The objects that [_convert_node] compares with [==]: a lattice
    type, and the class that the name [Tensor] is bound to. *)
Inductive pyobject :=
  | LatticeType (t : bt.BMGLatticeType)
  | ClassObject (c : torch.class_object).

(** [a == b] on objects without [__eq__]: identity. *)
Definition py_eq (a b : pyobject) : bool :=
  match a, b with
  | LatticeType t, LatticeType u => bool_decide (t = u)
  | ClassObject torch.Tensor, ClassObject torch.Tensor => true
  | _, _ => false
  end.

(** [from torch import Tensor] *)
Definition Tensor : pyobject := ClassObject torch.Tensor.

Record RequirementsFixer := {
  errors : ErrorReport;
  bmg : bmg.BMGraphBuilder
}.

(** [RequirementsFixer.__init__] *)
Definition RequirementsFixer_init (bmg : bmg.BMGraphBuilder) : RequirementsFixer :=
  {| errors := []; bmg := bmg |}.

(** A method of the fixer runs on the fixer: it returns a value and
    the fixer it leaves, or raises, or is cut off when the bound on
    the depth of its recursion is used up. *)
Inductive run (A : Type) :=
  | Done (a : A) (self : RequirementsFixer)
  | Raised (e : exn)
  | Unfinished.
Arguments Done {A} a self.
Arguments Raised {A} e.
Arguments Unfinished {A}.

Definition M (A : Type) := RequirementsFixer -> run A.

Definition ret {A} (a : A) : M A := fun self => Done a self.

Definition bind {A B} (m : M A) (f : A -> M B) : M B :=
  fun self =>
    match m self with
    | Done a self => f a self
    | Raised e => Raised e
    | Unfinished => Unfinished
    end.

Definition raise {A} (e : exn) : M A := fun _ => Raised e.

Definition assert (b : bool) : M unit :=
  if b then ret tt else raise (AssertionError "").

Notation "x <- m ;; f" := (bind m (fun x => f))
  (at level 100, m at next level, right associativity, only parsing).
Notation "'do' m ;; f" := (bind m (fun _ => f))
  (at level 100, m at next level, right associativity, only parsing).

(** Reads of the store. *)
Definition store (self : RequirementsFixer) : list bn.BMGNode := bmg.nodes (bmg self).

Definition read {A} (f : list bn.BMGNode -> A) : M A :=
  fun self => Done (f (store self)) self.

(** The read of a property of a node, which can raise. *)
Definition property {A} (f : list bn.BMGNode -> result A) : M A :=
  fun self =>
    match f (store self) with
    | Ok a => Done a self
    | Raise e => Raised e
    end.

(** [type(node)], for the [isinstance] tests. *)
Definition class_of (node : Node) : M bn.node_class :=
  fun self =>
    match store self !! node with
    | Some o => Done (bn.cls o) self
    | None => Raised (AttributeError "no such node")
    end.

(** [node.inputs[i]] *)
Definition input (node : Node) (i : nat) : M Node :=
  fun self =>
    match store self !! node with
    | Some o =>
        match bn.inputs o !! i with
        | Some n => Done n self
        | None => Raised (IndexError "list index out of range")
        end
    | None => Raised (AttributeError "no such node")
    end.

(** [node.left] and [node.right] of a binary operator: its first and
    its second input. *)
Definition left (node : Node) : M Node := input node 0.
Definition right (node : Node) : M Node := input node 1.

(** [node.value] *)
Definition value (node : Node) : M bt.pyvalue :=
  c <- class_of node ;;
  match c with
  | bn.ConstantNode v _ => ret v
  | _ => raise (AttributeError "value")
  end.

(** [l[i]] *)
Definition item {A} (l : list A) (i : nat) : M A :=
  match l !! i with
  | Some x => ret x
  | None => raise (IndexError "list index out of range")
  end.

(** A call of a factory of [self.bmg]. *)
Definition builder (f : bmg.BMGraphBuilder -> Node * bmg.BMGraphBuilder) : M Node :=
  fun self =>
    let '(n, b) := f (bmg self) in
    Done n {| errors := errors self; bmg := b |}.

(** [self.errors.add_error(v)] *)
Definition add_error (v : Violation) : M unit :=
  fun self => Done tt {| errors := error_report.add_error (errors self) v; bmg := bmg self |}.

(** [node.inputs[i] = new] *)
Definition set_input (node : Node) (i : nat) (new : Node) : M unit :=
  fun self => Done tt {| errors := errors self; bmg := bmg.set_input node i new (bmg self) |}.

(** Modelled from the spec: the helpers of [bmg_types.py] that
    [fix_requirements.py] calls and that the [bmg_types.py] under src/
    does not have.  [type_meets_requirement] is [meets_requirement];
    a node meets a requirement when its [graph_type] does; the type of
    a requirement is the type that it bounds; a requirement needs a
    matrix constant when that type is a matrix type other than 1 x 1. *)
Definition type_meets_requirement := bt.meets_requirement.

Definition requirement_to_type (r : bt.Requirement) : bt.BMGLatticeType :=
  match r with
  | bt.UpperBound bound => bound
  | bt.Exact t => t
  end.

Definition is_BMGMatrixType (t : bt.BMGLatticeType) : bool :=
  match t with bt.Matrix _ _ _ => true | _ => false end.

Definition must_be_matrix (r : bt.Requirement) : bool :=
  match requirement_to_type r with
  | bt.Matrix _ rows columns => negb (rows =? 1) || negb (columns =? 1)
  | _ => false
  end.

Section methods.
Context `{bn.NodeProperties}.

(** [node.graph_type], [node.inf_type] and [node.requirements] *)
Definition graph_type (node : Node) : M bt.BMGLatticeType :=
  property (fun s => bn.graph_type s node).
Definition inf_type (node : Node) : M bt.BMGLatticeType :=
  property (fun s => bn.inf_type s node).
Definition requirements (node : Node) : M (list bt.Requirement) :=
  property (fun s => bn.requirements s node).

Definition node_meets_requirement (node : Node) (r : bt.Requirement) : M bool :=
  gt <- graph_type node ;;
  ret (bt.meets_requirement gt r).

Definition _meet_constant_requirement (node : Node) (requirement : bt.Requirement)
    (consumer : Node) (edge : string) : M Node :=
  meets <- node_meets_requirement node requirement ;;
  if meets then ret node
  else
    it <- inf_type node ;;
    if type_meets_requirement it (bt.upper_bound requirement) then
      let required_type := requirement_to_type requirement in
      result <-
        (if must_be_matrix requirement then
           do assert (is_BMGMatrixType required_type) ;;
           v <- value node ;;
           builder (bmg.add_constant_of_matrix_type v required_type)
         else
           v <- value node ;;
           builder (bmg.add_constant_of_type v required_type)) ;;
      ok <- node_meets_requirement result requirement ;;
      do assert ok ;;
      ret result
    else
      do add_error {| node := node; requirement := requirement;
                   consumer := consumer; edge := edge |} ;;
      ret node.

Definition _meet_distribution_requirement (node : Node) (requirement : bt.Requirement)
    (consumer : Node) (edge : string) : M Node :=
  c <- class_of consumer ;;
  do assert (bool_decide (c = bn.SampleNode)) ;;
  it <- inf_type node ;;
  do assert (bool_decide (requirement = bt.Exact it)) ;;
  ret node.

Definition _meet_map_requirement (node : Node) (requirement : bt.Requirement)
    (consumer : Node) (edge : string) : M Node :=
  c <- class_of consumer ;;
  do assert (bool_decide (c = bn.IndexNodeDeprecated)) ;;
  it <- inf_type node ;;
  do assert (bool_decide (requirement = bt.Exact it)) ;;
  ret node.

Section recursion.
(** [self.meet_requirement], for the methods that call it back. *)
Variable meet_requirement : Node -> bt.Requirement -> Node -> string -> M Node.

Definition _convert_malformed_multiplication (node : Node)
    (requirement : bt.BMGLatticeType) (consumer : Node) (edge : string) : M Node :=
  gt <- graph_type node ;;
  do assert (bool_decide (gt = bt.Malformed)) ;;
  it <- inf_type node ;;
  do assert (bool_decide (bt.supremum [it; requirement] = requirement)) ;;
  l <- left node ;;
  lgt <- graph_type l ;;
  r <- right node ;;
  rgt <- graph_type r ;;
  do assert (negb (bool_decide (lgt = bt.Malformed))
          && negb (bool_decide (rgt = bt.Malformed))) ;;
  do assert (bool_decide (lgt = bt.Boolean) || bool_decide (rgt = bt.Boolean)) ;;
  if_then_else <-
    (if bool_decide (lgt = bt.Boolean) then
       zero <- builder (bmg.add_constant_of_type (bt.VFloat (Finite 0)) rgt) ;;
       l <- left node ;;
       r <- right node ;;
       if_then_else <- builder (bmg.add_if_then_else l r zero) ;;
       gt <- graph_type if_then_else ;;
       do assert (bool_decide (gt = rgt)) ;;
       ret if_then_else
     else
       zero <- builder (bmg.add_constant_of_type (bt.VFloat (Finite 0)) lgt) ;;
       r <- right node ;;
       l <- left node ;;
       if_then_else <- builder (bmg.add_if_then_else r l zero) ;;
       gt <- graph_type if_then_else ;;
       do assert (bool_decide (gt = lgt)) ;;
       ret if_then_else) ;;
  meet_requirement if_then_else (bt.Exact requirement) consumer edge.

Definition _convert_malformed_power (node : Node)
    (requirement : bt.BMGLatticeType) (consumer : Node) (edge : string) : M Node :=
  gt <- graph_type node ;;
  do assert (bool_decide (gt = bt.Malformed)) ;;
  it <- inf_type node ;;
  do assert (bool_decide (bt.supremum [it; requirement] = requirement)) ;;
  l <- left node ;;
  lgt <- graph_type l ;;
  r <- right node ;;
  rgt <- graph_type r ;;
  do assert (negb (bool_decide (lgt = bt.Malformed))) ;;
  do assert (bool_decide (rgt = bt.Boolean)) ;;
  one <- builder (bmg.add_constant_of_type (bt.VFloat (Finite 1)) lgt) ;;
  r <- right node ;;
  l <- left node ;;
  if_then_else <- builder (bmg.add_if_then_else r l one) ;;
  gt <- graph_type if_then_else ;;
  do assert (bool_decide (gt = lgt)) ;;
  meet_requirement if_then_else (bt.Exact requirement) consumer edge.

(** [isinstance(node, cls) and node.graph_type == bt.Malformed], for
    the class [c] of [node]: [and] reads the graph type only when the
    first test holds. *)
Definition is_malformed (c cls : bn.node_class) (node : Node) : M bool :=
  if bool_decide (c = cls) then
    gt <- graph_type node ;;
    ret (bool_decide (gt = bt.Malformed))
  else ret false.

Definition _convert_node (node : Node) (requirement : bt.BMGLatticeType)
    (consumer : Node) (edge : string) : M Node :=
  gt <- graph_type node ;;
  do assert (negb (bool_decide (gt = requirement))) ;;
  it <- inf_type node ;;
  do assert (bool_decide (bt.supremum [it; requirement] = requirement)) ;;
  c <- class_of node ;;
  malformed_multiplication <- is_malformed c bn.MultiplicationNode node ;;
  if malformed_multiplication then
    _convert_malformed_multiplication node requirement consumer edge
  else
    malformed_power <- is_malformed c bn.PowerNode node ;;
    if malformed_power then
      _convert_malformed_power node requirement consumer edge
    else if py_eq (LatticeType requirement) Tensor then
      raise (ValueError "Unsupported type requirement: Tensor")
    else if bool_decide (requirement = bt.Real) then
      builder (bmg.add_to_real node)
    else if bool_decide (requirement = bt.PositiveReal) then
      builder (bmg.add_to_positive_real node)
    else
      do assert (bool_decide (requirement = bt.Natural)
              || bool_decide (requirement = bt.Probability)) ;;
      it <- inf_type node ;;
      do assert (bool_decide (bt.supremum [it; bt.Boolean] = bt.Boolean)) ;;
      zero <- builder (bmg.add_constant_of_type (bt.VFloat (Finite 0)) requirement) ;;
      one <- builder (bmg.add_constant_of_type (bt.VFloat (Finite 1)) requirement) ;;
      builder (bmg.add_if_then_else node one zero).

Definition _can_force_to_prob (inf_type : bt.BMGLatticeType)
    (requirement : bt.Requirement) : bool :=
  (bool_decide (requirement = bt.Exact bt.Probability)
   || bool_decide (requirement = bt.upper_bound (bt.Exact bt.Probability)))
  && (bool_decide (inf_type = bt.Real) || bool_decide (inf_type = bt.PositiveReal)).

Definition _meet_operator_requirement (node : Node) (requirement : bt.Requirement)
    (consumer : Node) (edge : string) : M Node :=
  meets <- node_meets_requirement node requirement ;;
  if meets then ret node
  else
    it <- inf_type node ;;
    if negb (type_meets_requirement it (bt.upper_bound requirement)) then
      if _can_force_to_prob it requirement then
        operand <- meet_requirement node (bt.Exact it) consumer edge ;;
        result <- builder (bmg.add_to_probability operand) ;;
        ok <- node_meets_requirement result requirement ;;
        do assert ok ;;
        ret result
      else
        do add_error {| node := node; requirement := requirement;
                     consumer := consumer; edge := edge |} ;;
        ret node
    else
      result <-
        match requirement with
        | bt.Exact t => _convert_node node t consumer edge
        | bt.UpperBound _ => _convert_node node it consumer edge
        end ;;
      ok <- node_meets_requirement result requirement ;;
      do assert ok ;;
      ret result.

End recursion.

(** [meet_requirement]; [depth] bounds the nesting of its calls. *)
Fixpoint meet_requirement (depth : nat) (node : Node) (requirement : bt.Requirement)
    (consumer : Node) (edge : string) : M Node :=
  match depth with
  | O => fun _ => Unfinished
  | S depth =>
      c <- class_of node ;;
      if bool_decide (c = bn.Observation) then
        raise (AssertionError "Unexpected graph topology; an observation is never an input")
      else if bool_decide (c = bn.Query) then
        raise (AssertionError "Unexpected graph topology; a query is never an input")
      else if bn.is_ConstantNode c then
        _meet_constant_requirement node requirement consumer edge
      else if bn.is_DistributionNode c then
        _meet_distribution_requirement node requirement consumer edge
      else if bool_decide (c = bn.MapNode) then
        _meet_map_requirement node requirement consumer edge
      else if bn.is_OperatorNode c then
        _meet_operator_requirement (meet_requirement depth) node requirement consumer edge
      else
        raise (AssertionError "Unexpected node type")
  end.

(** One round of the inner loop of [fix_problems]. *)
Definition fix_edge (depth : nat) (node : Node) (requirements : list bt.Requirement)
    (edges : list string) (i : nat) : M unit :=
  producer <- input node i ;;
  requirement <- item requirements i ;;
  label <- item edges i ;;
  new <- meet_requirement depth producer requirement node label ;;
  set_input node i new.

(** [for x in xs: body(x)] *)
Fixpoint for_each {A} (xs : list A) (body : A -> M unit) : M unit :=
  match xs with
  | [] => ret tt
  | x :: xs => do body x ;; for_each xs body
  end.

(** The body of the outer loop of [fix_problems]. *)
Definition fix_node (depth : nat) (node : Node) : M unit :=
  requirements <- requirements node ;;
  edges <- read (fun s => bn.get_edge_labels s node) ;;
  for_each (seq 0 (length requirements)) (fix_edge depth node requirements edges).

Definition fix_nodes (depth : nat) (nodes : list Node) : M unit :=
  for_each nodes (fix_node depth).

Definition fix_problems (depth : nat) : M unit :=
  nodes <- read bn._traverse_from_roots ;;
  fix_nodes depth nodes.

End methods.

End fixer.

(** ** Well-formed graphs

    The conditions on the node objects and on the properties of the
    node classes under which the fixer is specified. *)

Section graphs.
Context `{bn.NodeProperties}.

(** Modelled from the spec: a constant has the type of its class; for
    a constant that [add_constant_of_type] makes, the type that it is
    given (section 3.3, scenario 4 of section 8). *)
Definition constants_typed : Prop :=
  forall s n v t ins,
    s !! n = Some {| bn.cls := bn.ConstantNode v t; bn.inputs := ins |} ->
    bn.graph_type s n = Ok t.

(** Modelled from the spec: an if-then-else whose condition is Boolean
    and whose consequence and alternative are of the same type has
    that type (scenarios 2 and 3 of section 8, and the comments of
    [_convert_malformed_multiplication] and
    [_convert_malformed_power]). *)
Definition if_then_else_typed : Prop :=
  forall s n c a b t,
    s !! n = Some {| bn.cls := bn.IfThenElseNode; bn.inputs := [c; a; b] |} ->
    bn.graph_type s c = Ok bt.Boolean ->
    bn.graph_type s a = Ok t ->
    bn.graph_type s b = Ok t ->
    bn.graph_type s n = Ok t.

(** Modelled from the spec: a node has its type from its operands
    (section 4.2), so a node keeps its type when nodes are added to
    the store. *)
Definition graph_type_stable : Prop :=
  forall s ext n t, bn.graph_type s n = Ok t -> bn.graph_type (s ++ ext) n = Ok t.

(** The edge from [consumer] to its input [p], required as [req],
    needs no fix: [p] is a constant or an operator whose graph type
    meets [req], or a distribution below a sample, or a map below an
    index, required as its inf type. *)
Definition edge_in_order (s : list bn.BMGNode) (consumer p : Node)
    (req : bt.Requirement) : Prop :=
  exists op, s !! p = Some op /\
    (((bn.is_ConstantNode (bn.cls op) = true \/ bn.is_OperatorNode (bn.cls op) = true) /\
      exists gt, bn.graph_type s p = Ok gt /\ bt.meets_requirement gt req = true) \/
     (bn.is_DistributionNode (bn.cls op) = true /\
      (exists oc, s !! consumer = Some oc /\ bn.cls oc = bn.SampleNode) /\
      exists it, bn.inf_type s p = Ok it /\ req = bt.Exact it) \/
     (bn.cls op = bn.MapNode /\
      (exists oc, s !! consumer = Some oc /\ bn.cls oc = bn.IndexNodeDeprecated) /\
      exists it, bn.inf_type s p = Ok it /\ req = bt.Exact it)).

(** The requirements of [n] can be read, and every required input of
    [n] is there, has a label, and needs no fix. *)
Definition node_in_order (s : list bn.BMGNode) (n : Node) : Prop :=
  exists reqs, bn.requirements s n = Ok reqs /\
    forall i req, reqs !! i = Some req ->
      exists o p label,
        s !! n = Some o /\ bn.inputs o !! i = Some p /\
        bn.get_edge_labels s n !! i = Some label /\
        edge_in_order s n p req.

End graphs.

(** ** A model of the node classes *)

Module example.

(** Modelled from the spec: [bmg_nodes.py] is missing.  This instance
    of the node properties follows sections 3.3, 4.1 and 4.2 where they
    give a rule: a constant has the type of its class and the inf type
    [type_of_value(value)]; a Bernoulli requires [Exact(Probability)]
    and its sample type is Boolean; a sample requires
    [Exact(d.inf_type)]; a multiplication requires [Exact(s)] twice,
    [s] the supremum of the inf types of its operands and Probability,
    which is its inf type; an if-then-else requires [Exact(Boolean),
    Exact(t), Exact(t)], [t] the supremum of the inf types of its
    branches, and has the type of its branches; the coercions require
    [UpperBound(Real)], [UpperBound(PositiveReal)] and
    [UpperBound(Real)].  The other operators stand for real-valued
    operators with one real operand.  A property of a node reads the
    property of its operands, as deep as the graph goes; on a graph
    with a cycle that read does not end, and the interpreter raises
    [RecursionError]. *)
Definition class_type (c : bn.node_class) : bt.BMGLatticeType :=
  match c with
  | bn.ConstantNode _ node_type => node_type
  | bn.DistributionNode _ => bt.Boolean
  | bn.SampleNode => bt.Boolean
  | bn.ToRealNode => bt.Real
  | bn.ToPositiveRealNode => bt.PositiveReal
  | bn.ToProbabilityNode => bt.Probability
  | bn.OtherOperatorNode _ => bt.Real
  | bn.MapNode => bt.Real
  | _ => bt.Malformed
  end.

(** [node.graph_type], from the graph types of the operands. *)
Definition graph_type_of (operand : Node -> result bt.BMGLatticeType) (o : bn.BMGNode)
    : result bt.BMGLatticeType :=
  match bn.cls o, bn.inputs o with
  | bn.MultiplicationNode, [l; r] =>
      let* lgt := operand l in
      let* rgt := operand r in
      Ok (if bool_decide (lgt = rgt) && bool_decide (bt._supremum lgt bt.Probability = lgt)
          then lgt else bt.Malformed)
  | bn.IfThenElseNode, [c; a; b] =>
      let* cgt := operand c in
      let* agt := operand a in
      let* bgt := operand b in
      Ok (if bool_decide (cgt = bt.Boolean) && bool_decide (agt = bgt)
          then agt else bt.Malformed)
  | c, _ => Ok (class_type c)
  end.

(** [node.graph_type], read through at most [depth] nodes. *)
Fixpoint graph_type_within (depth : nat) (s : list bn.BMGNode) (n : Node)
    : result bt.BMGLatticeType :=
  match depth with
  | O => Raise (RecursionError "maximum recursion depth exceeded")
  | S depth =>
      match s !! n with
      | Some o => graph_type_of (graph_type_within depth s) o
      | None => Raise (AttributeError "no such node")
      end
  end.

(** On a graph without a cycle a chain of operands has no more nodes
    than the store, so that this depth reads every type; on a cycle
    the read raises [RecursionError]. *)
Definition graph_type (s : list bn.BMGNode) (n : Node) : result bt.BMGLatticeType :=
  graph_type_within (S (length s)) s n.

(** The rows of a matrix value, and their sums, in exact arithmetic
    where [_type_of_matrix] sums in floating point. *)
Definition rows (v : torch.tensor) : list (list pyfloat) :=
  match torch.shape v with
  | [c] => [torch.elements v]
  | [r; c] => reshape (replicate (Z.to_nat r) (Z.to_nat c)) (torch.elements v)
  | _ => []
  end.

Definition row_sums_to_one (row : list pyfloat) : bool :=
  match foldr (fun x sum =>
                 match x, sum with
                 | Finite q, Some a => Some (q + a)%Q
                 | _, _ => None
                 end) (Some 0%Q) row with
  | Some sum =>
      Qle_bool (sum - 1) (1 # 10000000000) && Qle_bool (1 - sum) (1 # 10000000000)
  | None => false
  end.

Definition sums_to_one (v : torch.tensor) : bool := forallb row_sums_to_one (rows v).

(** [node.inf_type], from the inf types of the operands. *)
Definition inf_type_of (operand : Node -> result bt.BMGLatticeType) (o : bn.BMGNode)
    : result bt.BMGLatticeType :=
  match bn.cls o, bn.inputs o with
  | bn.ConstantNode v _, _ => bt.type_of_value (bt._type_of_matrix sums_to_one) v
  | bn.MultiplicationNode, [l; r] =>
      let* lit := operand l in
      let* rit := operand r in
      Ok (bt.supremum [lit; rit; bt.Probability])
  | bn.IfThenElseNode, [c; a; b] =>
      let* ait := operand a in
      let* bit := operand b in
      Ok (bt.supremum [ait; bit])
  | bn.PowerNode, _ => Ok bt.Probability
  | c, _ => Ok (class_type c)
  end.

(** [node.inf_type], read through at most [depth] nodes. *)
Fixpoint inf_type_within (depth : nat) (s : list bn.BMGNode) (n : Node)
    : result bt.BMGLatticeType :=
  match depth with
  | O => Raise (RecursionError "maximum recursion depth exceeded")
  | S depth =>
      match s !! n with
      | Some o => inf_type_of (inf_type_within depth s) o
      | None => Raise (AttributeError "no such node")
      end
  end.

Definition inf_type (s : list bn.BMGNode) (n : Node) : result bt.BMGLatticeType :=
  inf_type_within (S (length s)) s n.

Definition requirements (s : list bn.BMGNode) (n : Node) : result (list bt.Requirement) :=
  match s !! n with
  | Some o =>
      match bn.cls o, bn.inputs o with
      | bn.DistributionNode _, [p] => Ok [bt.Exact bt.Probability]
      | bn.SampleNode, [d] =>
          let* t := inf_type s d in
          Ok [bt.Exact t]
      | bn.MultiplicationNode, [l; r] =>
          let* lit := inf_type s l in
          let* rit := inf_type s r in
          let t := bt.supremum [lit; rit; bt.Probability] in
          Ok [bt.Exact t; bt.Exact t]
      | bn.IfThenElseNode, [c; a; b] =>
          let* ait := inf_type s a in
          let* bit := inf_type s b in
          let t := bt.supremum [ait; bit] in
          Ok [bt.Exact bt.Boolean; bt.Exact t; bt.Exact t]
      | bn.ToRealNode, [x] => Ok [bt.UpperBound bt.Real]
      | bn.ToPositiveRealNode, [x] => Ok [bt.UpperBound bt.PositiveReal]
      | bn.ToProbabilityNode, [x] => Ok [bt.UpperBound bt.Real]
      | bn.OtherOperatorNode _, [x] => Ok [bt.Exact bt.Real]
      | _, _ => Ok []
      end
  | None => Raise (AttributeError "no such node")
  end.

Definition get_edge_labels (s : list bn.BMGNode) (n : Node) : list string :=
  match s !! n with
  | Some o =>
      match bn.cls o with
      | bn.DistributionNode _ => ["probability"]
      | bn.MultiplicationNode | bn.PowerNode => ["left"; "right"]
      | bn.IfThenElseNode => ["condition"; "consequence"; "alternative"]
      | bn.Query => ["operator"]
      | bn.Observation => ["operand"; "value"]
      | _ => ["operand"]
      end
  | None => []
  end.

(** The insertion order of the builder is its topological order. *)
Definition _traverse_from_roots (s : list bn.BMGNode) : list Node :=
  seq 0 (length s).

#[global] Instance properties : bn.NodeProperties := {
  bn.graph_type := graph_type;
  bn.inf_type := inf_type;
  bn.requirements := requirements;
  bn.get_edge_labels := get_edge_labels;
  bn._traverse_from_roots := _traverse_from_roots
}.

Definition node (c : bn.node_class) (inputs : list Node) : bn.BMGNode :=
  {| bn.cls := c; bn.inputs := inputs |}.

Definition fixer_of (s : list bn.BMGNode) : fixer.RequirementsFixer :=
  fixer.RequirementsFixer_init {| bmg.nodes := s |}.

(** [exp(2)], [Query(Sample(Bernoulli(x)))] for a real-valued [x], and
    a Bernoulli of a three-dimensional tensor: the natural constant 2
    is used as a real, the real [x] as a probability, and the tensor
    cannot be one. *)
Definition graph : list bn.BMGNode :=
  [ node (bn.ConstantNode (bt.VInt 2) bt.Natural) [];
    node (bn.OtherOperatorNode "exp") [0%nat];
    node (bn.OtherOperatorNode "normal_sample") [];
    node (bn.DistributionNode "Bernoulli") [2%nat];
    node bn.SampleNode [3%nat];
    node bn.Query [4%nat];
    node (bn.ConstantNode
            (bt.VTensor {| torch.shape := [2; 2; 2]; torch.elements := [] |})
            bt.Tensor) [];
    node (bn.DistributionNode "Bernoulli") [6%nat] ].

(** [Bernoulli(Sample(Bernoulli(0.5)))]: a Boolean sample is used as a
    probability. *)
Definition coercion_graph : list bn.BMGNode :=
  [ node (bn.ConstantNode (bt.VFloat (Finite (1 # 2))) bt.Probability) [];
    node (bn.DistributionNode "Bernoulli") [0%nat];
    node bn.SampleNode [1%nat];
    node (bn.DistributionNode "Bernoulli") [2%nat];
    node bn.SampleNode [3%nat] ].

(** The query of a real-valued operator. *)
Definition real_operator_graph : list bn.BMGNode :=
  [ node (bn.OtherOperatorNode "normal_sample") [];
    node bn.Query [0%nat] ].

(** A malformed multiplication of a Boolean sample by a positive real,
    below a [ToReal]. *)
Definition product_graph : list bn.BMGNode :=
  [ node (bn.DistributionNode "Bernoulli") [];
    node bn.SampleNode [0%nat];
    node (bn.ConstantNode (bt.VFloat (Finite (5 # 2))) bt.PositiveReal) [];
    node bn.MultiplicationNode [1%nat; 2%nat];
    node bn.ToRealNode [3%nat] ].

(** A multiplication of a Boolean sample by a power node that is
    malformed. *)
Definition malformed_operand_graph : list bn.BMGNode :=
  [ node (bn.DistributionNode "Bernoulli") [];
    node bn.SampleNode [0%nat];
    node bn.PowerNode [1%nat; 1%nat];
    node bn.MultiplicationNode [1%nat; 2%nat];
    node bn.ToRealNode [3%nat] ].

(** A malformed power of a positive real with a Boolean sample as its
    exponent, below a [ToReal]. *)
Definition power_graph : list bn.BMGNode :=
  [ node (bn.DistributionNode "Bernoulli") [];
    node bn.SampleNode [0%nat];
    node (bn.ConstantNode (bt.VFloat (Finite (5 # 2))) bt.PositiveReal) [];
    node bn.PowerNode [2%nat; 1%nat];
    node bn.ToRealNode [3%nat] ].

(** The exponential of a Boolean sample. *)
Definition sample_as_real_graph : list bn.BMGNode :=
  [ node (bn.DistributionNode "Bernoulli") [];
    node bn.SampleNode [0%nat];
    node (bn.OtherOperatorNode "exp") [1%nat] ].

(** [Query(Sample(Bernoulli(0.5)))], with the constant a probability:
    no edge needs a fix. *)
Definition in_order_graph : list bn.BMGNode :=
  [ node (bn.ConstantNode (bt.VFloat (Finite (1 # 2))) bt.Probability) [];
    node (bn.DistributionNode "Bernoulli") [0%nat];
    node bn.SampleNode [1%nat];
    node bn.Query [2%nat] ].

(** A Bernoulli of a Boolean sample, in a graph that has the
    if-then-else of the sample with the probability constants 1.0 and
    0.0 already. *)
Definition shared_graph : list bn.BMGNode :=
  [ node (bn.DistributionNode "Bernoulli") [];
    node bn.SampleNode [0%nat];
    node (bn.ConstantNode (bt.VFloat (Finite 0)) bt.Probability) [];
    node (bn.ConstantNode (bt.VFloat (Finite 1)) bt.Probability) [];
    node (bn.DistributionNode "Bernoulli") [1%nat];
    node bn.IfThenElseNode [1%nat; 3%nat; 2%nat];
    node bn.Query [5%nat] ].

(** [exp(2)] in a graph that has the real constant 2 already. *)
Definition constant_graph : list bn.BMGNode :=
  [ node (bn.ConstantNode (bt.VInt 2) bt.Natural) [];
    node (bn.OtherOperatorNode "exp") [0%nat];
    node (bn.ConstantNode (bt.VInt 2) bt.Real) [] ].

(** The exponential of a constant that is not a number. *)
Definition nan_graph : list bn.BMGNode :=
  [ node (bn.ConstantNode (bt.VFloat NaN) bt.Probability) [];
    node (bn.OtherOperatorNode "exp") [0%nat] ].

(** The fixer that [fix_problems] leaves. *)
Definition fixed (s : list bn.BMGNode) : fixer.RequirementsFixer :=
  match fixer.fix_problems 3 (fixer_of s) with
  | fixer.Done _ self => self
  | _ => fixer_of s
  end.

End example.

(** * Properties *)

(** ** The type lattice *)

Section lattice_facts.
Import bt.

(** Past the tests on equality, [bottom], [top] and [Tensor], both
    operands of [_supremum] are matrix types: the two [isinstance]
    assertions of the source hold whenever they are reached. *)
Lemma _supremum_operands_are_matrices (t u : BMGLatticeType) :
  t <> bottom -> u <> bottom -> t <> top -> u <> top ->
  t <> Tensor -> u <> Tensor ->
  (exists tc tr tk, t = Matrix tc tr tk) /\ (exists uc ur uk, u = Matrix uc ur uk).
Proof.
  unfold top; intros; split; [destruct t | destruct u]; try congruence; eauto.
Qed.

(** The two-argument call [supremum(t, u)] is [_supremum(t, u)]. *)
Lemma supremum_pair (t u : BMGLatticeType) :
  supremum [t; u] = _supremum t u.
Proof.
  unfold supremum; simpl.
  assert (E : _supremum bottom t = t); [| by rewrite E].
  unfold _supremum. destruct t; reflexivity.
Qed.

Lemma _supremum_idempotent (t : BMGLatticeType) : _supremum t t = t.
Proof. unfold _supremum. by rewrite bool_decide_eq_true_2. Qed.

Lemma _supremum_bottom_r (t : BMGLatticeType) : _supremum t bottom = t.
Proof. unfold _supremum. destruct t; reflexivity. Qed.

Lemma _supremum_Malformed_l (u : BMGLatticeType) :
  _supremum Malformed u = Malformed.
Proof. unfold _supremum. destruct u; reflexivity. Qed.

Lemma _supremum_Malformed_r (t : BMGLatticeType) :
  _supremum t Malformed = Malformed.
Proof. unfold _supremum. destruct t; reflexivity. Qed.

(** The lookup table is symmetric everywhere except on the pairs
    simplex/Boolean and simplex/zero. *)
Lemma _lookup_symmetric_except (tc uc : MatrixClass) :
  (tc, uc) <> (SimplexMatrix_class, BooleanMatrix_class) ->
  (tc, uc) <> (BooleanMatrix_class, SimplexMatrix_class) ->
  (tc, uc) <> (SimplexMatrix_class, ZeroMatrix_class) ->
  (tc, uc) <> (ZeroMatrix_class, SimplexMatrix_class) ->
  _lookup tc uc = _lookup uc tc.
Proof.
  destruct tc, uc; intros; try reflexivity; congruence.
Qed.

(** C2. The supremum of the code is neither commutative nor
    associative, and its element-variant table is not symmetric:
    [_supremum(S[1,1], B)] is [R+] while [_supremum(B, S[1,1])] is
    [P]; [_supremum(S[1,1], Z)] is [R] while [_supremum(Z, S[1,1])]
    is [S[1,1]]; and [sup(S, sup(B, P)) = P] while
    [sup(sup(S, B), P) = R+]. *)
Theorem _supremum_simplex_boolean_asymmetric :
  _supremum (SimplexMatrix 1 1) Boolean = PositiveReal /\
  _supremum Boolean (SimplexMatrix 1 1) = Probability /\
  _supremum (SimplexMatrix 1 1) Boolean <> _supremum Boolean (SimplexMatrix 1 1) /\
  _supremum (SimplexMatrix 1 1) Zero = Real /\
  _supremum Zero (SimplexMatrix 1 1) = SimplexMatrix 1 1 /\
  _lookup SimplexMatrix_class BooleanMatrix_class 1 1
    <> _lookup BooleanMatrix_class SimplexMatrix_class 1 1 /\
  _supremum (SimplexMatrix 1 1) (_supremum Boolean Probability) = Probability /\
  _supremum (_supremum (SimplexMatrix 1 1) Boolean) Probability = PositiveReal.
Proof. repeat split; try reflexivity; discriminate. Qed.

(** C3, as stated, fails at [t = u = Malformed]: a malformed type
    meets no requirement, although [sup(Malformed, Malformed)] is
    [Malformed]. *)
Lemma meets_upper_bound_Malformed_counterexample :
  ~ (meets_requirement Malformed (UpperBound Malformed) = true
     <-> _supremum Malformed Malformed = Malformed).
Proof. intros [_ H]. specialize (H eq_refl). discriminate H. Qed.

(** C3, amended.  For every pair of lattice types other than
    [(Malformed, Malformed)], [meets(t, UpperBound(u))] holds exactly
    when [sup(t, u) == u]; and [Malformed] meets no requirement. *)
Theorem meets_upper_bound_iff_supremum (t u : BMGLatticeType) :
  (t <> Malformed \/ u <> Malformed ->
    (meets_requirement t (UpperBound u) = true <-> _supremum t u = u))
  /\ (forall r, meets_requirement Malformed r = false).
Proof.
  split; [| reflexivity].
  intros H. unfold meets_requirement.
  destruct (decide (t = Malformed)) as [-> | Ht].
  - destruct H as [H | H]; [congruence |].
    rewrite _supremum_Malformed_l. simpl. split; [discriminate | congruence].
  - rewrite bool_decide_eq_false_2 by assumption.
    apply bool_decide_eq_true.
Qed.

Lemma meets_upper_bound_iff_supremum_witness :
  (Natural <> Malformed \/ PositiveReal <> Malformed) /\
  (meets_requirement Natural (UpperBound PositiveReal) = true
     <-> _supremum Natural PositiveReal = PositiveReal).
Proof.
  split; [left; discriminate |].
  apply (meets_upper_bound_iff_supremum Natural PositiveReal).
  left; discriminate.
Defined.

(** C10. Every [BroadcastMatrixType] instance carries [bool_element]
    in its [element_type] attribute, whatever element type its
    constructor was given: two broadcast matrix types of different
    classes have the same [element_type], and differ in their class. *)
Theorem BroadcastMatrixType_element_type_is_bool_element :
  (forall e r k, element_type (BroadcastMatrixType_init e r k) = bool_element) /\
  (forall t a, is_BroadcastMatrixType t = true -> matrix_attrs t = Some a ->
     element_type a = bool_element) /\
  (forall r k,
     element_type (RealMatrix_init r k) = bool_element /\
     element_type (NaturalMatrix_init r k) = bool_element /\
     element_type (ProbabilityMatrix_init r k) = bool_element /\
     element_type (PositiveRealMatrix_init r k) = bool_element /\
     element_type (NegativeRealMatrix_init r k) = bool_element) /\
  (forall t u a b, is_BroadcastMatrixType t = true -> is_BroadcastMatrixType u = true ->
     matrix_attrs t = Some a -> matrix_attrs u = Some b ->
     element_type a = element_type b) /\
  (forall r k, RealMatrix r k <> BooleanMatrix r k).
Proof.
  assert (A : forall t a, is_BroadcastMatrixType t = true ->
              matrix_attrs t = Some a -> element_type a = bool_element).
  { intros [ | | | c r k] a Hb Ha; try discriminate Hb.
    injection Ha as <-. destruct c; try discriminate Hb; reflexivity. }
  repeat split; try reflexivity; try exact A.
  - intros t u a b Ht Hu Ha Hb. by rewrite (A t a), (A u b).
  - discriminate.
Qed.

Lemma BroadcastMatrixType_element_type_is_bool_element_witness :
  element_type (RealMatrix_init 2 3) = bool_element /\
  short_name (RealMatrix_init 2 3) = "MR[2,3]".
Proof.
  split; [| reflexivity].
  destruct BroadcastMatrixType_element_type_is_bool_element as (_ & H & _).
  apply (H (RealMatrix 2 3)); reflexivity.
Defined.

End lattice_facts.

(** ** Classifying values *)

Section type_of_value_facts.
Import bt.
Variable _type_of_matrix : torch.tensor -> result BMGLatticeType.
Abbreviation type_of_value := (type_of_value _type_of_matrix).

Lemma type_of_value_bool (b : bool) :
  type_of_value (VBool b) = Ok (if b then OneHotMatrix 1 1 else ZeroMatrix 1 1).
Proof. reflexivity. Qed.

Lemma type_of_value_int (i : Z) :
  type_of_value (VInt i) =
  Ok (if decide (i = 0) then Zero
      else if decide (i = 1) then One
      else if decide (2 <= i) then Natural
      else NegativeReal).
Proof.
  simpl. unfold type_of_int. f_equal.
  repeat case_decide; subst; try reflexivity;
    destruct (Z.eqb_spec i 0), (Z.eqb_spec i 1); try lia;
    destruct (Z.geb_spec i 2); try lia; reflexivity.
Qed.

(** A finite float that equals an integer is classified as that
    integer. *)
Lemma type_of_value_float_integral (i : Z) (q : Q) :
  (q == inject_Z i)%Q ->
  type_of_value (VFloat (Finite q)) = type_of_value (VInt i).
Proof.
  intros E. simpl.
  assert (Hi : Z.quot (Qnum q) (Z.pos (Qden q)) = i).
  { unfold Qeq, inject_Z in E. simpl in E.
    rewrite Z.mul_1_r in E. rewrite E. apply Z.quot_mul. discriminate. }
  rewrite Hi.
  assert (Qeq_bool q (inject_Z i) = true) as -> by (by apply Qeq_bool_iff).
  reflexivity.
Qed.

(** A finite float that is no integer is classified by sign and
    range. *)
Lemma type_of_value_float_fractional (q : Q) :
  (forall i, ~ (q == inject_Z i)%Q) ->
  type_of_value (VFloat (Finite q)) =
  Ok (if Qle_bool 0 q then if Qle_bool q 1 then Probability else PositiveReal
      else NegativeReal).
Proof.
  intros H. simpl.
  destruct (Qeq_bool q _) eqn:E.
  - apply Qeq_bool_iff in E. by apply H in E.
  - by destruct (Qle_bool 0 q), (Qle_bool q 1).
Qed.

Lemma type_of_value_float_cases (q : Q) :
  (forall i, ~ (q == inject_Z i)%Q) ->
  ((0 < q)%Q -> (q < 1)%Q -> type_of_value (VFloat (Finite q)) = Ok Probability) /\
  ((1 < q)%Q -> type_of_value (VFloat (Finite q)) = Ok PositiveReal) /\
  ((q < 0)%Q -> type_of_value (VFloat (Finite q)) = Ok NegativeReal).
Proof.
  intros H. rewrite (type_of_value_float_fractional q H).
  repeat split.
  - intros H0 H1.
    assert (Qle_bool 0 q = true) as -> by (apply Qle_bool_iff; by apply Qlt_le_weak).
    assert (Qle_bool q 1 = true) as -> by (apply Qle_bool_iff; by apply Qlt_le_weak).
    reflexivity.
  - intros H1.
    assert (Qle_bool 0 q = true) as ->.
    { apply Qle_bool_iff. apply Qlt_le_weak. by apply Qlt_trans with 1%Q. }
    destruct (Qle_bool q 1) eqn:E; [| reflexivity].
    apply Qle_bool_iff in E. by apply Qle_not_lt in E.
  - intros H0.
    destruct (Qle_bool 0 q) eqn:E; [| reflexivity].
    apply Qle_bool_iff in E. by apply Qle_not_lt in E.
Qed.

(** C8. At the float [inf], which is greater than 1, and at [-inf],
    which is less than 0, [type_of_value] returns no type: the test
    [v == int(v)] raises [OverflowError] before any classification. *)
Theorem type_of_value_infinity_raises :
  float_ge PlusInf 1 = true /\
  type_of_value (VFloat PlusInf)
    = Raise (OverflowError "cannot convert float infinity to integer") /\
  float_le MinusInf 0 = true /\
  type_of_value (VFloat MinusInf)
    = Raise (OverflowError "cannot convert float infinity to integer").
Proof. repeat split. Qed.

End type_of_value_facts.

(** ** The graph builder *)

Section builder_facts.
Import bmgb.

Fixpoint BMGNode_ind (P : BMGNode -> Prop)
    (step : forall i c cs, Forall P cs -> P (Node i c cs)) (n : BMGNode) : P n :=
  match n with
  | Node i c cs =>
      step i c cs
        ((fix all (cs : list BMGNode) : Forall P cs :=
            match cs with
            | [] => List.Forall_nil P
            | c :: cs => List.Forall_cons P c cs (BMGNode_ind P step c) (all cs)
            end) cs)
  end.

Definition add_children (cs : list BMGNode) (d : Dict) : Dict :=
  fold_left (fun d child => add_node_dict child d) cs d.

Lemma add_node_dict_eq (node : BMGNode) (d : Dict) :
  add_node_dict node d =
  if dict_contains d node then d
  else dict_set (add_children (children node) d) node
                (length (add_children (children node) d)).
Proof.
  destruct node as [i c cs]. simpl.
  destruct (dict_contains d _); [reflexivity |].
  assert (E : forall cs d,
    (fix for_child (cs : list BMGNode) (d : Dict) {struct cs} : Dict :=
       match cs with
       | [] => d
       | child :: cs => for_child cs (add_node_dict child d)
       end) cs d = add_children cs d).
  { clear. induction cs as [| a cs IH]; intros d; [reflexivity | apply IH]. }
  by rewrite E.
Qed.

Lemma acyclic_eq (i : nat) (c : node_class) (cs : list BMGNode) :
  acyclic (Node i c cs) <->
  (i ∉ flat_map (fun c => node_id c :: descendant_ids c) cs) /\ Forall acyclic cs.
Proof.
  simpl. apply and_iff_compat_l.
  induction cs as [| a cs IH]; simpl.
  - split; [constructor | done].
  - rewrite Forall_cons, IH. reflexivity.
Qed.

(** *** The dictionary *)

Definition key_ids (d : Dict) : list nat := map (fun kv => node_id kv.1) d.

Lemma dict_contains_ids (d : Dict) (node : BMGNode) :
  dict_contains d node = true <-> node_id node ∈ key_ids d.
Proof.
  unfold dict_contains, key_ids, same_object.
  induction d as [| [k v] d IH]; simpl.
  - split; [discriminate | by intros ?%elem_of_nil].
  - rewrite orb_true_iff, IH, elem_of_cons, Nat.eqb_eq.
    split; (intros [H | H]; [left; by symmetry | by right]).
Qed.

Lemma dict_contains_false_ids (d : Dict) (node : BMGNode) :
  dict_contains d node = false <-> node_id node ∉ key_ids d.
Proof.
  rewrite <- dict_contains_ids. destruct (dict_contains d node); naive_solver.
Qed.

Lemma dict_set_absent (d : Dict) (node : BMGNode) (v : nat) :
  dict_contains d node = false -> dict_set d node v = d ++ [(node, v)].
Proof.
  unfold dict_contains.
  induction d as [| [k w] d IH]; simpl; [reflexivity |].
  intros H. apply orb_false_iff in H as [-> H]. by rewrite IH.
Qed.

Lemma dict_get_app_Some (d ext : Dict) (node : BMGNode) (j : nat) :
  dict_get d node = Some j -> dict_get (d ++ ext) node = Some j.
Proof.
  induction d as [| [k w] d IH]; simpl; [discriminate |].
  destruct (same_object k node); auto.
Qed.

(** The dictionary maps every key to its position: the indices are
    the insertion order. *)
Definition positions (d : Dict) : Prop :=
  forall k n i, d !! k = Some (n, i) -> i = k.

Lemma dict_get_contains (d : Dict) (node : BMGNode) :
  positions d -> dict_contains d node = true ->
  exists j, dict_get d node = Some j /\ (j < length d)%nat.
Proof.
  intros Hpos. unfold dict_contains.
  induction d as [| [k w] d IH] using rev_ind; [discriminate |].
  rewrite existsb_app, orb_true_iff. simpl. rewrite orb_false_r.
  rewrite length_app. simpl.
  destruct (existsb (fun kv => same_object kv.1 node) d) eqn:E.
  - intros _. destruct IH as (j & Hj & Hlt); [| reflexivity |].
    + intros k' n i Hk. apply (Hpos k' n i). by apply lookup_app_l_Some.
    + exists j. split; [by apply dict_get_app_Some | lia].
  - intros [H | H]; [discriminate |].
    exists w. split.
    + clear IH Hpos. induction d as [| [k' w'] d IH]; simpl in *.
      * by rewrite H.
      * apply orb_false_iff in E as [-> E]. auto.
    + assert (w = length d); [| lia].
      apply (Hpos (length d) k w).
      by apply list_lookup_middle.
Qed.

(** *** The invariant of [add_node] *)

Record invariant (d : Dict) : Prop := {
  inv_positions : positions d;
  inv_keys : NoDup (key_ids d);
  inv_children : forall n i c, (n, i) ∈ d -> c ∈ children n ->
    exists j, dict_get d c = Some j /\ (j < i)%nat
}.

(** What a call of [add_node] does to the dictionary: it keeps the
    invariant, only appends, appends only the node and nodes below it,
    and leaves the node in the dictionary. *)
Definition add_node_post (node : BMGNode) (d d' : Dict) : Prop :=
  invariant d' /\
  (exists ext, d' = d ++ ext /\
     forall i, i ∈ key_ids ext -> i ∈ node_id node :: descendant_ids node) /\
  dict_contains d' node = true.

Lemma add_children_post (cs : list BMGNode) :
  Forall (fun c => forall d, invariant d -> acyclic c ->
            add_node_post c d (add_node_dict c d)) cs ->
  forall d, invariant d -> Forall acyclic cs ->
    invariant (add_children cs d) /\
    (exists ext, add_children cs d = d ++ ext /\
       forall i, i ∈ key_ids ext ->
         i ∈ flat_map (fun c => node_id c :: descendant_ids c) cs) /\
    (forall c, c ∈ cs -> dict_contains (add_children cs d) c = true).
Proof.
  induction 1 as [| c cs Hc _ IH]; intros d Hd Hac.
  - simpl. split; [assumption |]. split.
    + exists []. rewrite app_nil_r. split; [reflexivity |].
      intros i Hi. inversion Hi.
    + intros c Hc. inversion Hc.
  - apply Forall_cons in Hac as [Hac1 Hac].
    destruct (Hc d Hd Hac1) as (Hd1 & (ext1 & E1 & Hext1) & Hin1).
    destruct (IH _ Hd1 Hac) as (Hd2 & (ext2 & E2 & Hext2) & Hin2).
    change (add_children (c :: cs) d) with (add_children cs (add_node_dict c d)).
    split; [assumption |]. split.
    + exists (ext1 ++ ext2). split.
      * rewrite E2, E1. by rewrite app_assoc.
      * intros i. unfold key_ids. rewrite map_app, elem_of_app.
        change (flat_map ?f (c :: cs)) with (f c ++ flat_map f cs).
        rewrite elem_of_app.
        intros [H | H]; [left; by apply Hext1 | right; by apply Hext2].
    + intros c' Hc'. apply elem_of_cons in Hc' as [-> | Hc']; [| by apply Hin2].
      rewrite E2. apply dict_contains_ids.
      unfold key_ids. rewrite map_app, elem_of_app. left.
      by apply dict_contains_ids.
Qed.

Lemma add_node_dict_post (node : BMGNode) :
  forall d, invariant d -> acyclic node -> add_node_post node d (add_node_dict node d).
Proof.
  induction node as [i c cs IH] using BMGNode_ind. intros d Hd Hac.
  rewrite add_node_dict_eq.
  destruct (dict_contains d (Node i c cs)) eqn:Hin.
  { split; [assumption |]. split; [| assumption].
    exists []. rewrite app_nil_r. split; [reflexivity |].
    intros j Hj. inversion Hj. }
  apply acyclic_eq in Hac as [Hfresh Hac].
  destruct (add_children_post cs IH d Hd Hac) as (Hd' & (ext & E & Hext) & Hcs).
  simpl children. set (d' := add_children cs d) in *.
  assert (Hnew : dict_contains d' (Node i c cs) = false).
  { apply dict_contains_false_ids. rewrite E. unfold key_ids.
    rewrite map_app, elem_of_app. simpl. intros [H | H].
    - apply dict_contains_false_ids in Hin. by apply Hin.
    - apply Hfresh. by apply Hext. }
  rewrite (dict_set_absent _ _ _ Hnew).
  split; [| split].
  - destruct Hd' as [Hpos Hkeys Hch]. split.
    + intros k n j Hk. apply lookup_app_Some in Hk as [Hk | [Hlen Hk]].
      * by apply (Hpos k n j).
      * destruct (k - length d')%nat eqn:Ek; [| discriminate Hk].
        simpl in Hk. injection Hk as <- <-. lia.
    + unfold key_ids. rewrite map_app. simpl.
      apply NoDup_app. split; [assumption |]. split.
      * intros j Hj Hj'. apply list_elem_of_singleton in Hj' as ->.
        apply dict_contains_false_ids in Hnew. by apply Hnew.
      * apply NoDup_singleton.
    + intros n j c' Hn Hc'. apply elem_of_app in Hn as [Hn | Hn].
      * destruct (Hch n j c' Hn Hc') as (j' & Hj' & Hlt).
        exists j'. split; [by apply dict_get_app_Some | assumption].
      * apply list_elem_of_singleton in Hn. injection Hn as -> ->.
        simpl in Hc'.
        destruct (dict_get_contains d' c' Hpos (Hcs c' Hc')) as (j' & Hj' & Hlt).
        exists j'. split; [by apply dict_get_app_Some | assumption].
  - exists (ext ++ [(Node i c cs, length d')]). split.
    + rewrite E. by rewrite app_assoc.
    + intros j. unfold key_ids. rewrite map_app, elem_of_app. simpl.
      intros [H | H].
      * apply elem_of_cons. right. by apply Hext.
      * apply list_elem_of_singleton in H as ->. apply elem_of_cons. by left.
  - apply dict_contains_ids. unfold key_ids. rewrite map_app, elem_of_app.
    right. simpl. apply list_elem_of_singleton. reflexivity.
Qed.

Lemma invariant_empty : invariant [].
Proof.
  split.
  - intros k n i H. discriminate H.
  - constructor.
  - intros n i c H. inversion H.
Qed.

Lemma built_invariant (self : BMGraphBuilder) : built self -> invariant (nodes self).
Proof.
  induction 1 as [| self node _ IH Hac]; [apply invariant_empty |].
  by apply add_node_dict_post.
Qed.

(** C9. In every builder state that calls of [add_node] produce,
    every child of a node of the map is in the map at a strictly
    smaller index than the node: children precede parents in insertion
    order. *)
Theorem add_node_children_precede_parents (self : BMGraphBuilder) :
  built self -> children_precede_parents self.
Proof.
  intros H. apply built_invariant in H.
  intros n i c Hn Hc. by apply (inv_children _ H n i c).
Qed.

Lemma example_query_acyclic : acyclic example_query.
Proof.
  simpl. rewrite !not_elem_of_cons.
  repeat split; try apply not_elem_of_nil; lia.
Qed.

Lemma add_node_children_precede_parents_witness :
  nodes (add_node BMGraphBuilder_init example_query)
    = [(example_real, 0%nat); (example_bernoulli, 1%nat);
       (example_sample, 2%nat); (example_query, 3%nat)] /\
  children_precede_parents (add_node BMGraphBuilder_init example_query).
Proof.
  split; [reflexivity |].
  apply add_node_children_precede_parents.
  apply built_add_node; [apply built_init | apply example_query_acyclic].
Defined.

(** *** No structural sharing *)

Lemma add_node_dict_present (node : BMGNode) (d : Dict) :
  dict_contains d node = true -> add_node_dict node d = d.
Proof. intros H. by rewrite add_node_dict_eq, H. Qed.

Lemma add_children_present (cs : list BMGNode) (d : Dict) :
  (forall c, c ∈ cs -> dict_contains d c = true) -> add_children cs d = d.
Proof.
  induction cs as [| c cs IH]; intros H; [reflexivity |].
  unfold add_children. simpl. rewrite add_node_dict_present.
  - apply IH. intros c' Hc'. apply H. by apply elem_of_cons; right.
  - apply H. by apply elem_of_cons; left.
Qed.

(** A factory whose operands are in the map appends one entry, for an
    object that did not exist before the call. *)
Lemma factory_appends (c : node_class) (cs : list BMGNode)
    (self : BMGraphBuilder) (h : heap) :
  allocated_keys self h ->
  (forall child, child ∈ cs -> dict_contains (nodes self) child = true) ->
  factory c cs self h =
    (Node (allocated h) c cs,
     {| nodes := nodes self ++ [(Node (allocated h) c cs, length (nodes self))] |},
     {| allocated := S (allocated h) |}).
Proof.
  intros Halloc Hcs. unfold factory, new_node, add_node.
  rewrite add_node_dict_eq. simpl children.
  assert (Hnew : dict_contains (nodes self) (Node (allocated h) c cs) = false).
  { apply dict_contains_false_ids. unfold key_ids.
    intros Hin. apply list_elem_of_fmap in Hin as ([n i] & E & Hin).
    apply Halloc in Hin. simpl in E. lia. }
  rewrite Hnew, (add_children_present cs _ Hcs).
  by rewrite (dict_set_absent _ _ _ Hnew).
Qed.

(** C5, as stated, fails: two calls of [add_real(3.0)] on a new
    builder return two different nodes and leave two entries in the
    node map. *)
Lemma add_real_twice_inserts_two_nodes :
  let '(n1, self1, h1) := add_real (Finite 3) BMGraphBuilder_init {| allocated := 0 |} in
  let '(n2, self2, h2) := add_real (Finite 3) self1 h1 in
  n1 <> n2 /\ same_object n1 n2 = false /\
  nodes self2 = [(n1, 0%nat); (n2, 1%nat)].
Proof. simpl. repeat split. discriminate. Qed.

(** C5, amended.  The builder shares nodes by object identity only:
    [add_node] of a node that is in the map changes nothing; and a
    factory called twice with the same class, value and operand nodes
    (constants have no operands) returns two different node objects of
    equal class, value and operands, and appends two entries to the
    node map. *)
Theorem add_node_shares_by_identity_only :
  (forall self node,
     dict_contains (nodes self) node = true -> add_node self node = self) /\
  (forall c cs self h,
     allocated_keys self h ->
     (forall child, child ∈ cs -> dict_contains (nodes self) child = true) ->
     let '(n1, self1, h1) := factory c cs self h in
     let '(n2, self2, h2) := factory c cs self1 h1 in
     n1 <> n2 /\ same_object n1 n2 = false /\
     cls n1 = cls n2 /\ children n1 = children n2 /\
     nodes self2 =
       nodes self ++ [(n1, length (nodes self)); (n2, S (length (nodes self)))]).
Proof.
  split.
  - intros [d] node H. unfold add_node. simpl in *.
    by rewrite add_node_dict_present.
  - intros c cs self h Halloc Hcs.
    rewrite (factory_appends c cs self h Halloc Hcs).
    set (n1 := Node (allocated h) c cs).
    set (self1 := {| nodes := nodes self ++ [(n1, length (nodes self))] |}).
    set (h1 := {| allocated := S (allocated h) |}).
    assert (Halloc1 : allocated_keys self1 h1).
    { intros n i Hn. simpl in *. apply elem_of_app in Hn as [Hn | Hn].
      - apply Halloc in Hn. lia.
      - apply list_elem_of_singleton in Hn. injection Hn as -> ->. simpl. lia. }
    assert (Hcs1 : forall child, child ∈ cs -> dict_contains (nodes self1) child = true).
    { intros child Hc. apply dict_contains_ids. simpl. unfold key_ids.
      rewrite map_app, elem_of_app. left. by apply dict_contains_ids, Hcs. }
    rewrite (factory_appends c cs self1 h1 Halloc1 Hcs1). simpl.
    repeat split.
    + intros E. injection E. lia.
    + unfold same_object. simpl. apply Nat.eqb_neq. lia.
    + rewrite length_app, <- app_assoc. simpl.
      by rewrite Nat.add_1_r.
Qed.

Lemma add_node_shares_by_identity_only_witness :
  let self := add_node BMGraphBuilder_init example_query in
  let h := {| allocated := 4 |} in
  let '(n1, self1, h1) := add_addition example_sample example_sample self h in
  let '(n2, self2, h2) := add_addition example_sample example_sample self1 h1 in
  n1 <> n2 /\ length (nodes self2) = 6%nat.
Proof.
  destruct add_node_shares_by_identity_only as [_ H].
  specialize (H AdditionNode_class [example_sample; example_sample]
                (add_node BMGraphBuilder_init example_query) {| allocated := 4 |}).
  simpl in *. split; [| reflexivity].
  apply H.
  - intros n i Hn. simpl in Hn.
    repeat (apply elem_of_cons in Hn as [Hn | Hn]; [injection Hn as -> ->; simpl; lia |]).
    by apply elem_of_nil in Hn.
  - intros child Hc.
    repeat (apply elem_of_cons in Hc as [-> | Hc]; [reflexivity |]).
    by apply elem_of_nil in Hc.
Defined.

End builder_facts.

(** ** The requirements fixer *)

Section builder_dedup.

(** A factory shares the node that the graph has, or appends it. *)
Lemma add_cases (c : bn.node_class) (ins : list Node) (b : bmg.BMGraphBuilder) :
  let o := {| bn.cls := c; bn.inputs := ins |} in
  (exists n, bmg.add c ins b = (n, b) /\ bmg.nodes b !! n = Some o) \/
  (bmg.add c ins b = (length (bmg.nodes b), {| bmg.nodes := bmg.nodes b ++ [o] |}) /\
   o ∉ bmg.nodes b).
Proof.
  intros o. unfold bmg.add, bmg.dedup. fold o.
  destruct (list_find (fun o' => o' = o) (bmg.nodes b)) as [[n o'] |] eqn:E; simpl.
  - apply list_find_Some in E as (Hn & -> & _). left. by exists n.
  - apply list_find_None in E. right. split; [reflexivity |].
    intros Hin. rewrite Forall_forall in E. by apply (E o).
Qed.

Lemma add_post (c : bn.node_class) (ins : list Node) (b b' : bmg.BMGraphBuilder) (n : Node) :
  let o := {| bn.cls := c; bn.inputs := ins |} in
  bmg.add c ins b = (n, b') ->
  bmg.nodes b' !! n = Some o /\
  (bmg.nodes b' = bmg.nodes b \/
   (n = length (bmg.nodes b) /\ bmg.nodes b' = bmg.nodes b ++ [o])).
Proof.
  intros o Hadd. destruct (add_cases c ins b) as [(m & E & Hm) | [E _]];
    rewrite E in Hadd; injection Hadd as <- <-.
  - split; [exact Hm | by left].
  - split; [| right; by split]. simpl. apply list_lookup_middle. reflexivity.
Qed.

Lemma add_extends (c : bn.node_class) (ins : list Node) (b b' : bmg.BMGraphBuilder)
    (n : Node) :
  bmg.add c ins b = (n, b') -> exists ext, bmg.nodes b' = bmg.nodes b ++ ext.
Proof.
  intros [_ [E | [_ E]]]%add_post; rewrite E; [exists [] | eauto].
  by rewrite app_nil_r.
Qed.

(** A node that the graph has is shared: the graph does not grow. *)
Lemma add_shares (c : bn.node_class) (ins : list Node) (b : bmg.BMGraphBuilder) :
  {| bn.cls := c; bn.inputs := ins |} ∈ bmg.nodes b ->
  exists n, bmg.add c ins b = (n, b).
Proof.
  intros Hin. destruct (add_cases c ins b) as [(n & E & _) | [_ Hout]]; [eauto | done].
Qed.

End builder_dedup.

Section fixer_monad.
Import fixer.

Lemma bind_Done {A B} (m : M A) (f : A -> M B) self b self' :
  bind m f self = Done b self' <->
  exists a self1, m self = Done a self1 /\ f a self1 = Done b self'.
Proof.
  unfold bind. destruct (m self) as [a self1 | e |].
  - split; [eauto |]. by intros (? & ? & [= <- <-] & ?).
  - split; [discriminate |]. by intros (? & ? & ? & ?).
  - split; [discriminate |]. by intros (? & ? & ? & ?).
Qed.

Lemma bind_step {A B} (m : M A) (f : A -> M B) self a self1 :
  m self = Done a self1 -> bind m f self = f a self1.
Proof. intros E. unfold bind. by rewrite E. Qed.

Lemma bind_assert {B} (b : bool) (f : unit -> M B) self :
  b = true -> bind (assert b) f self = f tt self.
Proof. by intros ->. Qed.

Lemma ret_Done {A} (a b : A) self self' :
  ret a self = Done b self' <-> b = a /\ self' = self.
Proof. unfold ret. split; [by intros [= -> ->] | by intros [-> ->]]. Qed.

Lemma read_Done {A} (f : list bn.BMGNode -> A) self a self' :
  read f self = Done a self' <-> a = f (store self) /\ self' = self.
Proof. unfold read. split; [by intros [= <- <-] | by intros [-> ->]]. Qed.

Lemma property_Done {A} (f : list bn.BMGNode -> result A) self a self' :
  property f self = Done a self' <-> f (store self) = Ok a /\ self' = self.
Proof.
  unfold property. destruct (f (store self)) as [x | e].
  - split; [by intros [= <- <-] | by intros [[= <-] ->]].
  - split; [discriminate | by intros [? _]].
Qed.

Lemma property_Ok {A} (f : list bn.BMGNode -> result A) self a :
  f (store self) = Ok a -> property f self = Done a self.
Proof. intros E. by apply property_Done. Qed.

Lemma property_Raised {A} (f : list bn.BMGNode -> result A) self e :
  property f self = Raised e <-> f (store self) = Raise e.
Proof.
  unfold property. destruct (f (store self)) as [x | e'].
  - split; discriminate.
  - split; [by intros [= ->] | by intros [= ->]].
Qed.

Lemma assert_Done (b : bool) self u self' :
  assert b self = Done u self' <-> b = true /\ self' = self.
Proof.
  unfold assert. destruct b; simpl.
  - rewrite ret_Done. destruct u. split; [by intros [_ ->] | by intros [_ ->]].
  - split; [discriminate | by intros [? _]].
Qed.

Lemma class_of_Done node self c self' :
  class_of node self = Done c self' <->
  (exists o, store self !! node = Some o /\ c = bn.cls o) /\ self' = self.
Proof.
  unfold class_of. destruct (store self !! node) as [o |].
  - split; [intros [= <- <-]; eauto | by intros [(? & [= <-] & ->) ->]].
  - split; [discriminate | by intros [(? & ? & _) _]].
Qed.

Lemma class_of_Some node self o :
  store self !! node = Some o -> class_of node self = Done (bn.cls o) self.
Proof. intros Ho. unfold class_of. by rewrite Ho. Qed.

Lemma input_Done node i self n self' :
  input node i self = Done n self' <->
  (exists o, store self !! node = Some o /\ bn.inputs o !! i = Some n) /\ self' = self.
Proof.
  unfold input. destruct (store self !! node) as [o |].
  - destruct (bn.inputs o !! i) as [x |] eqn:E.
    + split; [intros [= <- <-]; eauto |].
      intros [(? & [= <-] & E') ->]. congruence.
    + split; [discriminate |]. intros [(? & [= <-] & E') _]. congruence.
  - split; [discriminate | by intros [(? & ? & _) _]].
Qed.

Lemma input_Some node i self o n :
  store self !! node = Some o -> bn.inputs o !! i = Some n ->
  input node i self = Done n self.
Proof. intros Ho Hn. unfold input. by rewrite Ho, Hn. Qed.

Lemma item_Done {A} (l : list A) i self x self' :
  item l i self = Done x self' <-> l !! i = Some x /\ self' = self.
Proof.
  unfold item. destruct (l !! i) as [y |].
  - rewrite ret_Done. split; [by intros [-> ->] | by intros [[= ->] ->]].
  - split; [discriminate | by intros [? _]].
Qed.

Lemma builder_Done (f : bmg.BMGraphBuilder -> Node * bmg.BMGraphBuilder) self n self' :
  builder f self = Done n self' <->
  exists b, f (bmg self) = (n, b) /\ self' = {| errors := errors self; bmg := b |}.
Proof.
  unfold builder. destruct (f (bmg self)) as [m b]. split.
  - intros [= <- <-]. by exists b.
  - by intros (b' & [= <- <-] & ->).
Qed.

Lemma builder_eq (f : bmg.BMGraphBuilder -> Node * bmg.BMGraphBuilder) self n b :
  f (bmg self) = (n, b) -> builder f self = Done n {| errors := errors self; bmg := b |}.
Proof. intros E. apply builder_Done. by exists b. Qed.

(** The fixer [self'] is [self] with nodes added to the graph. *)
Definition appended (self self' : RequirementsFixer) : Prop :=
  errors self' = errors self /\ exists ext, store self' = store self ++ ext.

Lemma appended_refl (self : RequirementsFixer) : appended self self.
Proof. split; [reflexivity |]. exists []. by rewrite app_nil_r. Qed.

Lemma appended_trans (self0 self1 self2 : RequirementsFixer) :
  appended self0 self1 -> appended self1 self2 -> appended self0 self2.
Proof.
  intros [E1 [ext1 S1]] [E2 [ext2 S2]]. split; [congruence |].
  exists (ext1 ++ ext2). by rewrite S2, S1, app_assoc.
Qed.

(** What a call of a factory does to the fixer. *)
Lemma builder_add_Done c ins self n self' :
  builder (bmg.add c ins) self = Done n self' ->
  appended self self' /\
  store self' !! n = Some {| bn.cls := c; bn.inputs := ins |}.
Proof.
  intros (b & Hadd & ->)%builder_Done. split; [split; [reflexivity |] |].
  - by apply add_extends in Hadd.
  - by apply add_post in Hadd as [? _].
Qed.

Lemma add_error_Done v self u self' :
  add_error v self = Done u self' <->
  self' = {| errors := errors self ++ [v]; bmg := bmg self |}.
Proof.
  unfold add_error, error_report.add_error. destruct u.
  split; [by intros [= <-] | by intros ->].
Qed.

Lemma set_input_Done (node : Node) (i : nat) (new : Node) self u self' :
  set_input node i new self = Done u self' <->
  self' = {| errors := errors self; bmg := bmg.set_input node i new (bmg self) |}.
Proof. unfold set_input. destruct u. split; [by intros [= <-] | by intros ->]. Qed.

Lemma value_Done node self v self' :
  value node self = Done v self' <->
  (exists o t, store self !! node = Some o /\ bn.cls o = bn.ConstantNode v t) /\ self' = self.
Proof.
  unfold value. rewrite bind_Done. split.
  - intros (c & self1 & Hc & Hv). apply class_of_Done in Hc as [(o & Ho & ->) ->].
    destruct (bn.cls o) eqn:E; try discriminate Hv.
    apply ret_Done in Hv as [-> ->]. eauto.
  - intros [(o & t & Ho & Hc) ->]. exists (bn.cls o), self. split.
    + apply class_of_Done. eauto.
    + rewrite Hc. reflexivity.
Qed.

Lemma for_each_cons_Done {A} (x : A) (xs : list A) (body : A -> M unit) self u self' :
  for_each (x :: xs) body self = Done u self' <->
  exists self1, body x self = Done tt self1 /\ for_each xs body self1 = Done u self'.
Proof.
  simpl. rewrite bind_Done. split.
  - intros ([] & self1 & H1 & H2). eauto.
  - intros (self1 & H1 & H2). eauto.
Qed.

Section reads.
Context `{bn.NodeProperties}.

Lemma graph_type_Ok node self t :
  bn.graph_type (store self) node = Ok t -> graph_type node self = Done t self.
Proof. exact (property_Ok (fun s => bn.graph_type s node) self t). Qed.

Lemma inf_type_Ok node self t :
  bn.inf_type (store self) node = Ok t -> inf_type node self = Done t self.
Proof. exact (property_Ok (fun s => bn.inf_type s node) self t). Qed.

Lemma graph_type_Done node self t self' :
  graph_type node self = Done t self' <->
  bn.graph_type (store self) node = Ok t /\ self' = self.
Proof. exact (property_Done (fun s => bn.graph_type s node) self t self'). Qed.

Lemma inf_type_Done node self t self' :
  inf_type node self = Done t self' <->
  bn.inf_type (store self) node = Ok t /\ self' = self.
Proof. exact (property_Done (fun s => bn.inf_type s node) self t self'). Qed.

Lemma requirements_Done node self reqs self' :
  requirements node self = Done reqs self' <->
  bn.requirements (store self) node = Ok reqs /\ self' = self.
Proof. exact (property_Done (fun s => bn.requirements s node) self reqs self'). Qed.

Lemma requirements_Ok node self reqs :
  bn.requirements (store self) node = Ok reqs -> requirements node self = Done reqs self.
Proof. exact (property_Ok (fun s => bn.requirements s node) self reqs). Qed.

Lemma node_meets_requirement_Done node r self m self' :
  node_meets_requirement node r self = Done m self' <->
  (exists gt, bn.graph_type (store self) node = Ok gt /\ m = bt.meets_requirement gt r) /\
  self' = self.
Proof.
  unfold node_meets_requirement, graph_type. rewrite bind_Done. split.
  - intros (gt & self1 & [Hgt ->]%property_Done & [-> ->]%ret_Done). eauto.
  - intros [(gt & Hgt & ->) ->]. exists gt, self. split; [| reflexivity].
    exact (property_Ok (fun s => bn.graph_type s node) self gt Hgt).
Qed.

Lemma node_meets_requirement_Ok node r self gt :
  bn.graph_type (store self) node = Ok gt ->
  node_meets_requirement node r self = Done (bt.meets_requirement gt r) self.
Proof. intros Hgt. apply node_meets_requirement_Done. eauto. Qed.

Lemma is_malformed_Done c cls node self m self' :
  is_malformed c cls node self = Done m self' ->
  self' = self /\
  (m = true -> c = cls /\ bn.graph_type (store self) node = Ok bt.Malformed).
Proof.
  unfold is_malformed, graph_type. case_bool_decide as Ec.
  - intros (gt & self1 & [Hgt ->]%property_Done & [-> ->]%ret_Done)%bind_Done.
    split; [reflexivity |]. intros ->%bool_decide_eq_true. by split.
  - intros [-> ->]%ret_Done. by split.
Qed.

(** A node whose class is not [cls], or whose graph type is not
    [Malformed], is no malformed [cls]. *)
Lemma is_malformed_false c cls node self gt :
  bn.graph_type (store self) node = Ok gt ->
  ~ (c = cls /\ gt = bt.Malformed) ->
  is_malformed c cls node self = Done false self.
Proof.
  intros Hgt Hnot. unfold is_malformed. case_bool_decide as Ec; [| reflexivity].
  rewrite (bind_step _ _ _ _ _ (graph_type_Ok _ _ _ Hgt)).
  rewrite bool_decide_eq_false_2; [reflexivity |]. intros Hm. by apply Hnot.
Qed.

End reads.

End fixer_monad.

(** Take a hypothesis [H : m self = Done a self'] apart: [run_prim]
    when [m] is one of the primitive steps, [run_all] along the binds
    of [m], as far as the steps are primitive. *)
Ltac run_prim H :=
  lazymatch type of H with
  | fixer.ret _ _ = fixer.Done _ _ => apply ret_Done in H as [-> ->]
  | fixer.read _ _ = fixer.Done _ _ => apply read_Done in H as [-> ->]
  | fixer.property _ _ = fixer.Done _ _ => apply property_Done in H as [H ->]
  | fixer.graph_type _ _ = fixer.Done _ _ => apply graph_type_Done in H as [H ->]
  | fixer.inf_type _ _ = fixer.Done _ _ => apply inf_type_Done in H as [H ->]
  | fixer.requirements _ _ = fixer.Done _ _ => apply requirements_Done in H as [H ->]
  | fixer.node_meets_requirement _ _ _ = fixer.Done _ _ =>
      let gt := fresh "gt" in
      let Hgt := fresh "Hgt" in
      apply node_meets_requirement_Done in H as [(gt & Hgt & ->) ->]
  | fixer.assert _ _ = fixer.Done _ _ => apply assert_Done in H as [H ->]
  | fixer.raise _ _ = fixer.Done _ _ => discriminate H
  | fixer.is_malformed _ _ _ _ = fixer.Done _ _ => apply is_malformed_Done in H as [-> H]
  | fixer.builder _ _ = fixer.Done _ _ =>
      let Hnew := fresh "Hnew" in
      apply builder_add_Done in H as [H Hnew]
  | fixer.add_error _ _ = fixer.Done _ _ => apply add_error_Done in H as ->
  | fixer.class_of _ _ = fixer.Done _ _ =>
      let o := fresh "o" in
      let Ho := fresh "Ho" in
      apply class_of_Done in H as [(o & Ho & ->) ->]
  | fixer.input _ _ _ = fixer.Done _ _ =>
      let o := fresh "o" in
      let Ho := fresh "Ho" in
      apply input_Done in H as [(o & Ho & H) ->]
  | fixer.left _ _ = fixer.Done _ _ =>
      let o := fresh "o" in
      let Ho := fresh "Ho" in
      apply input_Done in H as [(o & Ho & H) ->]
  | fixer.right _ _ = fixer.Done _ _ =>
      let o := fresh "o" in
      let Ho := fresh "Ho" in
      apply input_Done in H as [(o & Ho & H) ->]
  | fixer.value _ _ = fixer.Done _ _ =>
      let o := fresh "o" in
      let t := fresh "t" in
      let Ho := fresh "Ho" in
      apply value_Done in H as [(o & t & Ho & H) ->]
  | fixer.item _ _ _ = fixer.Done _ _ => apply item_Done in H as [H ->]
  | _ => idtac
  end.

Ltac run_all H :=
  lazymatch type of H with
  | fixer.bind _ _ _ = fixer.Done _ _ =>
      let a := fresh "a" in
      let s := fresh "self" in
      let H1 := fresh "Hrun" in
      apply bind_Done in H as (a & s & H1 & H);
      run_prim H1; cbv beta in H; run_all H
  | _ => run_prim H
  end.

(** One step of a run: [E] is the outcome of the first method. *)
Ltac step E := rewrite (bind_step _ _ _ _ _ E); cbv beta.

(** *** Constants *)

Section constants.
Import fixer error_report.
Context `{bn.NodeProperties}.
Hypothesis Hconstants : constants_typed.

(** A type other than [Malformed] meets the requirement that it
    stands for. *)
Lemma meets_requirement_to_type (requirement : bt.Requirement) :
  bt.meets_requirement (requirement_to_type requirement) requirement
  = negb (bool_decide (requirement_to_type requirement = bt.Malformed)).
Proof.
  unfold bt.meets_requirement. destruct requirement as [t | t]; simpl.
  - case_bool_decide; [reflexivity |]. by rewrite bool_decide_eq_true_2.
  - case_bool_decide; [reflexivity |]. simpl. apply bool_decide_eq_true_2.
    unfold bt._supremum. by rewrite bool_decide_eq_true_2.
Qed.

(** C6, amended.  Meeting a requirement against a constant producer,
    a constant of type [t] and of inf type [it]: when [t] meets the
    requirement the constant is returned unchanged; otherwise, when
    [it] meets the upper bound of the requirement, the builder is
    asked for a constant of the required type with the same value --
    by [add_constant_of_matrix_type] for a matrix requirement, by
    [add_constant_of_type] otherwise; it makes one or shares the one
    that the graph has --, and that constant is returned, unless the
    required type is [Malformed]: the assertion that the new constant
    meets the requirement fails then; otherwise a
    [Violation(node, requirement, consumer, edge)] is added to the
    report and the original node is returned. *)
Theorem _meet_constant_requirement_cases (node : Node) (requirement : bt.Requirement)
    (consumer : Node) (edge : string) (self : RequirementsFixer)
    (v : bt.pyvalue) (t it : bt.BMGLatticeType) (ins : list Node) :
  let s := store self in
  let required_type := requirement_to_type requirement in
  let constant := {| bn.cls := bn.ConstantNode v required_type; bn.inputs := [] |} in
  s !! node = Some {| bn.cls := bn.ConstantNode v t; bn.inputs := ins |} ->
  bn.inf_type s node = Ok it ->
  (bt.meets_requirement t requirement = true ->
     _meet_constant_requirement node requirement consumer edge self = Done node self) /\
  (bt.meets_requirement t requirement = false ->
   bt.meets_requirement it (bt.upper_bound requirement) = true ->
   forall (new : Node) (b : bmg.BMGraphBuilder),
     (if must_be_matrix requirement
      then bmg.add_constant_of_matrix_type v required_type (bmg self)
      else bmg.add_constant_of_type v required_type (bmg self)) = (new, b) ->
     bmg.nodes b !! new = Some constant /\
     (bmg.nodes b = s \/ (new = length s /\ bmg.nodes b = s ++ [constant])) /\
     _meet_constant_requirement node requirement consumer edge self
       = if bool_decide (required_type = bt.Malformed)
         then Raised (AssertionError "")
         else Done new {| errors := errors self; bmg := b |}) /\
  (bt.meets_requirement t requirement = false ->
   bt.meets_requirement it (bt.upper_bound requirement) = false ->
     _meet_constant_requirement node requirement consumer edge self
       = Done node
           {| errors := errors self ++
                [{| node := node; requirement := requirement;
                    consumer := consumer; edge := edge |}];
              bmg := bmg self |}).
Proof.
  intros s required_type constant Hnode Hit.
  pose proof (Hconstants s node v t ins Hnode) as Hgt.
  unfold _meet_constant_requirement, type_meets_requirement.
  repeat split.
  - intros Hm. step (node_meets_requirement_Ok node requirement self t Hgt).
    by rewrite Hm.
  - assert (E : bmg.add (bn.ConstantNode v required_type) [] (bmg self) = (new, b)).
    { revert H2. unfold bmg.add_constant_of_matrix_type, bmg.add_constant_of_type.
      by destruct (must_be_matrix requirement). }
    by apply add_post in E as [? _].
  - assert (E : bmg.add (bn.ConstantNode v required_type) [] (bmg self) = (new, b)).
    { revert H2. unfold bmg.add_constant_of_matrix_type, bmg.add_constant_of_type.
      by destruct (must_be_matrix requirement). }
    by apply add_post in E as [_ ?].
  - revert H0 H1 H2. intros Hm Hi Hadd.
    step (node_meets_requirement_Ok node requirement self t Hgt). rewrite Hm.
    step (inf_type_Ok node self it Hit). rewrite Hi. fold required_type.
    assert (Hv : value node self = Done v self).
    { apply value_Done. split; [| reflexivity].
      eexists _, t. split; [exact Hnode | reflexivity]. }
    assert (E : (if must_be_matrix requirement
                 then bind (assert (is_BMGMatrixType required_type))
                        (fun _ => bind (value node)
                           (fun v => builder (bmg.add_constant_of_matrix_type v required_type)))
                 else bind (value node)
                        (fun v => builder (bmg.add_constant_of_type v required_type))) self
                = Done new {| errors := errors self; bmg := b |}).
    { destruct (must_be_matrix requirement) eqn:Em.
      - rewrite bind_assert.
        + step Hv. by apply builder_eq.
        + unfold must_be_matrix in Em. fold required_type in Em. by destruct required_type.
      - step Hv. by apply builder_eq. }
    step E.
    assert (Hnew : bmg.nodes b !! new = Some constant).
    { assert (E' : bmg.add (bn.ConstantNode v required_type) [] (bmg self) = (new, b)).
      { revert Hadd. unfold bmg.add_constant_of_matrix_type, bmg.add_constant_of_type.
        by destruct (must_be_matrix requirement). }
      by apply add_post in E' as [? _]. }
    pose proof (Hconstants _ _ _ _ _ Hnew) as Hgt'.
    step (node_meets_requirement_Ok new requirement
            {| errors := errors self; bmg := b |} required_type Hgt').
    unfold required_type at 1. rewrite meets_requirement_to_type. fold required_type.
    by destruct (bool_decide (required_type = bt.Malformed)).
  - intros Hm Hi.
    step (node_meets_requirement_Ok node requirement self t Hgt). rewrite Hm.
    step (inf_type_Ok node self it Hit). rewrite Hi. reflexivity.
Qed.

End constants.

(** *** Malformed multiplications *)

Section if_then_else.
Import fixer error_report.
Context `{bn.NodeProperties}.
Hypothesis Hconstants : constants_typed.
Hypothesis Hif_then_else : if_then_else_typed.
Hypothesis Hstable : graph_type_stable.

(** [constant = add_constant_of_type(v, t)] and
    [add_if_then_else(b, x, constant)], for a Boolean [b] and an [x]
    of type [t]: the two nodes are in the graph afterwards, which has
    grown by the nodes that it did not have, and the if-then-else has
    the type [t]. *)
Lemma if_then_else_of_operands (self : RequirementsFixer) (v : bt.pyvalue)
    (b x : Node) (t : bt.BMGLatticeType)
    (constant if_then_else : Node) (b1 b2 : bmg.BMGraphBuilder) :
  let s := store self in
  bn.graph_type s b = Ok bt.Boolean ->
  bn.graph_type s x = Ok t ->
  bmg.add_constant_of_type v t (bmg self) = (constant, b1) ->
  bmg.add_if_then_else b x constant b1 = (if_then_else, b2) ->
  (exists ext1, bmg.nodes b1 = s ++ ext1) /\
  (exists ext, bmg.nodes b2 = s ++ ext) /\
  bmg.nodes b2 !! constant = Some {| bn.cls := bn.ConstantNode v t; bn.inputs := [] |} /\
  bmg.nodes b2 !! if_then_else
    = Some {| bn.cls := bn.IfThenElseNode; bn.inputs := [b; x; constant] |} /\
  bn.graph_type (bmg.nodes b2) if_then_else = Ok t.
Proof.
  intros s Hb Hx Hadd1 Hadd2.
  unfold bmg.add_constant_of_type in Hadd1. unfold bmg.add_if_then_else in Hadd2.
  pose proof (add_post _ _ _ _ _ Hadd1) as [Hconstant _].
  pose proof (add_extends _ _ _ _ _ Hadd1) as [ext1 E1].
  pose proof (add_post _ _ _ _ _ Hadd2) as [Hite _].
  pose proof (add_extends _ _ _ _ _ Hadd2) as [ext2 E2].
  assert (Hconstant2 : bmg.nodes b2 !! constant
            = Some {| bn.cls := bn.ConstantNode v t; bn.inputs := [] |}).
  { rewrite E2. by apply lookup_app_l_Some. }
  assert (E : bmg.nodes b2 = s ++ (ext1 ++ ext2)).
  { rewrite E2, E1. unfold s, store. by rewrite app_assoc. }
  split; [by exists ext1 |]. split; [by eexists |]. split; [exact Hconstant2 |].
  split; [exact Hite |].
  apply (Hif_then_else _ _ _ _ _ _ Hite).
  - rewrite E. by apply Hstable.
  - rewrite E. by apply Hstable.
  - by apply (Hconstants _ _ _ _ _ Hconstant2).
Qed.

Variable meet : Node -> bt.Requirement -> Node -> string -> M Node.


End if_then_else.

(** *** The unsupported Tensor requirement *)

Section tensor_requirement.
Import fixer.

(** The name [Tensor] of [fix_requirements.py] is the class
    [torch.Tensor]: no lattice type is equal to it. *)
Lemma requirement_never_eq_Tensor (requirement : bt.BMGLatticeType) :
  py_eq (LatticeType requirement) Tensor = false.
Proof. reflexivity. Qed.

Section ValueError.
Context `{bn.NodeProperties}.

(** An exception that the read of a property of a node raises. *)
Definition raised_by_property (e : exn) : Prop :=
  exists s n,
    bn.graph_type s n = Raise e \/ bn.inf_type s n = Raise e \/
    bn.requirements s n = Raise e.

(** A method whose [ValueError]s are those of the properties that it
    reads. *)
Definition ValueError_of_property {A} (m : M A) : Prop :=
  forall self msg, m self = Raised (ValueError msg) -> raised_by_property (ValueError msg).

Lemma ValueError_bind {A B} (m : M A) (f : A -> M B) :
  ValueError_of_property m -> (forall a, ValueError_of_property (f a)) ->
  ValueError_of_property (bind m f).
Proof.
  intros Hm Hf self msg. unfold bind.
  destruct (m self) as [a self1 | e |] eqn:E; [apply Hf | | discriminate].
  intros [= ->]. by apply (Hm self msg).
Qed.

Lemma ValueError_ret {A} (a : A) : ValueError_of_property (ret a).
Proof. by intros self msg. Qed.

Lemma ValueError_read {A} (f : list bn.BMGNode -> A) : ValueError_of_property (read f).
Proof. by intros self msg. Qed.

Lemma ValueError_graph_type (node : Node) : ValueError_of_property (graph_type node).
Proof.
  intros self msg Hraised. unfold graph_type in Hraised.
  apply property_Raised in Hraised. exists (store self), node. by left.
Qed.

Lemma ValueError_inf_type (node : Node) : ValueError_of_property (inf_type node).
Proof.
  intros self msg Hraised. unfold inf_type in Hraised.
  apply property_Raised in Hraised. exists (store self), node. right. by left.
Qed.

Lemma ValueError_requirements (node : Node) : ValueError_of_property (requirements node).
Proof.
  intros self msg Hraised. unfold requirements in Hraised.
  apply property_Raised in Hraised. exists (store self), node. right. by right.
Qed.

Lemma ValueError_assert (b : bool) : ValueError_of_property (assert b).
Proof. intros self msg. by destruct b. Qed.

Lemma ValueError_AssertionError {A} (text : string) :
  ValueError_of_property (raise (A := A) (AssertionError text)).
Proof. by intros self msg. Qed.

Lemma ValueError_builder (f : bmg.BMGraphBuilder -> Node * bmg.BMGraphBuilder) :
  ValueError_of_property (builder f).
Proof. intros self msg. unfold builder. by destruct (f (bmg self)). Qed.

Lemma ValueError_add_error (v : error_report.Violation) :
  ValueError_of_property (add_error v).
Proof. by intros self msg. Qed.

Lemma ValueError_class_of (node : Node) : ValueError_of_property (class_of node).
Proof. intros self msg. unfold class_of. by destruct (store self !! node). Qed.

Lemma ValueError_input (node : Node) (i : nat) : ValueError_of_property (input node i).
Proof.
  intros self msg. unfold input.
  destruct (store self !! node) as [o |]; [| discriminate].
  by destruct (bn.inputs o !! i).
Qed.

Lemma ValueError_value (node : Node) : ValueError_of_property (value node).
Proof.
  apply ValueError_bind; [apply ValueError_class_of |].
  intros c. destruct c; by intros self msg.
Qed.

Lemma ValueError_item {A} (l : list A) (i : nat) : ValueError_of_property (item l i).
Proof. intros self msg. unfold item. by destruct (l !! i). Qed.

Lemma ValueError_for_each {A} (xs : list A) (body : A -> M unit) :
  (forall x, ValueError_of_property (body x)) -> ValueError_of_property (for_each xs body).
Proof.
  intros Hbody. induction xs as [| x xs IH]; [by intros self msg |].
  simpl. by apply ValueError_bind.
Qed.

(** Proves [ValueError_of_property m] along the binds and branches of
    [m]. *)
Ltac ValueError_of_property :=
  repeat first
    [ assumption
    | match goal with
      | Hm : forall n r c e, ValueError_of_property (?meet n r c e)
        |- ValueError_of_property (?meet _ _ _ _) => apply Hm
      | |- ValueError_of_property (match ?r with bt.Exact _ => _ | bt.UpperBound _ => _ end) =>
          destruct r
      end
    | apply ValueError_ret
    | apply ValueError_read
    | apply ValueError_graph_type
    | apply ValueError_inf_type
    | apply ValueError_requirements
    | apply ValueError_assert
    | apply ValueError_AssertionError
    | apply ValueError_builder
    | apply ValueError_add_error
    | apply ValueError_class_of
    | apply ValueError_input
    | apply ValueError_value
    | apply ValueError_bind; [| intros ?]
    | match goal with
      | |- ValueError_of_property (if ?b then _ else _) => destruct b
      end ].

Lemma _convert_node_ValueError
    (meet : Node -> bt.Requirement -> Node -> string -> M Node)
    (node : Node) (requirement : bt.BMGLatticeType) (consumer : Node) (edge : string) :
  (forall n r c e, ValueError_of_property (meet n r c e)) ->
  ValueError_of_property (_convert_node meet node requirement consumer edge).
Proof.
  intros Hmeet.
  unfold _convert_node, _convert_malformed_multiplication, _convert_malformed_power,
    is_malformed, left, right.
  rewrite requirement_never_eq_Tensor. ValueError_of_property.
Qed.

(** The [ValueError] of [_convert_node] is dead code: a [ValueError]
    that comes out of a call of [meet_requirement], whatever the graph
    and the requirement, was raised by the read of a property of a
    node. *)
Lemma meet_requirement_ValueError (depth : nat) (node : Node)
    (requirement : bt.Requirement) (consumer : Node) (edge : string) :
  ValueError_of_property (meet_requirement depth node requirement consumer edge).
Proof.
  revert node requirement consumer edge.
  induction depth as [| depth IH]; intros node requirement consumer edge.
  { by intros self msg. }
  assert (Hconvert : forall n r c e,
    ValueError_of_property (_convert_node (meet_requirement depth) n r c e)).
  { intros n r c e. by apply _convert_node_ValueError. }
  cbn [meet_requirement].
  unfold _meet_constant_requirement, _meet_distribution_requirement,
    _meet_map_requirement, _meet_operator_requirement, node_meets_requirement.
  ValueError_of_property.
Qed.

End ValueError.

(** C4. Reached with the requirement [bt.Tensor] on an operator of
    graph type and inf type Real, [_convert_node] does not raise the
    [ValueError] for an unsupported Tensor requirement: the test
    [requirement == Tensor] is false, and the conversion stops on the
    assertion that the requirement is Natural or Probability. *)
Theorem _convert_node_Tensor_requirement_AssertionError :
  let s := example.real_operator_graph in
  let self := example.fixer_of s in
  bn.graph_type s 0%nat = Ok bt.Real /\
  bn.inf_type s 0%nat = Ok bt.Real /\
  bt.meets_requirement bt.Real (bt.upper_bound (bt.Exact bt.Tensor)) = true /\
  py_eq (LatticeType bt.Tensor) Tensor = false /\
  _convert_node (meet_requirement 3) 0%nat bt.Tensor 1%nat "operator" self
    = Raised (AssertionError "") /\
  meet_requirement 3 0%nat (bt.Exact bt.Tensor) 1%nat "operator" self
    = Raised (AssertionError "").
Proof. repeat split. Qed.

End tensor_requirement.

(** *** The recursion depth

    [depth] only bounds the recursion of [meet_requirement]: a run that
    ends, with a result or with an exception, ends in the same way at
    every greater depth. *)

Section depth.
Import fixer.
Context `{bn.NodeProperties}.

(** [m'] does what [m] does wherever [m] ends. *)
Definition extends {A} (m m' : M A) : Prop :=
  forall self, m self = Unfinished \/ m self = m' self.

Lemma extends_refl {A} (m : M A) : extends m m.
Proof. intros self. by right. Qed.

Lemma extends_trans {A} (m1 m2 m3 : M A) :
  extends m1 m2 -> extends m2 m3 -> extends m1 m3.
Proof.
  intros H12 H23 self.
  destruct (H12 self) as [E | E]; [by left |].
  rewrite E. apply H23.
Qed.

Lemma extends_bind {A B} (m m' : M A) (f f' : A -> M B) :
  extends m m' -> (forall a, extends (f a) (f' a)) -> extends (bind m f) (bind m' f').
Proof.
  intros Hm Hf self. unfold bind.
  destruct (Hm self) as [-> | <-]; [by left |].
  destruct (m self); [apply Hf | by right | by left].
Qed.

Lemma extends_for_each {A} (xs : list A) (body body' : A -> M unit) :
  (forall x, extends (body x) (body' x)) ->
  extends (for_each xs body) (for_each xs body').
Proof.
  intros Hbody. induction xs as [| x xs IH]; [apply extends_refl |].
  simpl. by apply extends_bind.
Qed.

Lemma meet_requirement_S (depth : nat) (node : Node) (requirement : bt.Requirement)
    (consumer : Node) (edge : string) :
  meet_requirement (S depth) node requirement consumer edge =
  (c <- class_of node ;;
   if bool_decide (c = bn.Observation) then
     raise (AssertionError "Unexpected graph topology; an observation is never an input")
   else if bool_decide (c = bn.Query) then
     raise (AssertionError "Unexpected graph topology; a query is never an input")
   else if bn.is_ConstantNode c then
     _meet_constant_requirement node requirement consumer edge
   else if bn.is_DistributionNode c then
     _meet_distribution_requirement node requirement consumer edge
   else if bool_decide (c = bn.MapNode) then
     _meet_map_requirement node requirement consumer edge
   else if bn.is_OperatorNode c then
     _meet_operator_requirement (meet_requirement depth) node requirement consumer edge
   else
     raise (AssertionError "Unexpected node type")).
Proof. reflexivity. Qed.

(** Proves [extends m m'] for two runs of the same method. *)
Ltac extends :=
  repeat first
    [ assumption
    | match goal with
      | Hm : forall n r c e, extends (?meet n r c e) _ |- extends (?meet _ _ _ _) _ =>
          apply Hm
      | |- extends (match ?r with bt.Exact _ => _ | bt.UpperBound _ => _ end) _ =>
          destruct r
      | |- extends (if ?b then _ else _) _ => destruct b
      end
    | match goal with
      | |- extends ?m ?m' => constr_eq m m'; apply extends_refl
      end
    | apply extends_bind; [| intros ?] ].

Lemma meet_requirement_depth_S (depth : nat) (node : Node)
    (requirement : bt.Requirement) (consumer : Node) (edge : string) :
  extends (meet_requirement depth node requirement consumer edge)
          (meet_requirement (S depth) node requirement consumer edge).
Proof.
  revert node requirement consumer edge.
  induction depth as [| depth IH]; intros node requirement consumer edge.
  { intros self. by left. }
  rewrite !meet_requirement_S.
  unfold _meet_operator_requirement, _convert_node,
    _convert_malformed_multiplication, _convert_malformed_power.
  extends.
Qed.

Lemma meet_requirement_depth (depth depth' : nat) (node : Node)
    (requirement : bt.Requirement) (consumer : Node) (edge : string) :
  (depth <= depth')%nat ->
  extends (meet_requirement depth node requirement consumer edge)
          (meet_requirement depth' node requirement consumer edge).
Proof.
  induction 1 as [| depth' _ IH]; [apply extends_refl |].
  eapply extends_trans; [apply IH | apply meet_requirement_depth_S].
Qed.

Lemma fix_problems_depth (depth depth' : nat) :
  (depth <= depth')%nat -> extends (fix_problems depth) (fix_problems depth').
Proof.
  intros Hle. unfold fix_problems, fix_nodes.
  apply extends_bind; [apply extends_refl |]. intros nodes.
  apply extends_for_each. intros node. unfold fix_node.
  apply extends_bind; [apply extends_refl |]. intros requirements.
  apply extends_bind; [apply extends_refl |]. intros edges.
  apply extends_for_each. intros i. unfold fix_edge.
  apply extends_bind; [apply extends_refl |]. intros producer.
  apply extends_bind; [apply extends_refl |]. intros requirement.
  apply extends_bind; [apply extends_refl |]. intros label.
  apply extends_bind; [by apply meet_requirement_depth |]. intros new.
  apply extends_refl.
Qed.

(** A run of [fix_problems] that returns, returns the same fixer at
    every greater depth. *)
Lemma fix_problems_Done_depth (depth depth' : nat) (self self' : RequirementsFixer) :
  (depth <= depth')%nat ->
  fix_problems depth self = Done tt self' ->
  fix_problems depth' self = Done tt self'.
Proof.
  intros Hle Hrun.
  destruct (fix_problems_depth depth depth' Hle self) as [E | E]; congruence.
Qed.

End depth.

(** *** The model of the node classes *)

Section example_facts.
Import fixer error_report.

Lemma example_constants_typed : constants_typed.
Proof.
  intros s n v t ins Ho. simpl. unfold example.graph_type. simpl. by rewrite Ho.
Qed.

(** The graph type of a node object is fixed by the graph types of
    its inputs. *)
Lemma graph_type_of_operands (f g : Node -> result bt.BMGLatticeType) (o : bn.BMGNode)
    (t : bt.BMGLatticeType) :
  (forall x tx, x ∈ bn.inputs o -> f x = Ok tx -> g x = Ok tx) ->
  example.graph_type_of f o = Ok t -> example.graph_type_of g o = Ok t.
Proof.
  destruct o as [c ins]. unfold example.graph_type_of. simpl. intros Hfg.
  destruct c; try done; destruct ins as [| x1 [| x2 [| x3 [| x4 ins]]]]; try done.
  - destruct (f x1) as [t1 |] eqn:E1; [| done].
    destruct (f x2) as [t2 |] eqn:E2; [| done].
    rewrite (Hfg x1 t1), (Hfg x2 t2); [done | | done | | done]; set_solver.
  - destruct (f x1) as [t1 |] eqn:E1; [| done].
    destruct (f x2) as [t2 |] eqn:E2; [| done].
    destruct (f x3) as [t3 |] eqn:E3; [| done].
    rewrite (Hfg x1 t1), (Hfg x2 t2), (Hfg x3 t3);
      [done | | done | | done | | done]; set_solver.
Qed.

(** When the inputs give a type with [f] and not with [g], one of them
    has a type with [f] and none with [g]. *)
Lemma graph_type_of_stuck (f g : Node -> result bt.BMGLatticeType) (o : bn.BMGNode)
    (t : bt.BMGLatticeType) :
  example.graph_type_of f o = Ok t ->
  (forall t', example.graph_type_of g o <> Ok t') ->
  exists x tx, x ∈ bn.inputs o /\ f x = Ok tx /\ forall t', g x <> Ok t'.
Proof.
  destruct o as [c ins]. unfold example.graph_type_of. simpl. intros Hf Hg.
  assert (Hsome : forall x, x ∈ ins -> (exists tx, f x = Ok tx) ->
            (exists tx, g x = Ok tx) \/
            exists x tx, x ∈ ins /\ f x = Ok tx /\ forall t', g x <> Ok t').
  { intros x Hx [tx Hfx]. destruct (g x) as [t' |] eqn:E; [left; eauto |].
    right. exists x, tx. split; [done |]. split; [done |]. intros t'. by rewrite E. }
  destruct c; try (by destruct (Hg _ eq_refl));
    destruct ins as [| x1 [| x2 [| x3 [| x4 ins]]]]; try (by destruct (Hg _ eq_refl)).
  - destruct (f x1) as [t1 |] eqn:E1; [| done].
    destruct (f x2) as [t2 |] eqn:E2; [| done].
    destruct (Hsome x1) as [[u1 G1] | ?]; [set_solver | eauto | | done].
    destruct (Hsome x2) as [[u2 G2] | ?]; [set_solver | eauto | | done].
    rewrite G1, G2 in Hg. by destruct (Hg _ eq_refl).
  - destruct (f x1) as [t1 |] eqn:E1; [| done].
    destruct (f x2) as [t2 |] eqn:E2; [| done].
    destruct (f x3) as [t3 |] eqn:E3; [| done].
    destruct (Hsome x1) as [[u1 G1] | ?]; [set_solver | eauto | | done].
    destruct (Hsome x2) as [[u2 G2] | ?]; [set_solver | eauto | | done].
    destruct (Hsome x3) as [[u3 G3] | ?]; [set_solver | eauto | | done].
    rewrite G1, G2, G3 in Hg. by destruct (Hg _ eq_refl).
Qed.

Lemma graph_type_within_S (depth : nat) (s : list bn.BMGNode) (n : Node)
    (t : bt.BMGLatticeType) :
  example.graph_type_within depth s n = Ok t ->
  example.graph_type_within (S depth) s n = Ok t.
Proof.
  revert n t. induction depth as [| depth IH]; intros n t; [discriminate |].
  change (example.graph_type_within (S (S depth)) s n)
    with (match s !! n with
          | Some o => example.graph_type_of (example.graph_type_within (S depth) s) o
          | None => Raise (AttributeError "no such node")
          end).
  change (example.graph_type_within (S depth) s n)
    with (match s !! n with
          | Some o => example.graph_type_of (example.graph_type_within depth s) o
          | None => Raise (AttributeError "no such node")
          end) at 1.
  destruct (s !! n) as [o |]; [| done].
  apply graph_type_of_operands. intros x tx _. apply IH.
Qed.

Lemma graph_type_within_le (depth depth' : nat) (s : list bn.BMGNode) (n : Node)
    (t : bt.BMGLatticeType) :
  (depth <= depth')%nat ->
  example.graph_type_within depth s n = Ok t ->
  example.graph_type_within depth' s n = Ok t.
Proof.
  induction 1 as [| depth' _ IH]; [done |]. intros Hn. by apply graph_type_within_S, IH.
Qed.

Lemma graph_type_within_app (depth : nat) (s ext : list bn.BMGNode) (n : Node)
    (t : bt.BMGLatticeType) :
  example.graph_type_within depth s n = Ok t ->
  example.graph_type_within depth (s ++ ext) n = Ok t.
Proof.
  revert n t. induction depth as [| depth IH]; intros n t; [discriminate |]. simpl.
  destruct (s !! n) as [o |] eqn:Ho; [| done].
  rewrite (lookup_app_l_Some _ _ _ _ Ho).
  apply graph_type_of_operands. intros x tx _. apply IH.
Qed.

(** A node that has a type within [depth + 1] nodes and not within
    [depth] heads a chain of [depth + 1] different nodes. *)
Lemma graph_type_within_chain (s : list bn.BMGNode) (depth : nat) :
  forall n t,
    example.graph_type_within (S depth) s n = Ok t ->
    (forall t', example.graph_type_within depth s n <> Ok t') ->
    exists chain, length chain = S depth /\ NoDup chain /\
      forall x, x ∈ chain ->
        (x < length s)%nat /\ exists tx, example.graph_type_within (S depth) s x = Ok tx.
Proof.
  induction depth as [| depth IH]; intros n t Hn Hnot.
  - exists [n]. split; [done |]. split; [apply NoDup_singleton |].
    intros x ->%list_elem_of_singleton. split; [| eauto].
    simpl in Hn. destruct (s !! n) eqn:Ho; [| done]. by apply lookup_lt_Some in Ho.
  - change (example.graph_type_within (S (S depth)) s n)
      with (match s !! n with
            | Some o => example.graph_type_of (example.graph_type_within (S depth) s) o
            | None => Raise (AttributeError "no such node")
            end) in Hn.
    assert (Hnot' : forall t',
      match s !! n with
      | Some o => example.graph_type_of (example.graph_type_within depth s) o
      | None => Raise (AttributeError "no such node")
      end <> Ok t') by exact Hnot.
    destruct (s !! n) as [o |] eqn:Ho; [| done].
    destruct (graph_type_of_stuck _ _ o t Hn Hnot') as (x & tx & _ & Hx & Hxnot).
    destruct (IH x tx Hx Hxnot) as (chain & Hlen & Hnd & Hchain).
    exists (n :: chain). split; [simpl; by rewrite Hlen |]. split.
    + apply NoDup_cons. split; [| done]. intros Hin.
      destruct (Hchain n Hin) as [_ [tn Htn]]. by apply (Hnot tn).
    + intros y [-> | Hy]%elem_of_cons.
      * split; [by apply lookup_lt_Some in Ho |]. exists t.
        change (example.graph_type_within (S (S depth)) s n)
          with (match s !! n with
                | Some o => example.graph_type_of (example.graph_type_within (S depth) s) o
                | None => Raise (AttributeError "no such node")
                end).
        by rewrite Ho.
      * destruct (Hchain y Hy) as [Hlt [ty Hty]]. split; [done |].
        exists ty. by apply graph_type_within_S.
Qed.

(** As many nodes as the store has give every type that can be
    read. *)
Lemma graph_type_within_saturated (s : list bn.BMGNode) (depth : nat) (n : Node)
    (t : bt.BMGLatticeType) :
  (length s <= depth)%nat ->
  example.graph_type_within (S depth) s n = Ok t ->
  example.graph_type_within depth s n = Ok t.
Proof.
  intros Hle Hn. destruct (example.graph_type_within depth s n) as [t' | e] eqn:E.
  - apply graph_type_within_S in E. congruence.
  - exfalso. destruct (graph_type_within_chain s depth n t Hn) as (chain & Hlen & Hnd & Hchain).
    { intros t'. by rewrite E. }
    assert (Hsub : chain ⊆+ seq 0 (length s)).
    { apply NoDup_submseteq; [done |]. intros x Hx. apply elem_of_seq.
      destruct (Hchain x Hx). lia. }
    apply submseteq_length in Hsub. rewrite length_seq in Hsub. lia.
Qed.

Lemma example_if_then_else_typed : if_then_else_typed.
Proof.
  intros s n c a b t Hn Hc Ha Hb. simpl in *. unfold example.graph_type in *.
  apply graph_type_within_saturated; [lia |].
  change (example.graph_type_within (S (S (length s))) s n)
    with (match s !! n with
          | Some o => example.graph_type_of (example.graph_type_within (S (length s)) s) o
          | None => Raise (AttributeError "no such node")
          end).
  rewrite Hn. unfold example.graph_type_of. cbn [bn.cls bn.inputs].
  rewrite Hc, Ha, Hb. simpl. by rewrite !bool_decide_eq_true_2.
Qed.

Lemma example_graph_type_stable : graph_type_stable.
Proof.
  intros s ext n t Hn. simpl in *. unfold example.graph_type in *.
  apply graph_type_within_app with (ext := ext) in Hn.
  revert Hn. apply graph_type_within_le. rewrite length_app. lia.
Qed.

End example_facts.

Section example_runs.
Import fixer error_report.

(** C1. On [Bernoulli(Sample(Bernoulli(0.5)))] [fix_problems] returns
    with an empty report and leaves an edge that is not met: it
    converts the Boolean sample into [IfThenElse(sample, 1.0, 0.0)]
    with probability constants and makes that node the input of the
    outer Bernoulli.  The new node requires [Exact(Boolean)] of its
    consequence -- the supremum of the inf types of the constants 1.0
    and 0.0 --, the consequence has the graph type Probability, which
    does not meet it, and no violation is recorded. *)
Theorem fix_problems_coercion_edge_unsettled :
  let self' := example.fixed example.coercion_graph in
  fix_problems 3 (example.fixer_of example.coercion_graph) = Done tt self' /\
  errors self' = [] /\
  store self' !! 3%nat = Some (example.node (bn.DistributionNode "Bernoulli") [7%nat]) /\
  store self' !! 7%nat = Some (example.node bn.IfThenElseNode [2%nat; 6%nat; 5%nat]) /\
  store self' !! 6%nat
    = Some (example.node (bn.ConstantNode (bt.VFloat (Finite 1)) bt.Probability) []) /\
  bn.requirements (store self') 7%nat
    = Ok [bt.Exact bt.Boolean; bt.Exact bt.Boolean; bt.Exact bt.Boolean] /\
  bn.get_edge_labels (store self') 7%nat = ["condition"; "consequence"; "alternative"] /\
  bn.graph_type (store self') 6%nat = Ok bt.Probability /\
  bt.meets_requirement bt.Probability (bt.Exact bt.Boolean) = false.
Proof. repeat split. Qed.

(** The edge of a node that [fix_problems] visits can end unmet as
    well, where the builder shares a node: here the Bernoulli at 4
    gets the if-then-else at 5, which the graph has already, as its
    input; when [fix_problems] comes to 5 it replaces the branches by
    Boolean constants, and the if-then-else is Boolean afterwards. *)
Lemma fix_problems_shared_node_unsettled :
  let s := example.shared_graph in
  let self' := example.fixed s in
  fix_problems 3 (example.fixer_of s) = Done tt self' /\
  errors self' = [] /\
  bn.requirements s 4%nat = Ok [bt.Exact bt.Probability] /\
  store self' !! 4%nat = Some (example.node (bn.DistributionNode "Bernoulli") [5%nat]) /\
  bn.requirements (store self') 4%nat = Ok [bt.Exact bt.Probability] /\
  bn.graph_type (store self') 5%nat = Ok bt.Boolean /\
  bt.meets_requirement bt.Boolean (bt.Exact bt.Probability) = false.
Proof. repeat split. Qed.

(** C6, as stated, fails for a requirement of the type [Malformed]:
    the natural constant 2 does not meet [Exact(Malformed)], its inf
    type meets the upper bound, and the fixer stops on its assertion
    that the new constant meets the requirement; it returns no
    constant. *)
Lemma _meet_constant_requirement_Malformed_requirement :
  let s := example.graph in
  let self := example.fixer_of s in
  s !! 0%nat = Some (example.node (bn.ConstantNode (bt.VInt 2) bt.Natural) []) /\
  bn.graph_type s 0%nat = Ok bt.Natural /\
  bt.meets_requirement bt.Natural (bt.Exact bt.Malformed) = false /\
  bn.inf_type s 0%nat = Ok bt.Natural /\
  bt.meets_requirement bt.Natural (bt.upper_bound (bt.Exact bt.Malformed)) = true /\
  _meet_constant_requirement 0%nat (bt.Exact bt.Malformed) 1%nat "operand" self
    = Raised (AssertionError "") /\
  meet_requirement 3 0%nat (bt.Exact bt.Malformed) 1%nat "operand" self
    = Raised (AssertionError "").
Proof. repeat split. Qed.

(** Where the graph has the constant of the required type already, no
    constant is created: the builder shares the one that is there,
    and the graph is left as it is. *)
Lemma _meet_constant_requirement_shares_constant :
  let self := example.fixer_of example.constant_graph in
  _meet_constant_requirement 0%nat (bt.Exact bt.Real) 1%nat "operand" self
    = Done 2%nat self.
Proof. reflexivity. Qed.


End example_runs.

Lemma _meet_constant_requirement_cases_witness :
  let self := example.fixer_of example.graph in
  let constant := example.node (bn.ConstantNode (bt.VInt 2) bt.Real) [] in
  let b := {| bmg.nodes := example.graph ++ [constant] |} in
  bmg.nodes b !! 8%nat = Some constant /\
  (bmg.nodes b = example.graph \/
   (8%nat = length example.graph /\ bmg.nodes b = example.graph ++ [constant])) /\
  fixer._meet_constant_requirement 0%nat (bt.Exact bt.Real) 1%nat "operand" self
  = fixer.Done 8%nat {| fixer.errors := []; fixer.bmg := b |}.
Proof.
  intros self constant b.
  exact (proj1 (proj2
    (_meet_constant_requirement_cases example_constants_typed
       0%nat (bt.Exact bt.Real) 1%nat "operand" self
       (bt.VInt 2) bt.Natural bt.Natural [] eq_refl eq_refl))
    eq_refl eq_refl 8%nat b eq_refl).
Defined.


(** * Further properties of the code *)

(** ** The order of the lattice *)

Section lattice_order.
Import bt.

(** The class that the table gives for two classes. *)
Definition class_supremum (c c' : MatrixClass) : MatrixClass :=
  match _lookup c c' 1 1 with
  | Matrix x _ _ => x
  | _ => c
  end.

Lemma _lookup_class (c c' : MatrixClass) (r k : Z) :
  _lookup c c' r k = Matrix (class_supremum c c') r k.
Proof. destruct c, c'; reflexivity. Qed.

Lemma class_supremum_diag (c : MatrixClass) : class_supremum c c = c.
Proof. by destruct c. Qed.

(** [_supremum] by cases on its arguments. *)
Definition _supremum_cases (t u : BMGLatticeType) : BMGLatticeType :=
  match t, u with
  | Malformed, _ | _, Malformed => Malformed
  | bottom, x | x, bottom => x
  | Tensor, _ | _, Tensor => Tensor
  | Matrix c r k, Matrix c' r' k' =>
      if bool_decide (r = r' /\ k = k') then Matrix (class_supremum c c') r k
      else Tensor
  end.

Lemma _supremum_eq_cases (t u : BMGLatticeType) :
  _supremum t u = _supremum_cases t u.
Proof.
  destruct t as [ | | | c r k], u as [ | | | c' r' k']; try reflexivity.
  unfold _supremum, _supremum_cases.
  case_bool_decide as E.
  - injection E as <- <- <-.
    rewrite bool_decide_eq_true_2 by done. by rewrite class_supremum_diag.
  - change (bool_decide (Matrix c r k = bottom)) with false.
    change (bool_decide (Matrix c' r' k' = bottom)) with false.
    change (bool_decide (Matrix c r k = top)) with false.
    change (bool_decide (Matrix c' r' k' = top)) with false.
    change (bool_decide (Matrix c r k = Tensor)) with false.
    change (bool_decide (Matrix c' r' k' = Tensor)) with false.
    cbn [orb]. rewrite _lookup_class.
    destruct (Z.eqb_spec r r'), (Z.eqb_spec k k'); simpl;
      case_bool_decide; try reflexivity; exfalso; intuition congruence.
Qed.

Lemma class_supremum_assoc (c1 c2 c3 : MatrixClass) :
  c1 <> SimplexMatrix_class -> c2 <> SimplexMatrix_class -> c3 <> SimplexMatrix_class ->
  class_supremum c1 (class_supremum c2 c3) = class_supremum (class_supremum c1 c2) c3.
Proof. destruct c1, c2, c3; intros; try reflexivity; congruence. Qed.

Lemma class_supremum_no_simplex (c c' : MatrixClass) :
  c <> SimplexMatrix_class -> c' <> SimplexMatrix_class ->
  class_supremum c c' <> SimplexMatrix_class.
Proof. destruct c, c'; intros; try discriminate; congruence. Qed.

Lemma class_supremum_upper_l (c c' : MatrixClass) :
  class_supremum c (class_supremum c c') = class_supremum c c'.
Proof. destruct c, c'; reflexivity. Qed.

Lemma class_supremum_upper_r (c c' : MatrixClass) :
  class_supremum c' (class_supremum c c') = class_supremum c c'.
Proof. destruct c, c'; reflexivity. Qed.

Lemma class_supremum_trans (c1 c2 c3 : MatrixClass) :
  class_supremum c1 c2 = c2 -> class_supremum c2 c3 = c3 -> class_supremum c1 c3 = c3.
Proof. destruct c1, c2, c3; try reflexivity; discriminate. Qed.

Lemma class_supremum_antisym (c1 c2 : MatrixClass) :
  class_supremum c1 c2 = c2 -> class_supremum c2 c1 = c1 -> c1 = c2.
Proof. destruct c1, c2; try reflexivity; discriminate. Qed.

(** X1. [_supremum(t, u)] and [_supremum(u, t)] are the same type
    except when one argument is a simplex matrix and the other a
    Boolean or a zero matrix of the same dimensions. *)
Theorem _supremum_commutative_iff (t u : BMGLatticeType) :
  _supremum t u = _supremum u t <-> simplex_clash t u = false.
Proof.
  rewrite !_supremum_eq_cases.
  destruct t as [ | | | c r k], u as [ | | | c' r' k']; try done.
  unfold simplex_clash, _supremum_cases.
  destruct (bool_decide (r = r' /\ k = k')) eqn:E.
  - apply bool_decide_eq_true in E as [<- <-].
    rewrite bool_decide_eq_true_2 by done.
    destruct c, c'; simpl; split; intros; done.
  - apply bool_decide_eq_false in E.
    rewrite bool_decide_eq_false_2 by (intros [<- <-]; by apply E). done.
Qed.

(** X2. On types none of which is a simplex matrix, [_supremum] is
    associative. *)
Theorem _supremum_associative_without_simplex (t u v : BMGLatticeType) :
  is_SimplexMatrix t = false -> is_SimplexMatrix u = false ->
  is_SimplexMatrix v = false ->
  _supremum t (_supremum u v) = _supremum (_supremum t u) v.
Proof.
  intros Ht Hu Hv. rewrite !_supremum_eq_cases.
  destruct t as [ | | | c1 r1 k1], u as [ | | | c2 r2 k2], v as [ | | | c3 r3 k3];
    try reflexivity; simpl;
    try (by destruct (bool_decide _)).
  assert (c1 <> SimplexMatrix_class) by (intros ->; discriminate Ht).
  assert (c2 <> SimplexMatrix_class) by (intros ->; discriminate Hu).
  assert (c3 <> SimplexMatrix_class) by (intros ->; discriminate Hv).
  destruct (bool_decide (r1 = r2 /\ k1 = k2)) eqn:E12,
    (bool_decide (r2 = r3 /\ k2 = k3)) eqn:E23; simpl.
  - apply bool_decide_eq_true in E12 as [<- <-].
    apply bool_decide_eq_true in E23 as [<- <-].
    rewrite !bool_decide_eq_true_2 by done. by rewrite class_supremum_assoc.
  - apply bool_decide_eq_true in E12 as [<- <-].
    by rewrite E23.
  - apply bool_decide_eq_true in E23 as [<- <-].
    by rewrite E12.
  - reflexivity.
Qed.

Lemma _supremum_associative_without_simplex_witness :
  _supremum Natural (_supremum Probability (RealMatrix 2 2))
    = _supremum (_supremum Natural Probability) (RealMatrix 2 2).
Proof.
  apply (_supremum_associative_without_simplex Natural Probability (RealMatrix 2 2));
    reflexivity.
Defined.

(** Both arguments are below the result. *)
Lemma _supremum_upper_l (t u : BMGLatticeType) :
  _supremum t (_supremum t u) = _supremum t u.
Proof.
  rewrite !_supremum_eq_cases.
  destruct t as [ | | | c r k], u as [ | | | c' r' k']; try reflexivity; simpl.
  - by rewrite bool_decide_eq_true_2, class_supremum_diag.
  - destruct (bool_decide (r = r' /\ k = k')) eqn:E; simpl; [| reflexivity].
    by rewrite bool_decide_eq_true_2, class_supremum_upper_l.
Qed.

Lemma _supremum_upper_r (t u : BMGLatticeType) :
  _supremum u (_supremum t u) = _supremum t u.
Proof.
  rewrite !_supremum_eq_cases.
  destruct t as [ | | | c r k], u as [ | | | c' r' k']; try reflexivity; simpl.
  - by rewrite bool_decide_eq_true_2, class_supremum_diag.
  - destruct (bool_decide (r = r' /\ k = k')) eqn:E; simpl; [| reflexivity].
    apply bool_decide_eq_true in E as [<- <-].
    by rewrite bool_decide_eq_true_2, class_supremum_upper_r.
Qed.

Lemma _supremum_below_trans (t u v : BMGLatticeType) :
  _supremum t u = u -> _supremum u v = v -> _supremum t v = v.
Proof.
  rewrite !_supremum_eq_cases.
  destruct t as [ | | | c1 r1 k1], u as [ | | | c2 r2 k2], v as [ | | | c3 r3 k3];
    try done; simpl.
  destruct (bool_decide (r1 = r2 /\ k1 = k2)) eqn:E12; [| done].
  destruct (bool_decide (r2 = r3 /\ k2 = k3)) eqn:E23; [| done].
  apply bool_decide_eq_true in E12 as [<- <-].
  apply bool_decide_eq_true in E23 as [<- <-].
  rewrite bool_decide_eq_true_2 by done.
  intros [= H12] [= H23]. f_equal. by apply class_supremum_trans with c2.
Qed.

Lemma _supremum_below_antisym (t u : BMGLatticeType) :
  _supremum t u = u -> _supremum u t = t -> t = u.
Proof.
  rewrite !_supremum_eq_cases.
  destruct t as [ | | | c1 r1 k1], u as [ | | | c2 r2 k2]; try done; simpl.
  destruct (bool_decide (r1 = r2 /\ k1 = k2)) eqn:E12; [| done].
  apply bool_decide_eq_true in E12 as [<- <-].
  rewrite bool_decide_eq_true_2 by done.
  intros [= H12] [= H21]. f_equal. by apply class_supremum_antisym.
Qed.

Lemma meets_upper_bound_eq (t u : BMGLatticeType) :
  meets_requirement t (UpperBound u) = true <-> t <> Malformed /\ _supremum t u = u.
Proof.
  unfold meets_requirement. case_bool_decide as Ht.
  - split; [done | by intros [? _]].
  - rewrite bool_decide_eq_true. split; [done | by intros [_ ?]].
Qed.

(** X3. Each argument of [_supremum], unless it is [Malformed], meets
    the result as an upper bound. *)
Theorem _supremum_is_upper_bound (t u : BMGLatticeType) :
  (t <> Malformed -> meets_requirement t (UpperBound (_supremum t u)) = true) /\
  (u <> Malformed -> meets_requirement u (UpperBound (_supremum t u)) = true).
Proof.
  split; intros Hwell; apply meets_upper_bound_eq; split; try done.
  - apply _supremum_upper_l.
  - apply _supremum_upper_r.
Qed.

Lemma _supremum_is_upper_bound_witness :
  meets_requirement (SimplexMatrix 2 2) (UpperBound (_supremum (SimplexMatrix 2 2) (BooleanMatrix 2 2))) = true /\
  meets_requirement (BooleanMatrix 2 2) (UpperBound (_supremum (SimplexMatrix 2 2) (BooleanMatrix 2 2))) = true.
Proof.
  destruct (_supremum_is_upper_bound (SimplexMatrix 2 2) (BooleanMatrix 2 2)) as [Hl Hr].
  split; [apply Hl | apply Hr]; discriminate.
Defined.

(** X4. Meeting an upper bound is a partial order on the types other
    than [Malformed]: reflexive, transitive and antisymmetric. *)
Theorem meets_upper_bound_partial_order (t u v : BMGLatticeType) :
  (t <> Malformed -> meets_requirement t (UpperBound t) = true) /\
  (meets_requirement t (UpperBound u) = true ->
   meets_requirement u (UpperBound v) = true ->
   meets_requirement t (UpperBound v) = true) /\
  (meets_requirement t (UpperBound u) = true ->
   meets_requirement u (UpperBound t) = true -> t = u).
Proof.
  rewrite !meets_upper_bound_eq. split; [| split].
  - intros Hwell. split; [done | apply _supremum_idempotent].
  - intros [Hwell Htu] [_ Huv]. split; [done |]. by apply _supremum_below_trans with u.
  - intros [_ Htu] [_ Hut]. by apply _supremum_below_antisym.
Qed.

Lemma meets_upper_bound_partial_order_witness :
  meets_requirement Boolean (UpperBound Real) = true.
Proof.
  destruct (meets_upper_bound_partial_order Boolean Natural Real) as (_ & Htrans & _).
  apply Htrans; reflexivity.
Defined.

Lemma supremum_snoc (ts : list BMGLatticeType) (t : BMGLatticeType) :
  supremum (ts ++ [t]) = _supremum (supremum ts) t.
Proof. unfold supremum. by rewrite fold_left_app. Qed.

(** X5. The variadic [supremum] is above every one of its arguments:
    an argument other than [Malformed] meets the result as an upper
    bound. *)
Theorem supremum_is_upper_bound (ts : list BMGLatticeType) (t : BMGLatticeType) :
  t ∈ ts -> t <> Malformed ->
  meets_requirement t (UpperBound (supremum ts)) = true.
Proof.
  intros Hin Ht. apply meets_upper_bound_eq. split; [done |]. clear Ht.
  induction ts as [| u ts IH] using rev_ind; [by apply elem_of_nil in Hin |].
  rewrite supremum_snoc.
  apply elem_of_app in Hin as [Hin | Hin].
  - apply _supremum_below_trans with (supremum ts); [by apply IH |].
    apply _supremum_upper_l.
  - apply list_elem_of_singleton in Hin as ->. apply _supremum_upper_r.
Qed.

Lemma supremum_is_upper_bound_witness :
  meets_requirement Natural
    (UpperBound (supremum [SimplexMatrix 1 1; Natural; Boolean; NegativeReal])) = true.
Proof.
  apply (supremum_is_upper_bound [SimplexMatrix 1 1; Natural; Boolean; NegativeReal] Natural).
  - apply list_elem_of_In. simpl. tauto.
  - discriminate.
Defined.

(** X6. The result of [supremum] is [Malformed] exactly when one of
    its arguments is: no types that are well formed have a malformed
    supremum. *)
Theorem supremum_Malformed_iff (ts : list BMGLatticeType) :
  supremum ts = Malformed <-> Malformed ∈ ts.
Proof.
  induction ts as [| u ts IH] using rev_ind.
  - split; [discriminate | by intros ?%elem_of_nil].
  - rewrite supremum_snoc, elem_of_app, list_elem_of_singleton, <- IH.
    rewrite _supremum_eq_cases.
    destruct (supremum ts) as [ | | | c r k], u as [ | | | c' r' k'];
      simpl; try (split; [discriminate | intros [? | ?]; discriminate]);
      try (split; [by right | done]); try (split; [by left | done]).
    destruct (bool_decide _); split; try discriminate; intros [? | ?]; discriminate.
Qed.

(** X7. Two matrix types of different dimensions have the supremum
    [Tensor]; two of the same dimensions have a matrix type of these
    dimensions. *)
Theorem _supremum_dimensions (c c' : MatrixClass) (r k r' k' : Z) :
  ((r, k) <> (r', k') -> _supremum (Matrix c r k) (Matrix c' r' k') = Tensor) /\
  ((r, k) = (r', k') ->
   exists c'', _supremum (Matrix c r k) (Matrix c' r' k') = Matrix c'' r k).
Proof.
  rewrite _supremum_eq_cases. simpl. split.
  - intros Hdiff. rewrite bool_decide_eq_false_2; [done |].
    intros [-> ->]. by apply Hdiff.
  - intros [= <- <-]. rewrite bool_decide_eq_true_2 by done. eauto.
Qed.

Lemma _supremum_dimensions_witness :
  _supremum (RealMatrix 2 3) (RealMatrix 3 2) = Tensor /\
  exists c'', _supremum (NaturalMatrix 2 3) (ProbabilityMatrix 2 3) = Matrix c'' 2 3.
Proof.
  split.
  - apply (_supremum_dimensions RealMatrix_class RealMatrix_class 2 3 3 2). discriminate.
  - apply (_supremum_dimensions NaturalMatrix_class ProbabilityMatrix_class 2 3 2 3).
    reflexivity.
Defined.

End lattice_order.

(** ** The type of a tensor value *)

Section tensor_facts.
Import bt.
Variable sums_to_one : torch.tensor -> bool.

(** The float branch of [type_of_value] is [type_of_float], whatever
    [_type_of_matrix] is. *)
Lemma type_of_value_float (f : torch.tensor -> result BMGLatticeType) (x : pyfloat) :
  type_of_value f (VFloat x) = type_of_float x.
Proof. unfold type_of_float. simpl. by destruct (int_of_float x). Qed.

(** A 1 x 1 matrix type other than the simplex. *)
Definition scalar_type (t : BMGLatticeType) : Prop :=
  exists c, t = Matrix c 1 1 /\ c <> SimplexMatrix_class.

Lemma type_of_int_scalar (i : Z) : scalar_type (type_of_int i).
Proof.
  unfold type_of_int.
  destruct (i =? 0); [by eexists |].
  destruct (i =? 1); [by eexists |].
  destruct (i >=? 2); by eexists.
Qed.

Lemma type_of_float_finite (q : Q) :
  exists t, type_of_float (Finite q) = Ok t /\ scalar_type t.
Proof.
  unfold type_of_float. simpl.
  destruct (Qeq_bool q _); [eexists; split; [done | apply type_of_int_scalar] |].
  destruct (Qle_bool 0 q); [destruct (Qle_bool q 1) |]; eexists; split; try done; by eexists.
Qed.

Lemma comprehension_finite (xs : list pyfloat) :
  Forall is_finite xs ->
  exists ts, comprehension type_of_float xs = Ok ts /\
    length ts = length xs /\ Forall scalar_type ts.
Proof.
  induction 1 as [| x xs [q ->] _ (ts & Hts & Hlen & Hall)]; [by exists [] |].
  destruct (type_of_float_finite q) as (t & Ht & Hs).
  exists (t :: ts). simpl. rewrite Ht. simpl. rewrite Hts. simpl.
  repeat split; [by rewrite Hlen | by constructor].
Qed.

Lemma comprehension_not_finite (xs : list pyfloat) :
  Exists (fun x => ~ is_finite x) xs ->
  comprehension type_of_float xs
    = Raise (OverflowError "cannot convert float infinity to integer") \/
  comprehension type_of_float xs
    = Raise (ValueError "cannot convert float NaN to integer").
Proof.
  induction xs as [| x xs IH]; intros Hex; [by apply Exists_nil in Hex |].
  simpl. destruct x as [q | | |]; try (by left); try (by right).
  destruct (type_of_float_finite q) as (t & -> & _). simpl.
  apply Exists_cons in Hex as [Hx | Hex]; [exfalso; apply Hx; by exists q |].
  destruct (IH Hex) as [-> | ->]; [by left | by right].
Qed.

(** The supremum of the types of the elements of a matrix that is not
    empty is a 1 x 1 matrix type, and not the simplex. *)
Lemma supremum_scalar_types (ts : list BMGLatticeType) :
  ts <> [] -> Forall scalar_type ts -> scalar_type (supremum ts).
Proof.
  induction ts as [| t ts IH] using rev_ind; [done |].
  intros _ Hall. apply Forall_app in Hall as [Hts Ht].
  apply Forall_singleton in Ht as (c & -> & Hc).
  rewrite supremum_snoc, _supremum_eq_cases.
  destruct ts as [| t' ts'].
  - exists c. by split.
  - destruct IH as (c' & -> & Hc'); [done | done |].
    simpl. exists (class_supremum c' c). split; [done |].
    by apply class_supremum_no_simplex.
Qed.

(** X8. On a tensor of one or two dimensions that has elements, more
    than one, all of them finite, [_type_of_matrix] returns a matrix
    type of the dimensions of the tensor (one row for a vector): no
    assertion fails.  The type is a simplex or a one-hot matrix only
    if the rows sum to one. *)
Theorem _type_of_matrix_returns_matrix_type (v : torch.tensor) (r c : Z) :
  numel v <> 1 ->
  dimensions_of (torch.shape v) r c ->
  torch.elements v <> [] ->
  Forall is_finite (torch.elements v) ->
  exists cls,
    _type_of_matrix sums_to_one v = Ok (Matrix cls r c) /\
    (sums_to_one v = false ->
     cls <> SimplexMatrix_class /\ cls <> OneHotMatrix_class).
Proof.
  intros Hnumel Hshape Hne Hfin.
  destruct (comprehension_finite _ Hfin) as (ts & Hts & Hlen & Hall).
  assert (Hts_ne : ts <> []).
  { intros ->. destruct (torch.elements v); [done | discriminate Hlen]. }
  destruct (supremum_scalar_types ts Hts_ne Hall) as (cls & Hsup & Hcls).
  unfold _type_of_matrix.
  rewrite (proj2 (Z.eqb_neq _ _) Hnumel).
  assert (Hrc : exists b,
    (2 <? length (torch.shape v))%nat = false /\
    (if (length (torch.shape v) =? 1)%nat then Ok 1 else index (torch.shape v) 0) = Ok r /\
    (if (length (torch.shape v) =? 1)%nat then index (torch.shape v) 0
     else index (torch.shape v) 1) = Ok c /\ b = true).
  { exists true. destruct Hshape as [[-> ->] | ->]; by repeat split. }
  destruct Hrc as (_ & -> & -> & -> & _). simpl.
  rewrite Hts. simpl. rewrite Hsup. simpl.
  destruct (sums_to_one v); destruct cls; try done; simpl;
    eexists; (split; [reflexivity |]); try done; intros _; by split.
Qed.

(** X9. A tensor of one or two dimensions without elements, such as
    [torch.tensor([])], has no type: the supremum of no types is
    [bottom], and the assertion that it is a matrix type fails. *)
Theorem _type_of_matrix_empty (v : torch.tensor) :
  numel v <> 1 ->
  (length (torch.shape v) = 1 \/ length (torch.shape v) = 2)%nat ->
  torch.elements v = [] ->
  _type_of_matrix sums_to_one v = Raise (AssertionError "").
Proof.
  intros Hnumel Hdims Hempty. unfold _type_of_matrix.
  rewrite (proj2 (Z.eqb_neq _ _) Hnumel), Hempty.
  destruct (torch.shape v) as [| r [| c [| ? ?]]]; simpl in Hdims; try lia; reflexivity.
Qed.

(** X10. A tensor of more than two dimensions that holds more than
    one element has the type [Tensor], whatever its elements are:
    they are not looked at. *)
Theorem _type_of_matrix_many_dimensions (v : torch.tensor) :
  numel v <> 1 ->
  (2 < length (torch.shape v))%nat ->
  _type_of_matrix sums_to_one v = Ok Tensor.
Proof.
  intros Hnumel Hdims. unfold _type_of_matrix.
  rewrite (proj2 (Z.eqb_neq _ _) Hnumel).
  by rewrite (proj2 (Nat.ltb_lt _ _) Hdims).
Qed.

(** X11. A tensor of at most two dimensions with an element that is
    an infinity or a NaN has no type: [int(v)] raises on that element,
    [OverflowError] or [ValueError]. *)
Theorem _type_of_matrix_not_finite (v : torch.tensor) :
  (length (torch.shape v) <= 2)%nat ->
  Z.of_nat (length (torch.elements v)) = numel v ->
  Exists (fun x => ~ is_finite x) (torch.elements v) ->
  _type_of_matrix sums_to_one v
    = Raise (OverflowError "cannot convert float infinity to integer") \/
  _type_of_matrix sums_to_one v
    = Raise (ValueError "cannot convert float NaN to integer").
Proof.
  intros Hdims Hwf Hex. unfold _type_of_matrix, numel in *.
  destruct (Z.eqb_spec (fold_right Z.mul 1 (torch.shape v)) 1) as [Hone | Hmany].
  - unfold float_of_tensor. rewrite Hone in Hwf.
    destruct (torch.elements v) as [| x [| y xs]]; simpl in Hwf; try lia.
    apply Exists_cons in Hex as [Hx | Hex]; [| by apply Exists_nil in Hex].
    simpl. destruct x as [q | | |]; try (by left); try (by right).
    exfalso. apply Hx. by exists q.
  - destruct (comprehension_not_finite _ Hex) as [E | E]; rewrite E.
    + left. destruct (torch.shape v) as [| r [| c [| ? ?]]]; simpl in Hdims; try lia;
        try reflexivity.
      exfalso. apply Hmany. reflexivity.
    + right. destruct (torch.shape v) as [| r [| c [| ? ?]]]; simpl in Hdims; try lia;
        try reflexivity.
      exfalso. apply Hmany. reflexivity.
Qed.

(** X12. [type_of_value] never answers [bottom] or [Malformed]. *)
Theorem type_of_value_well_formed (v : pyvalue) (t : BMGLatticeType) :
  type_of_value (_type_of_matrix sums_to_one) v = Ok t ->
  t <> bottom /\ t <> Malformed.
Proof.
  assert (Hfloat : forall x u, type_of_float x = Ok u -> u <> bottom /\ u <> Malformed).
  { intros [q | | |] u Hu; try discriminate Hu.
    destruct (type_of_float_finite q) as (u' & Hu' & c & -> & _).
    rewrite Hu in Hu'. injection Hu' as ->. by split. }
  assert (Hint : forall i, type_of_int i <> bottom /\ type_of_int i <> Malformed).
  { intros i. destruct (type_of_int_scalar i) as (c & -> & _). by split. }
  destruct v as [v | b | i | x |]; simpl.
  - unfold _type_of_matrix.
    destruct (numel v =? 1).
    { destruct (float_of_tensor v) as [x | e]; simpl; [apply Hfloat | discriminate]. }
    destruct (2 <? length (torch.shape v))%nat; [by intros [= <-] |].
    destruct (if (length (torch.shape v) =? 1)%nat then _ else _) as [r | e];
      [| discriminate]. simpl.
    destruct (if (length (torch.shape v) =? 1)%nat then _ else _) as [c | e];
      [| discriminate]. simpl.
    destruct (comprehension _ _) as [ts | e]; [| discriminate]. simpl.
    destruct (supremum ts) as [ | | | cls rows columns]; try discriminate.
    destruct (asserted (rows =? 1)); [| discriminate]. simpl.
    destruct (asserted (columns =? 1)); [| discriminate]. simpl.
    case_bool_decide; [by intros [= <-] |].
    destruct (asserted _); [| discriminate]. simpl.
    destruct (sums_to_one v); repeat case_bool_decide; intros [= <-]; by split.
  - intros [= <-]. by destruct b.
  - intros [= <-]. apply Hint.
  - intros Hx. apply (Hfloat x). by rewrite <- (type_of_value_float (_type_of_matrix sums_to_one)).
  - discriminate.
Qed.

(** X13. The type of a Boolean, of an integer and of a finite float is
    a scalar type that meets the upper bound [Real]: such a constant
    can always be used where a real is required. *)
Theorem type_of_value_scalar_below_Real
    (f : torch.tensor -> result BMGLatticeType) (v : pyvalue) :
  (exists b, v = VBool b) \/ (exists i, v = VInt i) \/ (exists q, v = VFloat (Finite q)) ->
  exists c, type_of_value f v = Ok (Matrix c 1 1) /\
    meets_requirement (Matrix c 1 1) (UpperBound Real) = true.
Proof.
  assert (Hscalar : forall t, scalar_type t ->
    exists c, t = Matrix c 1 1 /\ meets_requirement (Matrix c 1 1) (UpperBound Real) = true).
  { intros t (c & -> & Hc). exists c. split; [done |]. by destruct c. }
  intros [[b ->] | [[i ->] | [q ->]]].
  - destruct b; by eexists.
  - destruct (Hscalar _ (type_of_int_scalar i)) as (c & E & Hc).
    exists c. simpl. by rewrite E.
  - rewrite type_of_value_float.
    destruct (type_of_float_finite q) as (t & -> & Ht).
    destruct (Hscalar _ Ht) as (c & -> & Hc). by exists c.
Qed.

End tensor_facts.

Lemma _type_of_matrix_returns_matrix_type_witness :
  let v := {| torch.shape := [2; 2];
              torch.elements := [Finite 1; Finite 0; Finite 0; Finite 1] |} in
  exists cls,
    bt._type_of_matrix (fun _ => true) v = Ok (bt.Matrix cls 2 2) /\
    ((fun _ : torch.tensor => true) v = false ->
     cls <> bt.SimplexMatrix_class /\ cls <> bt.OneHotMatrix_class).
Proof.
  intros v.
  apply (_type_of_matrix_returns_matrix_type (fun _ => true) v 2 2).
  - discriminate.
  - by right.
  - discriminate.
  - repeat constructor; by eexists.
Defined.

Lemma _type_of_matrix_empty_witness :
  bt._type_of_matrix (fun _ => true) {| torch.shape := [0]; torch.elements := [] |}
    = Raise (AssertionError "").
Proof.
  apply (_type_of_matrix_empty (fun _ => true)
           {| torch.shape := [0]; torch.elements := [] |}).
  - discriminate.
  - by left.
  - reflexivity.
Defined.

Lemma _type_of_matrix_many_dimensions_witness :
  bt._type_of_matrix (fun _ => false)
    {| torch.shape := [1; 2; 1]; torch.elements := [NaN; PlusInf] |} = Ok bt.Tensor.
Proof.
  apply (_type_of_matrix_many_dimensions (fun _ => false)
           {| torch.shape := [1; 2; 1]; torch.elements := [NaN; PlusInf] |}).
  - discriminate.
  - simpl. lia.
Defined.

Lemma _type_of_matrix_not_finite_witness :
  let v := {| torch.shape := [2]; torch.elements := [Finite 1; MinusInf] |} in
  bt._type_of_matrix (fun _ => false) v
    = Raise (OverflowError "cannot convert float infinity to integer") \/
  bt._type_of_matrix (fun _ => false) v
    = Raise (ValueError "cannot convert float NaN to integer").
Proof.
  intros v. apply (_type_of_matrix_not_finite (fun _ => false) v).
  - simpl. lia.
  - reflexivity.
  - apply Exists_cons_tl, Exists_cons_hd. intros [q Hq]. discriminate Hq.
Defined.

Lemma type_of_value_well_formed_witness :
  bt.Natural <> bt.bottom /\ bt.Natural <> bt.Malformed.
Proof.
  apply (type_of_value_well_formed (fun _ => false) (bt.VInt 7) bt.Natural).
  reflexivity.
Defined.

Lemma type_of_value_scalar_below_Real_witness :
  exists c, bt.type_of_value (bt._type_of_matrix (fun _ => false))
              (bt.VFloat (Finite (-5 # 2))) = Ok (bt.Matrix c 1 1) /\
    bt.meets_requirement (bt.Matrix c 1 1) (bt.UpperBound bt.Real) = true.
Proof.
  apply (type_of_value_scalar_below_Real (bt._type_of_matrix (fun _ => false))).
  right. right. by eexists.
Defined.

(** ** What the fixer does to the graph and to the report *)

Section fixer_effects.
Import fixer error_report.
Context `{bn.NodeProperties}.
#[local] Arguments store !_ /.

(** What a call that meets a requirement for the edge [label] of
    [consumer] does to the fixer, and returns. *)
Record call_effect (consumer : Node) (label : string)
    (self : RequirementsFixer) (p : Node) (self' : RequirementsFixer) : Prop := {
  effect_store : exists ext, store self' = store self ++ ext;
  effect_errors :
    errors self' = errors self \/
    exists v, errors self' = errors self ++ [v] /\
      error_report.consumer v = consumer /\ error_report.edge v = label;
  effect_result : (p < length (store self'))%nat
}.

Lemma call_effect_same consumer label self p :
  (p < length (store self))%nat -> call_effect consumer label self p self.
Proof. intros Hp. split; [exists []; by rewrite app_nil_r | by left | exact Hp]. Qed.

Lemma call_effect_error consumer label self p v :
  (p < length (store self))%nat ->
  error_report.consumer v = consumer -> error_report.edge v = label ->
  call_effect consumer label self p {| errors := errors self ++ [v]; bmg := bmg self |}.
Proof.
  intros Hp Hc Hl. split; simpl.
  - exists []. by rewrite app_nil_r.
  - right. by exists v.
  - exact Hp.
Qed.

(** Nodes are added before the call. *)
Lemma call_effect_after consumer label self self1 p self' :
  appended self self1 -> call_effect consumer label self1 p self' ->
  call_effect consumer label self p self'.
Proof.
  intros [E1 [ext1 S1]] [[ext S] Herr Hp]. split.
  - exists (ext1 ++ ext). unfold store in *. by rewrite S, S1, app_assoc.
  - by rewrite <- E1.
  - exact Hp.
Qed.

(** Nodes are added after the call, and one of the nodes of the graph
    is returned. *)
Lemma call_effect_then consumer label self q self1 p self2 o :
  call_effect consumer label self q self1 -> appended self1 self2 ->
  store self2 !! p = Some o ->
  call_effect consumer label self p self2.
Proof.
  intros [[ext S] Herr _] [E2 [ext2 S2]] Hp. split.
  - exists (ext ++ ext2). unfold store in *. by rewrite S2, S, app_assoc.
  - by rewrite E2.
  - by apply lookup_lt_Some in Hp.
Qed.

(** Chains the steps that add nodes. *)
Ltac appended :=
  repeat first [ assumption | apply appended_refl | eapply appended_trans; [eassumption |] ].

Section callbacks.
Variable meet : Node -> bt.Requirement -> Node -> string -> M Node.
Hypothesis Hmeet : forall node req consumer label self p self',
  meet node req consumer label self = Done p self' ->
  call_effect consumer label self p self'.

Lemma _meet_constant_requirement_effect node req consumer label self p self' :
  (node < length (store self))%nat ->
  _meet_constant_requirement node req consumer label self = Done p self' ->
  call_effect consumer label self p self'.
Proof.
  intros Hnode Hrun. unfold _meet_constant_requirement in Hrun.
  apply bind_Done in Hrun as (m & self1 & Hm & Hrun). run_prim Hm.
  destruct (bt.meets_requirement _ req).
  { run_prim Hrun. by apply call_effect_same. }
  apply bind_Done in Hrun as (it & self1 & Hit & Hrun). run_prim Hit.
  destruct (type_meets_requirement _ _).
  - apply bind_Done in Hrun as (result & self1 & Hres & Hrun).
    destruct (must_be_matrix req); run_all Hres; run_all Hrun;
      eapply call_effect_then;
      [by apply call_effect_same | eassumption | eassumption
      |by apply call_effect_same | eassumption | eassumption].
  - run_all Hrun. by apply call_effect_error.
Qed.

Lemma _convert_malformed_multiplication_effect node t consumer label self p self' :
  _convert_malformed_multiplication meet node t consumer label self = Done p self' ->
  call_effect consumer label self p self'.
Proof.
  intros Hrun. unfold _convert_malformed_multiplication in Hrun. run_all Hrun.
  apply Hmeet in Hrun.
  match goal with
  | Hif : (if ?b then _ else _) self = Done _ _ |- _ => destruct b; run_all Hif
  end.
  all: eapply call_effect_after; [| exact Hrun]; appended.
Qed.

Lemma _convert_malformed_power_effect node t consumer label self p self' :
  _convert_malformed_power meet node t consumer label self = Done p self' ->
  call_effect consumer label self p self'.
Proof.
  intros Hrun. unfold _convert_malformed_power in Hrun. run_all Hrun.
  apply Hmeet in Hrun.
  eapply call_effect_after; [| exact Hrun]; appended.
Qed.

Lemma _convert_node_effect node t consumer label self p self' :
  _convert_node meet node t consumer label self = Done p self' ->
  call_effect consumer label self p self'.
Proof.
  intros Hrun. unfold _convert_node in Hrun. run_all Hrun.
  match goal with
  | Hc : store self !! node = Some _ |- _ => pose proof (lookup_lt_Some _ _ _ Hc) as Hnode
  end.
  match type of Hrun with
  | (if ?b then _ else _) _ = _ =>
      destruct b; [by apply _convert_malformed_multiplication_effect in Hrun |]
  end.
  run_all Hrun.
  match type of Hrun with
  | (if ?b then _ else _) _ = _ =>
      destruct b; [by apply _convert_malformed_power_effect in Hrun |]
  end.
  destruct (py_eq _ _); [discriminate Hrun |].
  destruct (bool_decide (t = bt.Real)).
  { run_all Hrun.
    eapply call_effect_then; [by apply call_effect_same | eassumption | eassumption]. }
  destruct (bool_decide (t = bt.PositiveReal)).
  { run_all Hrun.
    eapply call_effect_then; [by apply call_effect_same | eassumption | eassumption]. }
  run_all Hrun.
  eapply call_effect_then; [by apply call_effect_same | | eassumption]. appended.
Qed.

Lemma _meet_operator_requirement_effect node req consumer label self p self' :
  (node < length (store self))%nat ->
  _meet_operator_requirement meet node req consumer label self = Done p self' ->
  call_effect consumer label self p self'.
Proof.
  intros Hnode Hrun. unfold _meet_operator_requirement in Hrun.
  apply bind_Done in Hrun as (m & self1 & Hm & Hrun). run_prim Hm.
  destruct (bt.meets_requirement _ req).
  { run_prim Hrun. by apply call_effect_same. }
  apply bind_Done in Hrun as (it & self1 & Hit & Hrun). run_prim Hit.
  destruct (negb _).
  - destruct (_can_force_to_prob _ _).
    + apply bind_Done in Hrun as (operand & self1 & Hop & Hrun).
      apply Hmeet in Hop. run_all Hrun.
      eapply call_effect_then; [exact Hop | eassumption | eassumption].
    + run_all Hrun. by apply call_effect_error.
  - apply bind_Done in Hrun as (result & self1 & Hconv & Hrun).
    assert (Heff : call_effect consumer label self result self1).
    { destruct req; by apply _convert_node_effect in Hconv. }
    by run_all Hrun.
Qed.

End callbacks.

Lemma meet_requirement_effect depth node req consumer label self p self' :
  meet_requirement depth node req consumer label self = Done p self' ->
  call_effect consumer label self p self'.
Proof.
  revert node req consumer label self p self'.
  induction depth as [| depth IH]; intros node req consumer label self p self' Hrun;
    [discriminate Hrun |].
  simpl in Hrun.
  apply bind_Done in Hrun as (c & self1 & Hc & Hrun). run_prim Hc.
  pose proof (lookup_lt_Some _ _ _ Ho) as Hnode.
  destruct (bool_decide _); [discriminate Hrun |].
  destruct (bool_decide _); [discriminate Hrun |].
  destruct (bn.is_ConstantNode _); [by apply _meet_constant_requirement_effect in Hrun |].
  destruct (bn.is_DistributionNode _).
  { unfold _meet_distribution_requirement in Hrun. run_all Hrun.
    by apply call_effect_same. }
  destruct (bool_decide _).
  { unfold _meet_map_requirement in Hrun. run_all Hrun. by apply call_effect_same. }
  destruct (bn.is_OperatorNode _); [| discriminate Hrun].
  by apply (_meet_operator_requirement_effect (meet_requirement depth) IH) in Hrun.
Qed.


(** What [fix_problems] keeps of the graph that it is given, [T]
    being the nodes that it traverses: every object stays where it is
    with its class and its number of inputs, and an object outside [T]
    is not changed at all; the report keeps its entries. *)
Definition rewires (T : list Node) (self self' : RequirementsFixer) : Prop :=
  (forall n o, store self !! n = Some o ->
     exists o', store self' !! n = Some o' /\
       bn.cls o' = bn.cls o /\
       length (bn.inputs o') = length (bn.inputs o) /\
       (n ∉ T -> o' = o)) /\
  (exists more, errors self' = errors self ++ more).

Lemma rewires_refl T self : rewires T self self.
Proof.
  split; [| exists []; by rewrite app_nil_r].
  intros n o Ho. exists o. by repeat split.
Qed.

Lemma rewires_trans T self0 self1 self2 :
  rewires T self0 self1 -> rewires T self1 self2 -> rewires T self0 self2.
Proof.
  intros [Hn1 [more1 He1]] [Hn2 [more2 He2]]. split.
  - intros n o Ho. destruct (Hn1 n o Ho) as (o1 & Ho1 & Hc1 & Hl1 & Hout1).
    destruct (Hn2 n o1 Ho1) as (o2 & Ho2 & Hc2 & Hl2 & Hout2).
    exists o2. repeat split; try congruence.
    intros Hout. rewrite Hout2, Hout1; done.
  - exists (more1 ++ more2). by rewrite He2, He1, app_assoc.
Qed.

Lemma for_each_rewires {A} T (xs : list A) (body : A -> M unit) :
  (forall x self u self', x ∈ xs -> body x self = Done u self' -> rewires T self self') ->
  forall self u self', for_each xs body self = Done u self' -> rewires T self self'.
Proof.
  induction xs as [| x xs IH]; intros Hbody self u self' Hrun.
  - simpl in Hrun. apply ret_Done in Hrun as [_ ->]. apply rewires_refl.
  - apply for_each_cons_Done in Hrun as (self1 & H1 & H2).
    apply rewires_trans with self1.
    + apply (Hbody x self tt self1); [by left | done].
    + apply IH with u; [| done]. intros y ? ? ? Hy. apply Hbody. by right.
Qed.

Lemma fix_edge_rewires T depth node reqs labels i self u self' :
  node ∈ T ->
  fix_edge depth node reqs labels i self = Done u self' -> rewires T self self'.
Proof.
  intros HT Hrun. unfold fix_edge in Hrun. run_all Hrun.
  match goal with
  | Hmeet : meet_requirement _ _ _ _ _ self = Done ?new ?self1 |- _ =>
      apply meet_requirement_effect in Hmeet as [[ext Hext] Herr _];
      rename self1 into self1'
  end.
  apply set_input_Done in Hrun as ->. split; simpl.
  - intros n o' Hn.
    assert (Hn1 : store self1' !! n = Some o').
    { rewrite Hext. by apply lookup_app_l_Some. }
    unfold bmg.set_input. simpl in Hn1. fold (store self1').
    destruct (store self1' !! node) as [on |] eqn:Enode; simpl; [| by exists o'].
    destruct (decide (n = node)) as [-> | Hne].
    + rewrite list_lookup_insert_eq by (by apply lookup_lt_Some in Enode).
      eexists. split; [done |]. simpl. rewrite length_insert.
      assert (on = o') as -> by congruence. by repeat split.
    + rewrite list_lookup_insert_ne by done. by exists o'.
  - destruct Herr as [-> | (v & -> & _)]; [exists []; by rewrite app_nil_r | by exists [v]].
Qed.

Lemma fix_nodes_rewires depth T self u self' :
  fix_nodes depth T self = Done u self' -> rewires T self self'.
Proof.
  apply for_each_rewires. intros node self1 u1 self2 HT Hrun.
  unfold fix_node in Hrun. run_all Hrun.
  revert Hrun. apply for_each_rewires. intros i self3 u3 self4 _.
  by apply fix_edge_rewires.
Qed.

(** X16. [fix_problems] removes no node and changes no class: after it,
    every node of the graph is where it was, with its class and its
    number of inputs; a node that is not traversed keeps its inputs
    as well; and the report has kept the entries that it had. *)
Theorem fix_problems_keeps_nodes (depth : nat) (self self' : RequirementsFixer)
    (n : Node) (o : bn.BMGNode) :
  fix_problems depth self = Done tt self' ->
  store self !! n = Some o ->
  (exists o', store self' !! n = Some o' /\
     bn.cls o' = bn.cls o /\
     length (bn.inputs o') = length (bn.inputs o) /\
     (n ∉ bn._traverse_from_roots (store self) -> o' = o)) /\
  (exists more, errors self' = errors self ++ more).
Proof.
  intros Hrun Ho. unfold fix_problems in Hrun. run_all Hrun.
  apply fix_nodes_rewires in Hrun as [Hnodes Herrors].
  split; [by apply Hnodes | done].
Qed.


Lemma meet_requirement_in_order depth p req consumer label self :
  edge_in_order (store self) consumer p req ->
  meet_requirement (S depth) p req consumer label self = Done p self.
Proof.
  intros (op & Hp & Hcase). simpl.
  step (class_of_Some p self op Hp).
  destruct Hcase as [[Hcls (gt & Hgt & Hmeets)]
                    | [(Hcls & (oc & Hc & Hsample) & (it & Hit & ->))
                      | (Hcls & (oc & Hc & Hindex) & (it & Hit & ->))]].
  - assert (Hdone : forall m : M Node,
      bind (node_meets_requirement p req) (fun meets => if meets then ret p else m) self
      = Done p self).
    { intros m. step (node_meets_requirement_Ok p req self gt Hgt). by rewrite Hmeets. }
    destruct Hcls as [Hcls | Hcls]; destruct (bn.cls op); try discriminate Hcls; simpl;
      apply Hdone.
  - destruct (bn.cls op); try discriminate Hcls. simpl.
    unfold _meet_distribution_requirement.
    step (class_of_Some consumer self oc Hc).
    rewrite bind_assert by (by apply bool_decide_eq_true_2).
    step (inf_type_Ok p self it Hit).
    by rewrite bind_assert by (by apply bool_decide_eq_true_2).
  - rewrite Hcls. simpl.
    unfold _meet_map_requirement.
    step (class_of_Some consumer self oc Hc).
    rewrite bind_assert by (by apply bool_decide_eq_true_2).
    step (inf_type_Ok p self it Hit).
    by rewrite bind_assert by (by apply bool_decide_eq_true_2).
Qed.

Lemma set_input_same node i p self o :
  store self !! node = Some o -> bn.inputs o !! i = Some p ->
  set_input node i p self = Done tt self.
Proof.
  intros Ho Hp. unfold set_input, bmg.set_input. unfold store in Ho. rewrite Ho.
  rewrite (list_insert_id (bn.inputs o) i p Hp).
  replace {| bn.cls := bn.cls o; bn.inputs := bn.inputs o |} with o by (by destruct o).
  rewrite (list_insert_id _ node o Ho).
  by destruct self as [e [ns]].
Qed.

Lemma for_each_same {A} (xs : list A) (body : A -> M unit) self :
  (forall x, x ∈ xs -> body x self = Done tt self) ->
  for_each xs body self = Done tt self.
Proof.
  induction xs as [| x xs IH]; intros Hbody; [done |].
  simpl. unfold bind. rewrite Hbody by (by left).
  apply IH. intros y Hy. apply Hbody. by right.
Qed.

(** X17. On a graph in which no edge of a traversed node needs a fix,
    [fix_problems] returns and changes nothing: it leaves the same
    graph and the same report. *)
Theorem fix_problems_in_order (depth : nat) (self : RequirementsFixer) :
  (forall n, n ∈ bn._traverse_from_roots (store self) -> node_in_order (store self) n) ->
  fix_problems (S depth) self = Done tt self.
Proof.
  intros Horder. unfold fix_problems, fix_nodes, bind at 1, read at 1.
  apply for_each_same. intros n Hn. destruct (Horder n Hn) as (reqs & Hreqs & Hedges).
  unfold fix_node. step (requirements_Ok n self reqs Hreqs).
  unfold bind at 1, read at 1.
  apply for_each_same. intros i Hi.
  apply elem_of_seq in Hi as [_ Hi]. simpl in Hi.
  destruct (lookup_lt_is_Some_2 _ _ Hi) as [req Hreq].
  destruct (Hedges i req Hreq) as (o & p & label & Ho & Hp & Hlabel & Hedge).
  assert (Hitem : forall A (l : list A) x, l !! i = Some x -> item l i self = Done x self).
  { intros A l x Hx. unfold item. by rewrite Hx. }
  unfold fix_edge.
  step (input_Some n i self o p Ho Hp).
  step (Hitem _ _ _ Hreq).
  step (Hitem _ _ _ Hlabel).
  step (meet_requirement_in_order depth p req n label self Hedge).
  by apply set_input_same with o.
Qed.


(** *** Operators *)

(** An operator is handed to [_meet_operator_requirement]. *)
Lemma meet_requirement_operator depth node req consumer label self o :
  store self !! node = Some o -> bn.is_OperatorNode (bn.cls o) = true ->
  meet_requirement (S depth) node req consumer label self
  = _meet_operator_requirement (meet_requirement depth) node req consumer label self.
Proof.
  intros Ho Hop. simpl. unfold bind at 1, class_of. rewrite Ho.
  by destruct (bn.cls o).
Qed.

Lemma meets_exact_false (t u : bt.BMGLatticeType) :
  t <> u -> bt.meets_requirement t (bt.Exact u) = false.
Proof.
  intros Hne. unfold bt.meets_requirement.
  destruct (bool_decide (t = bt.Malformed)); [done |].
  by apply bool_decide_eq_false_2.
Qed.

Lemma meets_upper_bound_supremum (t u : bt.BMGLatticeType) :
  bt.meets_requirement t (bt.UpperBound u) = true -> bt.supremum [t; u] = u.
Proof. rewrite supremum_pair. by intros [_ ?]%meets_upper_bound_eq. Qed.

(** The start of [_convert_node] on an operator that is no malformed
    multiplication and no malformed power: the two preconditions
    hold, and the conversion is by the type that is required. *)
Lemma _convert_node_by_type (meet : Node -> bt.Requirement -> Node -> string -> M Node)
    (node : Node) (t : bt.BMGLatticeType) (consumer : Node) (label : string)
    (self : RequirementsFixer) (o : bn.BMGNode) (gt it : bt.BMGLatticeType) :
  let s := store self in
  s !! node = Some o ->
  bn.graph_type s node = Ok gt -> gt <> t ->
  bn.inf_type s node = Ok it ->
  bt.meets_requirement it (bt.UpperBound t) = true ->
  ~ ((bn.cls o = bn.MultiplicationNode \/ bn.cls o = bn.PowerNode) /\ gt = bt.Malformed) ->
  _convert_node meet node t consumer label self
  = (if bool_decide (t = bt.Real) then builder (bmg.add_to_real node)
     else if bool_decide (t = bt.PositiveReal) then builder (bmg.add_to_positive_real node)
     else
       bind (assert (bool_decide (t = bt.Natural) || bool_decide (t = bt.Probability)))
         (fun _ => bind (inf_type node)
           (fun it => bind (assert (bool_decide (bt.supremum [it; bt.Boolean] = bt.Boolean)))
             (fun _ => bind (builder (bmg.add_constant_of_type (bt.VFloat (Finite 0)) t))
               (fun zero => bind (builder (bmg.add_constant_of_type (bt.VFloat (Finite 1)) t))
                 (fun one => builder (bmg.add_if_then_else node one zero))))))) self.
Proof.
  intros s Ho Hgt Hne Hit Hinf Hwell. unfold _convert_node.
  step (graph_type_Ok node self gt Hgt).
  rewrite bind_assert by (by rewrite bool_decide_eq_false_2).
  step (inf_type_Ok node self it Hit).
  rewrite bind_assert
    by (apply bool_decide_eq_true_2; by apply meets_upper_bound_supremum).
  step (class_of_Some node self o Ho).
  rewrite (bind_step _ _ _ _ _ (is_malformed_false _ bn.MultiplicationNode node self gt Hgt
             ltac:(intros [? ?]; apply Hwell; split; [by left | done]))).
  cbv beta iota.
  rewrite (bind_step _ _ _ _ _ (is_malformed_false _ bn.PowerNode node self gt Hgt
             ltac:(intros [? ?]; apply Hwell; split; [by right | done]))).
  cbv beta iota.
  by rewrite requirement_never_eq_Tensor.
Qed.



(** X22. An operator that does not meet a requirement, whose inf type
    does not meet it as an upper bound, and that cannot be clamped to
    a probability, is reported and left in place: the violation
    naming the operator, the requirement, the consumer and the edge
    is the one entry added to the report, the graph is not changed,
    and the operator is returned. *)
Theorem meet_requirement_reports_operator (depth : nat) (node : Node)
    (req : bt.Requirement) (consumer : Node) (label : string)
    (self : RequirementsFixer) (o : bn.BMGNode) (gt it : bt.BMGLatticeType) :
  let s := store self in
  s !! node = Some o ->
  bn.is_OperatorNode (bn.cls o) = true ->
  bn.graph_type s node = Ok gt ->
  bt.meets_requirement gt req = false ->
  bn.inf_type s node = Ok it ->
  bt.meets_requirement it (bt.upper_bound req) = false ->
  _can_force_to_prob it req = false ->
  meet_requirement (S depth) node req consumer label self
  = Done node
      {| errors := errors self ++ [{| error_report.node := node; requirement := req;
                                      error_report.consumer := consumer; edge := label |}];
         bmg := bmg self |}.
Proof.
  intros s Ho Hop Hgt Hmeets Hit Hinf Hforce.
  rewrite (meet_requirement_operator _ node _ consumer label self o Ho Hop).
  unfold _meet_operator_requirement.
  step (node_meets_requirement_Ok node req self gt Hgt). rewrite Hmeets.
  step (inf_type_Ok node self it Hit).
  unfold type_meets_requirement. rewrite Hinf, Hforce. reflexivity.
Qed.


(** X14. A call of [meet_requirement] only appends to the graph: the
    objects that were there are unchanged, and the node returned is
    a node of the graph. *)
Theorem meet_requirement_appends (depth : nat) (node : Node) (req : bt.Requirement)
    (consumer : Node) (label : string) (self : RequirementsFixer)
    (p : Node) (self' : RequirementsFixer) :
  meet_requirement depth node req consumer label self = Done p self' ->
  (exists ext, store self' = store self ++ ext) /\
  (forall n o, store self !! n = Some o -> store self' !! n = Some o) /\
  (exists o, store self' !! p = Some o).
Proof.
  intros [[ext Hstore] _ Hresult]%meet_requirement_effect.
  split; [by exists ext |]. split.
  - intros n o Hn. rewrite Hstore. by apply lookup_app_l_Some.
  - by apply lookup_lt_is_Some_2.
Qed.

(** X15. A call of [meet_requirement] adds at most one entry to the
    report, at its end, and that violation names the consumer and
    the edge of the call. *)
Theorem meet_requirement_one_violation (depth : nat) (node : Node)
    (req : bt.Requirement) (consumer : Node) (label : string)
    (self : RequirementsFixer) (p : Node) (self' : RequirementsFixer) :
  meet_requirement depth node req consumer label self = Done p self' ->
  errors self' = errors self \/
  exists v, errors self' = errors self ++ [v] /\
    error_report.consumer v = consumer /\ error_report.edge v = label.
Proof. by intros [_ Herrors _]%meet_requirement_effect. Qed.

(** X18. The [ValueError] for an unsupported Tensor requirement cannot
    come out of [fix_problems]: whatever the graph, a [ValueError]
    that [fix_problems] raises was raised by the read of a
    [graph_type], an [inf_type] or the [requirements] of a node, as
    [type_of_value] raises it for the inf type of a constant. *)
Theorem fix_problems_ValueError_of_property (depth : nat) (self : RequirementsFixer)
    (msg : string) :
  fix_problems depth self = Raised (ValueError msg) ->
  raised_by_property (ValueError msg).
Proof.
  revert self msg. change (ValueError_of_property (fix_problems depth)).
  unfold fix_problems, fix_nodes.
  apply ValueError_bind; [apply ValueError_read |]. intros nodes.
  apply ValueError_for_each. intros node. unfold fix_node.
  apply ValueError_bind; [apply ValueError_requirements |]. intros requirements.
  apply ValueError_bind; [apply ValueError_read |]. intros edges.
  apply ValueError_for_each. intros i. unfold fix_edge.
  apply ValueError_bind; [apply ValueError_input |]. intros producer.
  apply ValueError_bind; [apply ValueError_item |]. intros requirement.
  apply ValueError_bind; [apply ValueError_item |]. intros label.
  apply ValueError_bind; [apply meet_requirement_ValueError |]. intros new.
  by intros self msg.
Qed.


Section malformed_power.
Hypothesis Hconstants : constants_typed.
Hypothesis Hif_then_else : if_then_else_typed.
Hypothesis Hstable : graph_type_stable.


End malformed_power.

End fixer_effects.

(** ** The node map of the builder *)

Section node_map_facts.
Import bmgb.

(** X23. In a builder that [add_node] filled, the index of a node is
    its position in the insertion order of the map, and no node
    object is in the map twice: the indices are all different and
    run from 0 to [len(nodes) - 1]. *)
Theorem built_indices_are_positions (self : BMGraphBuilder) :
  built self ->
  (forall k n i, nodes self !! k = Some (n, i) -> i = k) /\
  NoDup (map (fun kv => node_id kv.1) (nodes self)).
Proof.
  intros [Hpos Hkeys _]%built_invariant. split; [exact Hpos | exact Hkeys].
Qed.

(** X24. [add_node] only appends to the map: every entry keeps its
    place and its index, the new entries are for the node and for
    nodes below it, and the node is in the map afterwards. *)
Theorem add_node_appends (self : BMGraphBuilder) (node : BMGNode) :
  built self -> acyclic node ->
  (exists ext, nodes (add_node self node) = nodes self ++ ext /\
     forall n i, (n, i) ∈ ext ->
       node_id n = node_id node \/ node_id n ∈ descendant_ids node) /\
  dict_contains (nodes (add_node self node)) node = true.
Proof.
  intros Hbuilt%built_invariant Hacyclic.
  destruct (add_node_dict_post node (nodes self) Hbuilt Hacyclic)
    as (_ & (ext & Hext & Hnew) & Hin).
  split; [| exact Hin]. exists ext. split; [exact Hext |].
  intros n i Hn. apply elem_of_cons. apply Hnew.
  apply list_elem_of_fmap. by exists (n, i).
Qed.

End node_map_facts.

(** ** Emitting the graph *)

Section to_bmg_facts.
Import bmgb.
Variable returned : graph_call -> Graph -> result Z.

(** Every key of [pre] is a key of [d]. *)
Definition holds (d : IntDict) (pre : list BMGNode) : Prop :=
  forall c, node_id c ∈ map node_id pre -> exists v, int_dict_get d c = Returns v.

(** The children of every node of [rest] are among the nodes before
    it, [pre] included. *)
Definition children_first (pre rest : list BMGNode) : Prop :=
  forall k node c, rest !! k = Some node -> c ∈ children node ->
    node_id c ∈ map node_id (pre ++ take k rest).

Lemma int_dict_get_set (d : IntDict) (node c : BMGNode) (v : Z) :
  (exists w, int_dict_get d c = Returns w) \/ same_object node c = true ->
  exists w, int_dict_get (int_dict_set d node v) c = Returns w.
Proof.
  induction d as [| [k w] d IH]; simpl.
  - intros [[w Hw] | Hc]; [discriminate |]. rewrite Hc. eauto.
  - intros Hc. destruct (same_object k node) eqn:Ek; simpl.
    + destruct (same_object k c) eqn:Ekc; [eauto |].
      destruct Hc as [Hc | Hc]; [done |].
      unfold same_object in *. apply Nat.eqb_eq in Ek, Hc.
      apply Nat.eqb_neq in Ekc. congruence.
    + destruct (same_object k c); [eauto |]. by apply IH.
Qed.

Lemma holds_set (d : IntDict) (pre : list BMGNode) (node : BMGNode) (v : Z) :
  holds d pre -> holds (int_dict_set d node v) (pre ++ [node]).
Proof.
  intros Hd c Hc. apply int_dict_get_set.
  rewrite map_app, elem_of_app in Hc. destruct Hc as [Hc | Hc]; [left; by apply Hd |].
  right. apply list_elem_of_singleton in Hc. unfold same_object. by apply Nat.eqb_eq.
Qed.

Lemma children_first_step (pre rest : list BMGNode) (node : BMGNode) :
  children_first pre (node :: rest) ->
  (forall c, c ∈ children node -> node_id c ∈ map node_id pre) /\
  children_first (pre ++ [node]) rest.
Proof.
  intros Hfirst. split.
  - intros c Hc. specialize (Hfirst 0%nat node c eq_refl Hc).
    by rewrite app_nil_r in Hfirst.
  - intros k n c Hn Hc. specialize (Hfirst (S k) n c Hn Hc).
    by rewrite <- app_assoc.
Qed.

(** The key of the first entry of a dictionary that answers a lookup. *)
Lemma dict_get_lookup (d : Dict) (c : BMGNode) (j : nat) :
  dict_get d c = Some j ->
  exists pos n, d !! pos = Some (n, j) /\ node_id n = node_id c.
Proof.
  induction d as [| [k w] d IH]; simpl; [discriminate |].
  destruct (same_object k c) eqn:E.
  - intros [= ->]. exists 0%nat, k. split; [done |]. by apply Nat.eqb_eq.
  - intros Hj. destruct (IH Hj) as (pos & n & Hpos & Hn). by exists (S pos), n.
Qed.

Lemma invariant_children_first (d : Dict) :
  invariant d -> children_first [] (map fst d).
Proof.
  intros [Hpos _ Hch] k node c Hk Hc. simpl.
  apply list_lookup_fmap_Some in Hk as ([n i] & -> & Ek). simpl in Hc.
  pose proof (Hpos k n i Ek) as ->.
  destruct (Hch n k c (list_elem_of_lookup_2 _ _ _ Ek) Hc) as (j & Hj & Hlt).
  destruct (dict_get_lookup d c j Hj) as (pos & m & Hm & Hid).
  pose proof (Hpos pos m j Hm) as ->.
  rewrite <- Hid. apply list_elem_of_fmap. exists m. split; [done |].
  apply list_elem_of_lookup. exists pos.
  rewrite lookup_take_lt by done.
  apply list_lookup_fmap_Some. by exists (m, pos).
Qed.

Lemma _add_to_graph_no_KeyError (node : BMGNode) (g : Graph) (d : IntDict) (key : BMGNode) :
  (forall c, c ∈ children node -> exists v, int_dict_get d c = Returns v) ->
  _add_to_graph returned node g d <> RaisesKeyError key.
Proof.
  intros Hfound. unfold _add_to_graph, child, call.
  destruct node as [i c cs]. simpl in *.
  assert (H0 : forall x, cs !! 0%nat = Some x -> exists v, int_dict_get d x = Returns v).
  { intros x Hx. apply Hfound. by apply list_elem_of_lookup_2 in Hx. }
  assert (H1 : forall x, cs !! 1%nat = Some x -> exists v, int_dict_get d x = Returns v).
  { intros x Hx. apply Hfound. by apply list_elem_of_lookup_2 in Hx. }
  destruct c; try done; simpl;
    repeat match goal with
      | |- context [cs !! ?i] => destruct (cs !! i) as [? |] eqn:?; simpl; try done
      | |- context [instance ?b] => destruct b; simpl; try done
      | |- context [int_dict_get d ?x] =>
          let Hx := fresh in
          assert (Hx : exists v, int_dict_get d x = Returns v)
            by (first [apply H0; done | apply H1; done]);
          destruct Hx as [? ->]; simpl; try done
      | |- context [returned ?c ?g] => destruct (returned c g); simpl; try done
      end.
Qed.

(** A node that is added to the graph has made one call on it. *)
Lemma _add_to_graph_length (node : BMGNode) (g : Graph) (d : IntDict) (r : Z * Graph) :
  _add_to_graph returned node g d = Returns r -> length r.2 = S (length g).
Proof.
  assert (Hlen : forall x : graph_call, length (g ++ [x]) = S (length g)).
  { intros x. rewrite length_app. simpl. lia. }
  unfold _add_to_graph, child, call.
  destruct node as [i c cs]. simpl.
  destruct c; destruct cs as [| x [| y cs]]; simpl; try done;
    repeat match goal with
      | |- context [instance ?b] => destruct b; simpl; try done
      | |- context [int_dict_get d ?x] => destruct (int_dict_get d x); simpl; try done
      | |- context [returned ?c ?g] => destruct (returned c g); simpl; try done
      end;
    intros [= <-]; apply Hlen.
Qed.

Lemma _add_to_graph_returns (node : BMGNode) (g : Graph) (d : IntDict) :
  (forall c g, exists i, returned c g = Ok i) ->
  well_classed node = true ->
  (forall c, c ∈ children node -> exists v, int_dict_get d c = Returns v) ->
  exists r, _add_to_graph returned node g d = Returns r.
Proof.
  intros Hreturned Hclass Hfound. unfold _add_to_graph, child, well_classed, call in *.
  destruct node as [i c cs]. simpl in *.
  destruct c;
    destruct cs as [| x [| y cs]]; try discriminate Hclass; simpl;
    try (apply andb_true_iff in Hclass as [Hclass1 Hclass2]);
    repeat match goal with
      | Hb : ?b = true |- context [instance ?b] => rewrite Hb; simpl
      | |- context [int_dict_get d ?x] =>
          let Hx := fresh in
          assert (Hx : exists v, int_dict_get d x = Returns v)
            by (apply Hfound; repeat first [by left | right]);
          destruct Hx as [? ->]; simpl
      | |- context [returned ?c ?g] =>
          let Hc := fresh in
          destruct (Hreturned c g) as [? Hc]; rewrite Hc; simpl
      end;
    by eexists.
Qed.

Lemma _add_to_graph_well_classed (node : BMGNode) (g : Graph) (d : IntDict)
    (r : Z * Graph) :
  _add_to_graph returned node g d = Returns r -> well_classed node = true.
Proof.
  unfold _add_to_graph, child, well_classed, call.
  destruct node as [i c cs]. simpl.
  destruct c; try done; destruct cs as [| x [| y cs]]; simpl; try done;
    repeat match goal with
      | |- context [instance ?b] => destruct b; simpl; try done
      | |- context [int_dict_get d ?x] => destruct (int_dict_get d x); simpl; try done
      | |- context [returned ?c ?g] => destruct (returned c g); simpl; try done
      end.
Qed.

Lemma to_bmg_loop_no_KeyError (rest : list BMGNode) :
  forall pre g d key, children_first pre rest -> holds d pre ->
    to_bmg_loop returned rest g d <> RaisesKeyError key.
Proof.
  induction rest as [| node rest IH]; intros pre g d key Hfirst Hd; [done |].
  apply children_first_step in Hfirst as [Hnode Hrest]. simpl.
  destruct (_add_to_graph returned node g d) as [r | e | key'] eqn:E; simpl; [| done |].
  - apply (IH (pre ++ [node])); [done | by apply holds_set].
  - exfalso. apply (_add_to_graph_no_KeyError node g d key'); [| done].
    intros c Hc. by apply Hd, Hnode.
Qed.

Lemma to_bmg_loop_returns (rest : list BMGNode) :
  (forall c g, exists i, returned c g = Ok i) ->
  forall pre g d, children_first pre rest -> holds d pre ->
    Forall (fun node => well_classed node = true) rest ->
    exists g', to_bmg_loop returned rest g d = Returns g'.
Proof.
  intros Hreturned.
  induction rest as [| node rest IH]; intros pre g d Hfirst Hd Hclass.
  { by exists g. }
  apply children_first_step in Hfirst as [Hnode Hrest].
  apply Forall_cons in Hclass as [Hclass1 Hclass].
  destruct (_add_to_graph_returns node g d Hreturned Hclass1) as (r & Hr).
  { intros c Hc. by apply Hd, Hnode. }
  simpl. rewrite Hr. simpl.
  apply (IH (pre ++ [node])); [done | by apply holds_set | done].
Qed.

Lemma to_bmg_loop_length (rest : list BMGNode) :
  forall g d g', to_bmg_loop returned rest g d = Returns g' ->
    length g' = (length g + length rest)%nat.
Proof.
  induction rest as [| node rest IH]; intros g d g' Hrun.
  { injection Hrun as <-. simpl. lia. }
  simpl in Hrun.
  destruct (_add_to_graph returned node g d) as [r | e | key] eqn:E; try discriminate Hrun.
  simpl in Hrun. apply _add_to_graph_length in E. apply IH in Hrun. simpl. lia.
Qed.

Lemma to_bmg_loop_well_classed (rest : list BMGNode) :
  forall g d g', to_bmg_loop returned rest g d = Returns g' ->
    Forall (fun node => well_classed node = true) rest.
Proof.
  induction rest as [| node rest IH]; intros g d g' Hrun; [constructor |].
  simpl in Hrun.
  destruct (_add_to_graph returned node g d) as [r | e | key] eqn:E; try discriminate Hrun.
  simpl in Hrun. constructor; [by apply _add_to_graph_well_classed in E | by eapply IH].
Qed.

(** X25. [to_bmg] never raises [KeyError] on a builder that [add_node]
    filled: when a node is added to the graph, its children are in
    [d] already. *)
Theorem to_bmg_no_KeyError (self : BMGraphBuilder) (key : BMGNode) :
  built self -> to_bmg returned self <> RaisesKeyError key.
Proof.
  intros Hbuilt%built_invariant. unfold to_bmg.
  apply (to_bmg_loop_no_KeyError _ []); [by apply invariant_children_first |].
  intros c Hc. by apply elem_of_nil in Hc.
Qed.

(** X26. The factories take any nodes as operands.  A [to_bmg] that
    returns has found, at every node of the builder, children of the
    classes that the accessors of the node assert (a distribution
    below a sample, a sample and a constant below an observation, an
    operator below a query), and has made one call on the graph for
    every node.  When no call on the graph raises, [to_bmg] returns
    the graph exactly when every node has such children. *)
Theorem to_bmg_returns_iff (self : BMGraphBuilder) :
  built self ->
  ((exists g, to_bmg returned self = Returns g) ->
   forall n i, (n, i) ∈ nodes self -> well_classed n = true) /\
  ((forall c g, exists i, returned c g = Ok i) ->
   ((exists g, to_bmg returned self = Returns g) <->
    (forall n i, (n, i) ∈ nodes self -> well_classed n = true))) /\
  (forall g, to_bmg returned self = Returns g -> length g = length (nodes self)).
Proof.
  intros Hbuilt%built_invariant. unfold to_bmg.
  assert (Hclassed : (exists g,
    to_bmg_loop returned (map fst (nodes self)) [] [] = Returns g) ->
    forall n i, (n, i) ∈ nodes self -> well_classed n = true).
  { intros [g Hg] n i Hn. apply to_bmg_loop_well_classed in Hg.
    rewrite Forall_forall in Hg. apply Hg.
    apply list_elem_of_fmap. by exists (n, i). }
  split; [exact Hclassed |]. split.
  - intros Hreturned. split; [exact Hclassed |]. intros Hclass.
    apply (to_bmg_loop_returns _ Hreturned []);
      [by apply invariant_children_first | |].
    + intros c Hc. by apply elem_of_nil in Hc.
    + apply Forall_forall. intros n Hn.
      apply list_elem_of_fmap in Hn as ([n' i] & -> & Hn). by apply (Hclass n' i).
  - intros g Hg. apply to_bmg_loop_length in Hg. by rewrite Hg, length_map.
Qed.

End to_bmg_facts.

(** ** Drawing the graph *)

Section to_dot_facts.
Import bmgb.
Variable str : bt.pyvalue -> string.

Lemma to_dot_edges_back (d : Dict) (i n : nat) (pairs : list (BMGNode * string)) :
  (i < n)%nat ->
  (forall c l, (c, l) ∈ pairs -> exists j, dict_get d c = Some j /\ (j < i)%nat) ->
  exists calls, to_dot_edges d (dot_name i) pairs = Returns calls /\
    length calls = length pairs /\ Forall (points_back n) calls.
Proof.
  intros Hi. induction pairs as [| [c l] pairs IH]; intros Hfound.
  { exists []. by repeat split. }
  destruct (Hfound c l) as (j & Hj & Hlt); [by left |].
  destruct IH as (calls & Hcalls & Hlen & Hback).
  { intros c' l' Hc'. apply (Hfound c' l'). by right. }
  simpl. rewrite Hj, Hcalls. simpl. eexists. split; [reflexivity |].
  split; [simpl; by rewrite Hlen |].
  constructor; [| done]. exists i, j. repeat split; done.
Qed.

Lemma to_dot_nodes_back (d : Dict) (items : list (BMGNode * nat)) :
  (forall node i, (node, i) ∈ items ->
     (i < length d)%nat /\
     forall c, c ∈ children node -> exists j, dict_get d c = Some j /\ (j < i)%nat) ->
  exists calls, to_dot_nodes str d items = Returns calls /\
    Forall (points_back (length d)) calls /\
    (length items <= length calls)%nat.
Proof.
  induction items as [| [node i] items IH]; intros Hitems.
  { exists []. by repeat split. }
  destruct (Hitems node i) as [Hi Hch]; [by left |].
  destruct (to_dot_edges_back d i (length d)
              (zip (children node) (edges (cls node))) Hi) as (ecalls & He & _ & Heback).
  { intros c l Hc. apply Hch. by apply elem_of_zip_l in Hc. }
  destruct IH as (calls & Hcalls & Hback & Hlen).
  { intros node' i' Hn. apply Hitems. by right. }
  simpl. rewrite He. simpl. rewrite Hcalls. simpl. eexists. split; [reflexivity |].
  split.
  - constructor; [done |]. by apply Forall_app.
  - simpl. rewrite length_app. lia.
Qed.

(** X27. [to_dot] never raises [KeyError] on a builder that [add_node]
    filled, and every edge that it draws goes from a node to a node of
    a smaller index: the drawing has no cycle. *)
Theorem to_dot_edges_point_back (self : BMGraphBuilder) :
  built self ->
  exists calls, to_dot str self = Returns calls /\
    Forall (points_back (length (nodes self))) calls.
Proof.
  intros [Hpos _ Hch]%built_invariant. unfold to_dot.
  destruct (to_dot_nodes_back (nodes self) (nodes self)) as (calls & Hcalls & Hback & _).
  - intros node i Hn. split; [| intros c Hc; by apply (Hch node i c)].
    apply list_elem_of_lookup in Hn as [k Hk].
    pose proof (Hpos k node i Hk) as ->. by apply lookup_lt_Some in Hk.
  - by exists calls.
Qed.

End to_dot_facts.

(** ** Instances *)

Lemma _supremum_commutative_iff_witness :
  bt._supremum bt.Natural bt.Probability = bt._supremum bt.Probability bt.Natural.
Proof. apply (_supremum_commutative_iff bt.Natural bt.Probability). reflexivity. Defined.

Lemma supremum_Malformed_iff_witness :
  bt.supremum [bt.Natural; bt.Malformed; bt.Real] = bt.Malformed.
Proof.
  apply (supremum_Malformed_iff [bt.Natural; bt.Malformed; bt.Real]).
  apply list_elem_of_In. simpl. tauto.
Defined.

Lemma meet_requirement_appends_witness :
  let self := example.fixer_of example.coercion_graph in
  let self' :=
    {| fixer.errors := [];
       fixer.bmg := {| bmg.nodes := example.coercion_graph ++
         [ example.node (bn.ConstantNode (bt.VFloat (Finite 0)) bt.Probability) [];
           example.node (bn.ConstantNode (bt.VFloat (Finite 1)) bt.Probability) [];
           example.node bn.IfThenElseNode [2%nat; 6%nat; 5%nat] ] |} |} in
  fixer.meet_requirement 3 2%nat (bt.Exact bt.Probability) 3%nat "probability" self
    = fixer.Done 7%nat self' /\
  (exists ext, fixer.store self' = fixer.store self ++ ext) /\
  (forall n o, fixer.store self !! n = Some o -> fixer.store self' !! n = Some o) /\
  (exists o, fixer.store self' !! 7%nat = Some o).
Proof.
  intros self self'. split; [reflexivity |].
  apply (meet_requirement_appends 3 2%nat (bt.Exact bt.Probability) 3%nat "probability"
           self 7%nat self').
  reflexivity.
Defined.

Lemma meet_requirement_one_violation_witness :
  let self := example.fixer_of example.graph in
  let v := {| error_report.node := 6%nat;
              error_report.requirement := bt.Exact bt.Probability;
              error_report.consumer := 7%nat;
              error_report.edge := "probability" |} in
  let self' := {| fixer.errors := [v]; fixer.bmg := fixer.bmg self |} in
  fixer.meet_requirement 3 6%nat (bt.Exact bt.Probability) 7%nat "probability" self
    = fixer.Done 6%nat self' /\
  (fixer.errors self' = fixer.errors self \/
   exists v', fixer.errors self' = fixer.errors self ++ [v'] /\
     error_report.consumer v' = 7%nat /\ error_report.edge v' = "probability").
Proof.
  intros self v self'. split; [reflexivity |].
  apply (meet_requirement_one_violation 3 6%nat (bt.Exact bt.Probability) 7%nat
           "probability" self 6%nat self').
  reflexivity.
Defined.

Lemma fix_problems_keeps_nodes_witness :
  let self := example.fixer_of example.graph in
  let self' := example.fixed example.graph in
  let o := example.node (bn.OtherOperatorNode "exp") [0%nat] in
  fixer.fix_problems 3 self = fixer.Done tt self' /\
  fixer.store self' !! 1%nat = Some (example.node (bn.OtherOperatorNode "exp") [8%nat]) /\
  (exists o', fixer.store self' !! 1%nat = Some o' /\
     bn.cls o' = bn.cls o /\
     length (bn.inputs o') = length (bn.inputs o) /\
     (1%nat ∉ bn._traverse_from_roots (fixer.store self) -> o' = o)) /\
  (exists more, fixer.errors self' = fixer.errors self ++ more).
Proof.
  intros self self' o. split; [reflexivity |]. split; [reflexivity |].
  apply (fix_problems_keeps_nodes 3 self self' 1%nat o); reflexivity.
Defined.

Lemma fix_problems_in_order_witness :
  let self := example.fixer_of example.in_order_graph in
  fixer.fix_problems 1 self = fixer.Done tt self.
Proof.
  intros self. apply (fix_problems_in_order 0 self).
  intros n Hn.
  repeat (apply elem_of_cons in Hn as [-> | Hn]); [| | | | by apply elem_of_nil in Hn].
  - exists []. split; [reflexivity |]. intros i req Hreq. discriminate Hreq.
  - exists [bt.Exact bt.Probability]. split; [reflexivity |]. intros i req Hreq.
    destruct i as [| i]; [| discriminate Hreq]. injection Hreq as <-.
    eexists _, 0%nat, _. repeat split; try reflexivity.
    eexists. split; [reflexivity |]. left. split; [by left |].
    exists bt.Probability. by split.
  - exists [bt.Exact bt.Boolean]. split; [reflexivity |]. intros i req Hreq.
    destruct i as [| i]; [| discriminate Hreq]. injection Hreq as <-.
    eexists _, 1%nat, _. repeat split; try reflexivity.
    eexists. split; [reflexivity |]. right. left.
    split; [reflexivity |]. split; [by eexists |].
    exists bt.Boolean. by split.
  - exists []. split; [reflexivity |]. intros i req Hreq. discriminate Hreq.
Defined.

Lemma fix_problems_ValueError_of_property_witness :
  fixer.fix_problems 3 (example.fixer_of example.nan_graph)
    = fixer.Raised (ValueError "cannot convert float NaN to integer") /\
  bn.inf_type example.nan_graph 0%nat
    = Raise (ValueError "cannot convert float NaN to integer") /\
  raised_by_property (ValueError "cannot convert float NaN to integer").
Proof.
  split; [reflexivity |]. split; [reflexivity |].
  apply (fix_problems_ValueError_of_property 3 (example.fixer_of example.nan_graph)).
  reflexivity.
Defined.




Lemma meet_requirement_reports_operator_witness :
  let self := example.fixer_of example.real_operator_graph in
  fixer.meet_requirement 1 0%nat (bt.Exact bt.Boolean) 1%nat "operator" self
  = fixer.Done 0%nat
      {| fixer.errors :=
           [{| error_report.node := 0%nat;
               error_report.requirement := bt.Exact bt.Boolean;
               error_report.consumer := 1%nat;
               error_report.edge := "operator" |}];
         fixer.bmg := fixer.bmg self |}.
Proof.
  intros self.
  apply (meet_requirement_reports_operator 0 0%nat (bt.Exact bt.Boolean) 1%nat "operator"
           self (example.node (bn.OtherOperatorNode "normal_sample") []) bt.Real bt.Real);
    reflexivity.
Defined.

Lemma built_indices_are_positions_witness :
  let self := bmgb.add_node bmgb.BMGraphBuilder_init bmgb.example_query in
  (forall k n i, bmgb.nodes self !! k = Some (n, i) -> i = k) /\
  NoDup (map (fun kv => bmgb.node_id kv.1) (bmgb.nodes self)).
Proof.
  intros self. apply (built_indices_are_positions self).
  constructor; [constructor | apply example_query_acyclic].
Defined.

Lemma add_node_appends_witness :
  let self := bmgb.add_node bmgb.BMGraphBuilder_init bmgb.example_sample in
  let node := bmgb.example_query in
  (exists ext, bmgb.nodes (bmgb.add_node self node) = bmgb.nodes self ++ ext /\
     forall n i, (n, i) ∈ ext ->
       bmgb.node_id n = bmgb.node_id node \/
       bmgb.node_id n ∈ bmgb.descendant_ids node) /\
  bmgb.dict_contains (bmgb.nodes (bmgb.add_node self node)) node = true.
Proof.
  intros self node. apply (add_node_appends self node).
  - constructor; [constructor |]. simpl. rewrite !not_elem_of_cons.
    repeat split; try apply not_elem_of_nil; lia.
  - apply example_query_acyclic.
Defined.

Lemma to_bmg_no_KeyError_witness :
  bmgb.to_bmg (fun _ g => Ok (Z.of_nat (length g)))
    (bmgb.add_node bmgb.BMGraphBuilder_init bmgb.example_query)
  <> bmgb.RaisesKeyError bmgb.example_real.
Proof.
  apply (to_bmg_no_KeyError (fun _ g => Ok (Z.of_nat (length g)))
           (bmgb.add_node bmgb.BMGraphBuilder_init bmgb.example_query)
           bmgb.example_real).
  constructor; [constructor | apply example_query_acyclic].
Defined.

Lemma to_bmg_returns_iff_witness :
  let self := bmgb.add_node bmgb.BMGraphBuilder_init bmgb.example_query in
  let returned := fun (_ : bmgb.graph_call) (g : bmgb.Graph) => Ok (Z.of_nat (length g)) in
  bmgb.to_bmg returned self
    = bmgb.Returns [bmgb.add_constant (bt.VFloat (Finite (1 # 2)));
                    bmgb.add_distribution_BERNOULLI_BOOLEAN [0];
                    bmgb.add_operator bmgb.SAMPLE [1];
                    bmgb.query 2] /\
  ((exists g, bmgb.to_bmg returned self = bmgb.Returns g) ->
   forall n i, (n, i) ∈ bmgb.nodes self -> bmgb.well_classed n = true) /\
  ((forall c g, exists i, returned c g = Ok i) ->
   ((exists g, bmgb.to_bmg returned self = bmgb.Returns g) <->
    (forall n i, (n, i) ∈ bmgb.nodes self -> bmgb.well_classed n = true))) /\
  (forall g, bmgb.to_bmg returned self = bmgb.Returns g ->
     length g = length (bmgb.nodes self)).
Proof.
  intros self returned. split; [reflexivity |].
  apply (to_bmg_returns_iff returned self).
  constructor; [constructor | apply example_query_acyclic].
Defined.

Lemma to_dot_edges_point_back_witness :
  let self := bmgb.add_node bmgb.BMGraphBuilder_init bmgb.example_query in
  exists calls, bmgb.to_dot (fun _ => "0.5") self = bmgb.Returns calls /\
    Forall (bmgb.points_back (length (bmgb.nodes self))) calls.
Proof.
  intros self. apply (to_dot_edges_point_back (fun _ => "0.5") self).
  constructor; [constructor | apply example_query_acyclic].
Defined.

